(** * A shallow embedding of [pipe.py]

    The pipeline has four luigi tasks: [DownloadDataset],
    [ExtractAndProcessFiles], [TrimProbesTable] and [DeleteOriginalData].
    Each task's [output], [requires] and [run] is transcribed below over an
    explicit world (a directory tree and the log), with Python exceptions as
    an error result that keeps the effects made before the raise. *)

From Stdlib Require Import String Ascii List Arith Lia Bool DecimalString.
From stdpp Require Import base option list strings.

Import ListNotations.
Local Open Scope string_scope.
Local Open Scope list_scope.

(** ** Python strings *)

Module Py.

Definition newline : ascii := "010"%char.
Definition tab : ascii := "009"%char.
Definition nl : string := String newline EmptyString.

(** [str(n)] for a non-negative integer. *)
Definition str_of_nat (n : nat) : string :=
  NilZero.string_of_uint (Nat.to_uint n).

Definition in_chars (c : ascii) (chars : string) : bool :=
  existsb (Ascii.eqb c) (list_ascii_of_string chars).

(** [s.startswith(p)] *)
Definition startswith (s p : string) : bool := String.prefix p s.

Fixpoint rev_string (s acc : string) : string :=
  match s with
  | EmptyString => acc
  | String c s' => rev_string s' (String c acc)
  end.

(** [s.endswith(p)] *)
Definition endswith (s p : string) : bool :=
  String.prefix (rev_string p EmptyString) (rev_string s EmptyString).

Fixpoint lstrip (s chars : string) : string :=
  match s with
  | EmptyString => EmptyString
  | String c s' => if in_chars c chars then lstrip s' chars else s
  end.

Definition rstrip (s chars : string) : string :=
  rev_string (lstrip (rev_string s EmptyString) chars) EmptyString.

(** [s.strip(chars)]: every leading and trailing character that belongs to
    [chars] is removed. *)
Definition strip (s chars : string) : string := rstrip (lstrip s chars) chars.

(** [s.split(c)] for a one-character separator; the empty string gives one
    empty piece. *)
Fixpoint split_on (c : ascii) (s : string) : list string :=
  match s with
  | EmptyString => [EmptyString]
  | String a s' =>
      if Ascii.eqb a c then EmptyString :: split_on c s'
      else match split_on c s' with
           | [] => [String a EmptyString]
           | w :: ws => String a w :: ws
           end
  end.

(** [c.join(ws)] *)
Definition join (sep : string) (ws : list string) : string :=
  String.concat sep ws.

(** [f.readlines()]: the lines of a text, each with its line end kept; a
    last line without a line end is a line too. *)
Fixpoint readlines (s : string) : list string :=
  match s with
  | EmptyString => []
  | String a s' =>
      if Ascii.eqb a newline then String a EmptyString :: readlines s'
      else match readlines s' with
           | [] => [String a EmptyString]
           | l :: ls => String a l :: ls
           end
  end.

(** [s[n:]] *)
Fixpoint drop_string (n : nat) (s : string) : string :=
  match n, s with
  | O, _ => s
  | S n', String _ s' => drop_string n' s'
  | S _, EmptyString => EmptyString
  end.

(** [s.replace(old, new)]: every occurrence of [old], left to right and
    without overlap, for a non-empty [old] (the only use in the program). *)
Fixpoint replace_fuel (fuel : nat) (s old new : string) : string :=
  match fuel with
  | O => s
  | S fuel' =>
      match s with
      | EmptyString => EmptyString
      | String c s' =>
          if String.prefix old s
          then new +:+ replace_fuel fuel' (drop_string (String.length old) s) old new
          else String c (replace_fuel fuel' s' old new)
      end
  end.

Definition replace (s old new : string) : string :=
  match old with
  | EmptyString => s
  | _ => replace_fuel (String.length s) s old new
  end.

(** Truth value of an optional string, as in [if write_key:]; [None] and the
    empty string are false. *)
Definition truthy (k : option string) : bool :=
  match k with
  | None | Some EmptyString => false
  | Some _ => true
  end.

End Py.

(** ** Exceptions and results *)

(** The exceptions the program meets.  [FileNotFoundError msg] is the one
    the program raises itself, [raise FileNotFoundError(msg)]; the
    [FileNotFoundError] of the operating system ([Errno 2], with the path it
    did not find) is [ENOENT].  These and the next five are subclasses of
    [OSError].  [EmptyDataError] and [ParserError] are raised by
    [pandas.read_csv], [ReadError] by [tarfile.open], [BadGzipFile] by
    [gzip], [DownloadError] stands for a failed [wget.download], and
    [RuntimeError] is raised by the luigi worker. *)
Inductive exn : Type :=
| FileNotFoundError (msg : string)
| ENOENT (path : string)
| FileExistsError (path : string)
| NotADirectoryError (path : string)
| IsADirectoryError (path : string)
| PermissionError (path : string)
| DirectoryNotEmpty (path : string)
| EmptyDataError
| ParserError (expected line saw : nat)
| ReadError (path : string)
| BadGzipFile
| DownloadError (url : string)
| RuntimeError (msg : string).

Definition is_OSError (e : exn) : bool :=
  match e with
  | FileNotFoundError _ | ENOENT _ | FileExistsError _ | NotADirectoryError _
  | IsADirectoryError _ | PermissionError _ | DirectoryNotEmpty _
  | BadGzipFile => true
  | _ => false
  end.

Inductive result (A : Type) : Type :=
| Ok (a : A)
| Raise (e : exn).
Arguments Ok {A} a.
Arguments Raise {A} e.

Definition rbind {A B} (r : result A) (k : A -> result B) : result B :=
  match r with
  | Ok a => k a
  | Raise e => Raise e
  end.

(** ** The fragment of pandas the program uses *)

Module pd.

(** A column label is a string read from a header row, or an integer when
    the table is read with [header=None]. *)
Inductive label : Type :=
| IntLabel (n : nat)
| StrLabel (s : string).

Definition label_eqb (a b : label) : bool :=
  match a, b with
  | IntLabel n, IntLabel m => Nat.eqb n m
  | StrLabel s, StrLabel t => String.eqb s t
  | _, _ => false
  end.

Definition str_of_label (l : label) : string :=
  match l with
  | IntLabel n => Py.str_of_nat n
  | StrLabel s => s
  end.

(** A table: its column labels and its rows.  A cell is the text of its
    field; the empty text stands for a missing value.  pandas' inference of
    cell types and its quoting rules are outside the model, and so is the
    row index, which the program never writes ([index=False]). *)
Record DataFrame : Type := {
  columns : list label;
  rows : list (list string)
}.

(** The [header] argument of [read_csv]: ['infer'] (the default) or [None]. *)
Inductive header_arg : Type :=
| HeaderInfer
| HeaderNone.

(** A line is skipped by the reader when it holds nothing but spaces. *)
Definition blank (line : string) : bool :=
  forallb (Ascii.eqb " "%char) (list_ascii_of_string line).

Definition text_lines (text : string) : list string :=
  filter (fun l => blank l = false) (Py.split_on Py.newline text).

Definition fields (line : string) : list string := Py.split_on Py.tab line.

(** Rows after the first are checked against the expected width: a longer
    row is a [ParserError], a shorter one is filled with missing values. *)
Fixpoint parse_rows (width line_no : nat) (ls : list string)
  : result (list (list string)) :=
  match ls with
  | [] => Ok []
  | l :: ls' =>
      let fs := fields l in
      if Nat.ltb width (length fs)
      then Raise (ParserError width line_no (length fs))
      else rbind (parse_rows width (S line_no) ls')
             (fun rs => Ok ((fs ++ repeat EmptyString (width - length fs)) :: rs))
  end.

Section read_csv.

(** pandas renames the empty and the repeated names of a header row; how
    exactly has changed between its versions, so the renaming is a
    parameter. *)
Variable mangle_dupe_cols : list string -> list string.

(** [pd.read_csv(buffer, sep='\t', header=header)] on the text of the
    buffer.  A text without any non-blank line raises [EmptyDataError].
    With ['infer'] the first line gives the names; the width of the data is
    that of the longer of the header and the first data row, and the fields
    that a wider first data row has in front become the row index.  With
    [None] the first line is data and the labels are [0 .. width-1]. *)
Definition read_csv (text : string) (header : header_arg) : result DataFrame :=
  match text_lines text with
  | [] => Raise EmptyDataError
  | l0 :: rest =>
      match header with
      | HeaderNone =>
          let width := length (fields l0) in
          rbind (parse_rows width 1 (l0 :: rest))
            (fun rs => Ok {| columns := map IntLabel (seq 0 width); rows := rs |})
      | HeaderInfer =>
          let names := fields l0 in
          let width :=
            match rest with
            | [] => length names
            | r1 :: _ => Nat.max (length names) (length (fields r1))
            end in
          rbind (parse_rows width 2 rest)
            (fun rs =>
               Ok {| columns := map StrLabel (mangle_dupe_cols names);
                     rows := map (skipn (width - length names)) rs |})
      end
  end.

End read_csv.

(** A line of the written file: the fields joined by tabs, and the line
    end. *)
Definition csv_line (cells : list string) : string :=
  Py.join (String Py.tab EmptyString) cells +:+ Py.nl.

Fixpoint concat_lines (ls : list string) : string :=
  match ls with
  | [] => EmptyString
  | l :: ls' => l +:+ concat_lines ls'
  end.

(** [df.to_csv(path, sep='\t', index=False)]: the text written, a header
    line and one line per row. *)
Definition to_csv (df : DataFrame) : string :=
  csv_line (map str_of_label (columns df)) +:+ concat_lines (map csv_line (rows df)).

Definition label_in (l : label) (names : list string) : bool :=
  existsb (fun n => label_eqb l (StrLabel n)) names.

(** Keep the positions of [xs] whose flag is set. *)
Fixpoint select {A} (keep : list bool) (xs : list A) : list A :=
  match keep, xs with
  | true :: keep', x :: xs' => x :: select keep' xs'
  | false :: keep', _ :: xs' => select keep' xs'
  | _, _ => []
  end.

(** [df.drop(columns=names, errors='ignore')]: the columns whose label is
    in [names] are removed with their cells; a name that labels no column
    is ignored. *)
Definition drop (df : DataFrame) (names : list string) : DataFrame :=
  let keep := map (fun l => negb (label_in l names)) (columns df) in
  {| columns := select keep (columns df);
     rows := map (select keep) (rows df) |}.

End pd.

(** ** [os.path] (posixpath) *)

Module os_path.

Definition sep : ascii := "/"%char.

(** Split at the last occurrence of [c]: what is before it, what is after. *)
Fixpoint rsplit (c : ascii) (s : string) : option (string * string) :=
  match s with
  | EmptyString => None
  | String a s' =>
      match rsplit c s' with
      | Some (x, y) => Some (String a x, y)
      | None => if Ascii.eqb a c then Some (EmptyString, s') else None
      end
  end.

Definition all_chars (c : ascii) (s : string) : bool :=
  forallb (Ascii.eqb c) (list_ascii_of_string s).

(** [os.path.join(a, b)] *)
Definition join (a b : string) : string :=
  if Py.startswith b "/" then b
  else if (String.eqb a EmptyString || Py.endswith a "/")%bool then a +:+ b
  else a +:+ "/" +:+ b.

(** [os.path.basename(p)] *)
Definition basename (p : string) : string :=
  match rsplit sep p with
  | Some (_, b) => b
  | None => p
  end.

(** [os.path.dirname(p)] *)
Definition dirname (p : string) : string :=
  match rsplit sep p with
  | Some (h, _) => if all_chars sep h then h +:+ "/" else Py.rstrip h "/"
  | None => EmptyString
  end.

(** [os.path.splitext(p)[0]]: [p] without its extension.  The extension
    starts at the last dot of the last component, unless only dots precede
    it there. *)
Definition splitext_root (p : string) : string :=
  match rsplit "."%char p with
  | None => p
  | Some (before, after) =>
      if Py.in_chars sep after then p
      else if all_chars "."%char (basename before) then p
      else before
  end.

End os_path.

(** ** The file system and the log *)

Module fs.

(** A node of the directory tree.  A directory lists its entries in the
    order [os.scandir] reports them and records whether entries may be
    added to it and removed from it (the write permission on it). *)
#[warnings="-register-all"]
Inductive node : Type :=
| File (data : string)
| Dir (writable : bool) (entries : list (string * node)).

Definition is_dir (n : node) : bool :=
  match n with Dir _ _ => true | File _ => false end.

Definition is_file (n : node) : bool :=
  match n with File _ => true | Dir _ _ => false end.

Fixpoint lookup_entry (name : string) (es : list (string * node)) : option node :=
  match es with
  | [] => None
  | (n, c) :: es' => if String.eqb n name then Some c else lookup_entry name es'
  end.

Definition remove_entry (name : string) (es : list (string * node))
  : list (string * node) :=
  filter (fun e => String.eqb (fst e) name = false) es.

Fixpoint replace_entry (name : string) (c : node) (es : list (string * node))
  : list (string * node) :=
  match es with
  | [] => [(name, c)]
  | (n, c0) :: es' =>
      if String.eqb n name then (n, c) :: es'
      else (n, c0) :: replace_entry name c es'
  end.

Definition set_entry (name : string) (c : option node) (es : list (string * node))
  : list (string * node) :=
  match c with
  | Some c' => replace_entry name c' es
  | None => remove_entry name es
  end.

(** The components of a path.  The root of the tree stands for the working
    directory; empty components and [.] are skipped.  The model has nothing
    above its root: [..] is an ordinary name, and a leading [/] is resolved
    from the root too. *)
Definition components (p : string) : list string :=
  filter (fun c => (negb (String.eqb c EmptyString) && negb (String.eqb c "."))%bool = true)
    (Py.split_on os_path.sep p).

(** The empty path names nothing. *)
Definition resolve (p : string) : option (list string) :=
  match p with
  | EmptyString => None
  | _ => Some (components p)
  end.

Fixpoint lookup (t : node) (p : list string) : option node :=
  match p with
  | [] => Some t
  | n :: p' =>
      match t with
      | File _ => None
      | Dir _ es =>
          match lookup_entry n es with
          | Some c => lookup c p'
          | None => None
          end
      end
  end.

(** Act on the entry that the components [p] name: [act] receives the write
    permission of the parent directory and the entry, if there is one, and
    answers with the entry to put in its place ([None] removes it). *)
Fixpoint at_entry (path : string) (p : list string)
    (act : bool -> option node -> result (option node)) (t : node) : result node :=
  match p with
  | [] => Raise (PermissionError path)
  | n :: p' =>
      match t with
      | File _ => Raise (NotADirectoryError path)
      | Dir w es =>
          match p' with
          | [] => rbind (act w (lookup_entry n es))
                    (fun r => Ok (Dir w (set_entry n r es)))
          | _ :: _ =>
              match lookup_entry n es with
              | None => Raise (ENOENT path)
              | Some c => rbind (at_entry path p' act c)
                            (fun c' => Ok (Dir w (replace_entry n c' es)))
              end
          end
      end
  end.

(** [os.makedirs(path, exist_ok=True)] on the tree: every missing directory
    on the way is created; a file in the way is an error. *)
Fixpoint makedirs_at (path : string) (p : list string) (t : node) : result node :=
  match p with
  | [] =>
      match t with
      | Dir _ _ => Ok t
      | File _ => Raise (FileExistsError path)
      end
  | n :: p' =>
      match t with
      | File _ => Raise (NotADirectoryError path)
      | Dir w es =>
          match lookup_entry n es with
          | Some c => rbind (makedirs_at path p' c)
                        (fun c' => Ok (Dir w (replace_entry n c' es)))
          | None =>
              if w then rbind (makedirs_at path p' (Dir true []))
                          (fun c' => Ok (Dir w (replace_entry n c' es)))
              else Raise (PermissionError path)
          end
      end
  end.

Definition write_act (path data : string) (w : bool) (e : option node)
  : result (option node) :=
  match e with
  | Some (File _) => Ok (Some (File data))
  | Some (Dir _ _) => Raise (IsADirectoryError path)
  | None => if w then Ok (Some (File data)) else Raise (PermissionError path)
  end.

Definition remove_act (path : string) (w : bool) (e : option node)
  : result (option node) :=
  match e with
  | None => Raise (ENOENT path)
  | Some (Dir _ _) => Raise (IsADirectoryError path)
  | Some (File _) => if w then Ok None else Raise (PermissionError path)
  end.

Definition rmdir_act (path : string) (w : bool) (e : option node)
  : result (option node) :=
  match e with
  | None => Raise (ENOENT path)
  | Some (File _) => Raise (NotADirectoryError path)
  | Some (Dir _ es) =>
      if w then match es with
                | [] => Ok None
                | _ :: _ => Raise (DirectoryNotEmpty path)
                end
      else Raise (PermissionError path)
  end.

Definition entries_of (n : node) : list (string * node) :=
  match n with
  | Dir _ es => es
  | File _ => []
  end.

Definition dir_names (es : list (string * node)) : list string :=
  map fst (filter (fun e => is_dir (snd e) = true) es).

Definition file_names (es : list (string * node)) : list string :=
  map fst (filter (fun e => is_file (snd e) = true) es).

(** [os.walk(top)] over a directory: the triples [(root, dirs, files)],
    a directory before its sub-directories. *)
Fixpoint walk_topdown (top : string) (t : node)
  : list (string * list string * list string) :=
  match t with
  | File _ => []
  | Dir _ es =>
      (top, dir_names es, file_names es) ::
      (fix below (l : list (string * node)) :=
         match l with
         | [] => []
         | (n, c) :: l' => walk_topdown (os_path.join top n) c ++ below l'
         end) es
  end.

(** [os.walk(top, topdown=False)]: a directory after its sub-directories. *)
Fixpoint walk_bottomup (top : string) (t : node)
  : list (string * list string * list string) :=
  match t with
  | File _ => []
  | Dir _ es =>
      (fix below (l : list (string * node)) :=
         match l with
         | [] => []
         | (n, c) :: l' => walk_bottomup (os_path.join top n) c ++ below l'
         end) es ++ [(top, dir_names es, file_names es)]
  end.

End fs.

(** ** The world and the program monad *)

Inductive level : Type := INFO | WARNING | ERROR | STDOUT.

(** What a run can observe and change: the directory tree and the records
    handed to [logging] (and to [print]), oldest first. *)
Record world : Type := {
  root : fs.node;
  log : list (level * string)
}.

(** A computation either returns or raises; in both cases the world keeps
    every effect made so far. *)
Definition M (A : Type) : Type := world -> result A * world.

Definition ret {A} (a : A) : M A := fun w => (Ok a, w).

Definition raise {A} (e : exn) : M A := fun w => (Raise e, w).

Definition bind {A B} (m : M A) (k : A -> M B) : M B :=
  fun w =>
    match m w with
    | (Ok a, w') => k a w'
    | (Raise e, w') => (Raise e, w')
    end.

#[global] Instance M_ret : MRet M := @ret.
#[global] Instance M_bind : MBind M := fun A B k m => bind m k.

(** [try: body except <class> as e: handler e]; [catches] tells the
    exceptions of the class. *)
Definition try_except {A} (body : M A) (catches : exn -> bool)
    (handler : exn -> M A) : M A :=
  fun w =>
    match body w with
    | (Ok a, w') => (Ok a, w')
    | (Raise e, w') => if catches e then handler e w' else (Raise e, w')
    end.

(** [for x in xs: body x] *)
Fixpoint for_each {A} (xs : list A) (body : A -> M unit) : M unit :=
  match xs with
  | [] => ret tt
  | x :: xs' => body x;; for_each xs' body
  end.

Definition when (b : bool) (m : M unit) : M unit := if b then m else ret tt.

(** A pure computation that may raise. *)
Definition lift {A} (r : result A) : M A := fun w => (r, w).

(** A change of the tree; a failed change leaves it as it was. *)
Definition update_tree (f : fs.node -> result fs.node) : M unit :=
  fun w =>
    match f (root w) with
    | Ok t => (Ok tt, {| root := t; log := log w |})
    | Raise e => (Raise e, w)
    end.

Definition emit (l : level) (msg : string) : M unit :=
  fun w => (Ok tt, {| root := root w; log := log w ++ [(l, msg)] |}).

Module logging.
Definition info := emit INFO.
Definition warning := emit WARNING.
Definition error := emit ERROR.
End logging.

Definition print := emit STDOUT.

(** [str(e)] for the message of a log record. *)
Definition str_of_exn (e : exn) : string :=
  match e with
  | FileNotFoundError m => m
  | ENOENT p => "No such file or directory: " +:+ p
  | FileExistsError p => "File exists: " +:+ p
  | NotADirectoryError p => "Not a directory: " +:+ p
  | IsADirectoryError p => "Is a directory: " +:+ p
  | PermissionError p => "Permission denied: " +:+ p
  | DirectoryNotEmpty p => "Directory not empty: " +:+ p
  | EmptyDataError => "No columns to parse from file"
  | ParserError _ _ _ => "Error tokenizing data"
  | ReadError p => "file could not be opened successfully: " +:+ p
  | BadGzipFile => "Not a gzipped file"
  | DownloadError u => "download failed: " +:+ u
  | RuntimeError m => m
  end.

(** [str(xs)] for a list of strings. *)
Definition str_of_list (xs : list string) : string :=
  "[" +:+ Py.join ", " (map (fun x => "'" +:+ x +:+ "'") xs) +:+ "]".

(** ** [os] *)

Module os.

Definition node_at (w : world) (path : string) : option fs.node :=
  match fs.resolve path with
  | Some p => fs.lookup (root w) p
  | None => None
  end.

(** [os.path.exists], [os.path.isfile], [os.path.isdir] *)
Definition path_exists (path : string) : M bool :=
  fun w => (Ok (match node_at w path with Some _ => true | None => false end), w).

Definition path_isfile (path : string) : M bool :=
  fun w => (Ok (match node_at w path with Some n => fs.is_file n | None => false end), w).

Definition path_isdir (path : string) : M bool :=
  fun w => (Ok (match node_at w path with Some n => fs.is_dir n | None => false end), w).

Definition on_entry (path : string)
    (act : bool -> option fs.node -> result (option fs.node)) : M unit :=
  match fs.resolve path with
  | Some p => update_tree (fs.at_entry path p act)
  | None => raise (ENOENT path)
  end.

(** [os.makedirs(path, exist_ok=True)] *)
Definition makedirs (path : string) : M unit :=
  match fs.resolve path with
  | Some p => update_tree (fs.makedirs_at path p)
  | None => raise (ENOENT path)
  end.

(** [os.remove(path)] *)
Definition remove (path : string) : M unit := on_entry path (fs.remove_act path).

(** [os.rmdir(path)] *)
Definition rmdir (path : string) : M unit := on_entry path (fs.rmdir_act path).

(** [os.walk(top)] and [os.walk(top, topdown=False)].  A top that is not a
    directory gives no triple.  The listing of a directory is taken when the
    walk reaches it; the only loop of the program that changes the tree
    while walking removes directories whose sub-tree the walk has left, so
    the triples are those of the tree at the start of the loop. *)
Definition walk (top : string) : M (list (string * list string * list string)) :=
  fun w => (Ok (match node_at w top with
                | Some t => fs.walk_topdown top t
                | None => []
                end), w).

Definition walk_bottomup (top : string)
  : M (list (string * list string * list string)) :=
  fun w => (Ok (match node_at w top with
                | Some t => fs.walk_bottomup top t
                | None => []
                end), w).

End os.

(** [with open(path, 'w') as f: f.write(data)] (and ['wb']) *)
Definition write_file (path data : string) : M unit :=
  os.on_entry path (fs.write_act path data).

(** [with open(path) as f: f.read()] *)
Definition read_file (path : string) : M string :=
  fun w =>
    match os.node_at w path with
    | Some (fs.File data) => (Ok data, w)
    | Some (fs.Dir _ _) => (Raise (IsADirectoryError path), w)
    | None => (Raise (ENOENT path), w)
    end.

(** ** External collaborators *)

(** An entry of a tar archive, as [tarfile] reports it. *)
Record TarInfo : Type := {
  name : string;
  isfile : bool;
  payload : string
}.

(** The libraries the program calls and the repository does not contain:
    the network fetch, the two decoders, and pandas' renaming of header
    names.  A decoder answers [None] on content it cannot decode. *)
Record External : Type := {
  wget_download : string -> option string;
  tarfile_open : string -> option (list TarInfo);
  gzip_read : string -> option string;
  mangle_dupe_cols : list string -> list string
}.

(** ** The tasks *)

(** A luigi task with the values of its parameters. *)
Inductive Task : Type :=
| DownloadDataset (dataset_id download_dir : string)
| ExtractAndProcessFiles (dataset_id download_dir output_dir : string)
| TrimProbesTable (dataset_id download_dir processed_data_dir output_dir : string)
| DeleteOriginalData (dataset_id download_dir processed_data_dir output_dir : string).

(** A parameter that the constructor call does not pass takes its default. *)
Definition param (dflt : string) (arg : option string) : string :=
  match arg with
  | Some v => v
  | None => dflt
  end.

(** The constructor calls, with the defaults of the [luigi.Parameter]
    declarations. *)
Definition new_DownloadDataset (dataset_id download_dir : option string) : Task :=
  DownloadDataset (param "GSE68849" dataset_id) (param "data" download_dir).

Definition new_ExtractAndProcessFiles
    (dataset_id download_dir output_dir : option string) : Task :=
  ExtractAndProcessFiles (param "GSE68849" dataset_id) (param "data" download_dir)
    (param "processed_data" output_dir).

Definition new_TrimProbesTable
    (dataset_id download_dir processed_data_dir output_dir : option string) : Task :=
  TrimProbesTable (param "GSE68849" dataset_id) (param "data" download_dir)
    (param "processed_data" processed_data_dir) (param "trimmed_probes" output_dir).

Definition new_DeleteOriginalData
    (dataset_id download_dir processed_data_dir output_dir : option string) : Task :=
  DeleteOriginalData (param "GSE68849" dataset_id) (param "data" download_dir)
    (param "processed_data" processed_data_dir) (param "trimmed_probes" output_dir).

(** [requires]: the upstream task, built on demand. *)
Definition requires (t : Task) : option Task :=
  match t with
  | DownloadDataset _ _ => None
  | ExtractAndProcessFiles dataset_id download_dir _ =>
      Some (new_DownloadDataset (Some dataset_id) (Some download_dir))
  | TrimProbesTable dataset_id _ _ _ =>
      Some (new_ExtractAndProcessFiles (Some dataset_id) None None)
  | DeleteOriginalData dataset_id _ _ _ =>
      Some (new_TrimProbesTable (Some dataset_id) None None None)
  end.

(** [output().path]: the path of the task's [LocalTarget]. *)
Definition output (t : Task) : string :=
  match t with
  | DownloadDataset dataset_id download_dir =>
      os_path.join download_dir (dataset_id +:+ "_RAW.tar")
  | ExtractAndProcessFiles _ _ output_dir => output_dir
  | TrimProbesTable _ _ _ output_dir => os_path.join output_dir "Probes_trimmed.tsv"
  | DeleteOriginalData _ _ processed_data_dir _ =>
      os_path.join processed_data_dir "delete_original_data.done"
  end.

(** [input().path]: the output of the required task. *)
Definition input (t : Task) : string :=
  match requires t with
  | Some u => output u
  | None => EmptyString
  end.

(** [LocalTarget.open('w')] followed by one [write]: luigi tries to create
    the parent directory, passing over an [OSError] of that attempt, then
    the file appears with its whole content. *)
Definition target_write (path data : string) : M unit :=
  let parentfolder := os_path.dirname path in
  when (negb (String.eqb parentfolder EmptyString))
    (try_except (os.makedirs parentfolder) is_OSError (fun _ => ret tt));;
  write_file path data.

Section Program.

Variable ext : External.

(** *** [DownloadDataset.run] *)

Definition DownloadDataset_run (dataset_id download_dir : string) : M unit :=
  let self := DownloadDataset dataset_id download_dir in
  os.makedirs download_dir;;
  let url := "ftp://ftp.ncbi.nlm.nih.gov/geo/series/GSE68nnn/" +:+ dataset_id
             +:+ "/suppl/" +:+ dataset_id +:+ "_RAW.tar" in
  print ("Начинаем загрузку: " +:+ url);;
  match wget_download ext url with
  | Some data => write_file (output self) data
  | None => raise (DownloadError url)
  end;;
  print ("Загрузка завершена и сохранена в " +:+ output self).

(** *** [ExtractAndProcessFiles.process_file] *)

(** [dfs[key] = df] on a dict kept in insertion order: a key that is
    already there keeps its place and takes the new value. *)
Fixpoint dict_set {V} (key : string) (v : V) (d : list (string * V))
  : list (string * V) :=
  match d with
  | [] => [(key, v)]
  | (k, v0) :: d' =>
      if String.eqb k key then (k, v) :: d' else (k, v0) :: dict_set key v d'
  end.

Fixpoint dict_get {V} (key : string) (d : list (string * V)) : option V :=
  match d with
  | [] => None
  | (k, v) :: d' => if String.eqb k key then Some v else dict_get key d'
  end.

(** The variables of the scanning loop. *)
Record scan : Type := {
  dfs : list (string * pd.DataFrame);
  write_key : option string;
  fio : string
}.

Definition scan_start : scan :=
  {| dfs := []; write_key := None; fio := EmptyString |}.

(** The body of [for line in f.readlines()]. *)
Definition scan_line (st : scan) (line : string) : result scan :=
  if Py.startswith line "[" then
    rbind
      (match write_key st with
       | Some key =>
           if Py.truthy (write_key st) then
             let header :=
               if String.eqb key "Heading" then pd.HeaderNone else pd.HeaderInfer in
             rbind (pd.read_csv (mangle_dupe_cols ext) (fio st) header)
               (fun df => Ok (dict_set key df (dfs st)))
           else Ok (dfs st)
       | None => Ok (dfs st)
       end)
      (fun dfs' =>
         Ok {| dfs := dfs';
               write_key := Some (Py.strip line ("[]" +:+ Py.nl));
               fio := EmptyString |})
  else if Py.truthy (write_key st) then
    Ok {| dfs := dfs st; write_key := write_key st; fio := fio st +:+ line |}
  else Ok st.

Fixpoint scan_lines (st : scan) (lines : list string) : result scan :=
  match lines with
  | [] => Ok st
  | line :: lines' => rbind (scan_line st line) (fun st' => scan_lines st' lines')
  end.

(** After the loop: the buffer of the last key, read with the default
    header. *)
Definition scan_end (st : scan) : result (list (string * pd.DataFrame)) :=
  match write_key st with
  | Some key =>
      if Py.truthy (write_key st) then
        rbind (pd.read_csv (mangle_dupe_cols ext) (fio st) pd.HeaderInfer)
          (fun df => Ok (dict_set key df (dfs st)))
      else Ok (dfs st)
  | None => Ok (dfs st)
  end.

(** The tables of the lines of a file: the loop, then the last key. *)
Definition parse_lines (lines : list string) : result (list (string * pd.DataFrame)) :=
  rbind (scan_lines scan_start lines) scan_end.

(** The tables of a text: the first half of [process_file]. *)
Definition parse_sections (text : string) : result (list (string * pd.DataFrame)) :=
  parse_lines (Py.readlines text).

(** The name of the file that holds the table of [key]. *)
Definition table_path (file_path key : string) : string :=
  let output_file_name :=
    os_path.splitext_root (os_path.basename file_path) +:+ "_" +:+ key +:+ ".tsv" in
  os_path.join (os_path.dirname file_path) output_file_name.

Definition process_file (file_path : string) : M unit :=
  text ← read_file file_path;
  dfs ← lift (parse_sections text);
  for_each dfs (fun '(key, df) =>
    let output_file_path := table_path file_path key in
    write_file output_file_path (pd.to_csv df);;
    logging.info ("Saved processed file: " +:+ output_file_path)).

(** *** [ExtractAndProcessFiles.run] *)

Definition extract_member (output_dir : string) (member : TarInfo) : M unit :=
  when (isfile member && Py.endswith (name member) ".txt.gz")
    (let member_name := os_path.splitext_root (name member) in
     let extraction_dir := os_path.join output_dir member_name in
     os.makedirs extraction_dir;;
     logging.info ("Extracting file " +:+ name member +:+ " to " +:+ extraction_dir);;
     let output_file_path := os_path.join extraction_dir member_name in
     match gzip_read ext (payload member) with
     | Some file_content => write_file output_file_path file_content
     | None => raise BadGzipFile
     end;;
     logging.info ("File extracted and saved: " +:+ output_file_path);;
     process_file output_file_path).

Definition ExtractAndProcessFiles_run (dataset_id download_dir output_dir : string)
  : M unit :=
  let self := ExtractAndProcessFiles dataset_id download_dir output_dir in
  os.makedirs output_dir;;
  let tar_path := input self in
  logging.info ("Opening TAR file at " +:+ tar_path);;
  is_file ← os.path_isfile tar_path;
  when (negb is_file)
    (logging.error ("TAR file does not exist: " +:+ tar_path);;
     raise (FileNotFoundError ("TAR file does not exist: " +:+ tar_path)));;
  archive ← read_file tar_path;
  match tarfile_open ext archive with
  | None => raise (ReadError tar_path)
  | Some members =>
      logging.info ("Extracting files from " +:+ tar_path);;
      for_each members (extract_member output_dir)
  end;;
  logging.info "All files extracted and processed.".

(** *** [TrimProbesTable.run] *)

Definition columns_to_remove : list string :=
  [ "Definition";
    "Ontology_Component";
    "Ontology_Process";
    "Ontology_Function";
    "Synonyms";
    "Obsolete_Probe_Id";
    "Probe_Sequence" ].

(** The paths of the files under [processed_data_dir] whose name ends with
    [_Probes.tsv], in the order of the walk. *)
Definition find_probes_files (processed_data_dir : string) : M (list string) :=
  triples ← os.walk processed_data_dir;
  ret (flat_map (fun '(root, dirs, files) =>
          map (os_path.join root)
            (filter (fun file => Py.endswith file "_Probes.tsv" = true) files))
        triples).

Definition trimmed_path (self : Task) (probes_file_path : string) : string :=
  os_path.join (os_path.dirname (output self))
    (Py.replace (os_path.basename probes_file_path)
       "_Probes.tsv" "_trimmed_Probes.tsv").

(** The body of [for probes_file_path in probes_files]. *)
Definition trim_probes_file (self : Task) (probes_file_path : string) : M unit :=
  logging.info ("Loading Probes file: " +:+ probes_file_path);;
  text ← read_file probes_file_path;
  probes_df ← lift (pd.read_csv (mangle_dupe_cols ext) text pd.HeaderInfer);
  let trimmed_probes_df := pd.drop probes_df columns_to_remove in
  let trimmed_file_path := trimmed_path self probes_file_path in
  write_file trimmed_file_path (pd.to_csv trimmed_probes_df);;
  logging.info ("Trimmed probes table saved to: " +:+ trimmed_file_path).

Definition completion_text : string :=
  "Trimmed Probes processing completed." +:+ Py.nl.

Definition TrimProbesTable_run
    (dataset_id download_dir processed_data_dir output_dir : string) : M unit :=
  let self := TrimProbesTable dataset_id download_dir processed_data_dir output_dir in
  os.makedirs output_dir;;
  probes_files ← find_probes_files processed_data_dir;
  when (match probes_files with [] => true | _ => false end)
    (logging.error ("No Probes files found in the directory: " +:+ processed_data_dir);;
     raise (FileNotFoundError
              ("No Probes files found in the directory: " +:+ processed_data_dir)));;
  for_each probes_files (trim_probes_file self);;
  target_write (output self) completion_text.

(** *** [DeleteOriginalData.run] *)

(** The directories and the files under [processed_data_dir]: for each
    directory of the walk its sub-directories, then its files. *)
Definition find_original_items (processed_data_dir : string) : M (list string) :=
  triples ← os.walk processed_data_dir;
  ret (flat_map (fun '(root, dirs, files) =>
          map (os_path.join root) dirs ++ map (os_path.join root) files)
        triples).

(** The body of the loop that deletes the files. *)
Definition delete_file (file : string) : M unit :=
  is_file ← os.path_isfile file;
  when is_file
    (logging.info ("Preparing to delete file: " +:+ file);;
     try_except
       (os.remove file;;
        logging.info ("File deleted successfully: " +:+ file))
       (fun _ => true)
       (fun e => logging.error
                   ("Error deleting file " +:+ file +:+ ": " +:+ str_of_exn e))).

(** The body of the loop that deletes the directories. *)
Definition delete_dir (dir_path : string) : M unit :=
  try_except
    (os.rmdir dir_path;;
     logging.info ("Directory deleted successfully: " +:+ dir_path))
    is_OSError
    (fun e => logging.warning
                ("Directory not empty or could not be deleted: " +:+ dir_path
                 +:+ ", Error: " +:+ str_of_exn e)).

Definition DeleteOriginalData_run
    (dataset_id download_dir processed_data_dir output_dir : string) : M unit :=
  original_items ← find_original_items processed_data_dir;
  logging.info ("Found original files: " +:+ str_of_list original_items);;
  match original_items with
  | [] => logging.warning "No original files found to delete."
  | _ :: _ =>
      for_each original_items delete_file;;
      triples ← os.walk_bottomup processed_data_dir;
      for_each triples (fun '(root, dirs, files) =>
        for_each dirs (fun dir => delete_dir (os_path.join root dir)));;
      try_except
        (os.rmdir processed_data_dir;;
         logging.info ("Удален пустой основной каталог: " +:+ processed_data_dir))
        is_OSError
        (fun e => logging.warning
                    ("Не удалось удалить основной каталог " +:+ processed_data_dir
                     +:+ ": " +:+ str_of_exn e))
  end.

(** *** The luigi worker *)

Definition run (t : Task) : M unit :=
  match t with
  | DownloadDataset a b => DownloadDataset_run a b
  | ExtractAndProcessFiles a b c => ExtractAndProcessFiles_run a b c
  | TrimProbesTable a b c d => TrimProbesTable_run a b c d
  | DeleteOriginalData a b c d => DeleteOriginalData_run a b c d
  end.

(** [Task.complete()]: the output target exists. *)
Definition complete (t : Task) : M bool := os.path_exists (output t).

(** What the worker did with a task. *)
Inductive outcome : Type := Skipped | Done.

(** Building a task: a complete task is skipped and its requirements are
    not looked at; otherwise the required task is built first, it has to be
    complete before the task runs, and the task runs.  A failure anywhere
    ends the build.  The chain of requirements has at most four tasks, which
    bounds [depth]. *)
Fixpoint build_from (depth : nat) (t : Task) : M outcome :=
  bind (complete t) (fun is_complete : bool =>
    if is_complete then ret Skipped
    else
      match depth with
      | O => raise (RuntimeError "requirements nested too deep")
      | S depth' =>
          match requires t with
          | None => ret tt
          | Some u =>
              build_from depth' u;;
              fulfilled ← complete u;
              when (negb fulfilled)
                (raise (RuntimeError "Unfulfilled dependencies at run time"))
          end;;
          run t;;
          ret Done
      end).

Definition build (t : Task) : M outcome := build_from 4 t.

End Program.

(** ** Predicates on trees and runs *)

(** The files of a tree: the paths that lead to a file, with its content. *)
Definition same_files (t t' : fs.node) : Prop :=
  forall q data, fs.lookup t' q = Some (fs.File data) <-> fs.lookup t q = Some (fs.File data).

(** The exceptions that the libraries raise: all but the one raised by the
    program text. *)
Definition from_library (e : exn) : bool :=
  match e with
  | FileNotFoundError _ => false
  | _ => true
  end.

(** A computation whose exceptions all come from the libraries. *)
Definition raises_library {A} (m : M A) : Prop :=
  forall w e w', m w = (Raise e, w') -> from_library e = true.




(** ** A table seen by its columns *)

(** A table column by column, as the specification speaks of it: each
    label with the cells under it, from the first row to the last.  A row
    that ends before the column has a missing value there. *)
Fixpoint by_columns (labels : list pd.label) (rows : list (list string))
  : list (pd.label * list string) :=
  match labels with
  | [] => []
  | l :: ls =>
      (l, map (List.hd EmptyString) rows) :: by_columns ls (map (@List.tl string) rows)
  end.

Definition columns_of (df : pd.DataFrame) : list (pd.label * list string) :=
  by_columns (pd.columns df) (pd.rows df).

(** The cells of a row that stay when the columns labelled by [names] go:
    each cell goes with the label of its column, and those whose label is
    among [names] are taken out. *)
Definition kept_cells (names : list string) (labels : list pd.label)
    (row : list string) : list string :=
  map snd (List.filter (fun c => negb (pd.label_in (fst c) names)) (combine labels row)).

(** ** A file seen as its sections *)

(** A section of a file: the line that opens it and the lines up to the
    next such line. *)
Definition section : Type := (string * list string)%type.

Definition section_key (s : section) : string :=
  Py.strip (fst s) ("[]" +:+ Py.nl).

(** A section as the scanning loop meets it: its first line starts with
    [[], its name is not empty, and none of its other lines starts with
    [[]. *)
Definition well_formed_section (s : section) : Prop :=
  Py.startswith (fst s) "[" = true
  /\ Py.truthy (Some (section_key s)) = true
  /\ Forall (fun l => Py.startswith l "[" = false) (snd s).

(** The lines of a file made of sections. *)
Definition lines_of_sections (secs : list section) : list string :=
  flat_map (fun s => fst s :: snd s) secs.

(** What the sections of a file amount to, one after the other: the lines
    of a section are read as one table, without a header row when the
    section is named [Heading] and is not the last one, and the table is
    stored under the name of the section. *)
Fixpoint tables_of_sections (mangle : list string -> list string)
    (d : list (string * pd.DataFrame)) (secs : list section)
  : result (list (string * pd.DataFrame)) :=
  match secs with
  | [] => Ok d
  | s :: rest =>
      let header :=
        match rest with
        | [] => pd.HeaderInfer
        | _ :: _ =>
            if String.eqb (section_key s) "Heading" then pd.HeaderNone
            else pd.HeaderInfer
        end in
      rbind (pd.read_csv mangle (pd.concat_lines (snd s)) header)
        (fun df => tables_of_sections mangle (dict_set (section_key s) df d) rest)
  end.

(** The rest of a file closes the section before it: it is empty, or it
    starts with a section line. *)
Definition closes (rest : list string) : Prop :=
  match rest with
  | [] => True
  | l :: _ => Py.startswith l "[" = true
  end.

(** The header rule that the loop applies to the section of [key], by what
    closes it: the section that the end of the input closes is read with the
    inferred header, a section that a section line closes is read without a
    header row when it is named [Heading]. *)
Definition header_at (key : string) (rest : list string) : pd.header_arg :=
  match rest with
  | [] => pd.HeaderInfer
  | _ :: _ => if String.eqb key "Heading" then pd.HeaderNone else pd.HeaderInfer
  end.

(** What the loop holds at any time comes from the section lines seen. *)
Definition keys_from (P : string -> Prop) (st : scan) : Prop :=
  (forall k, In k (map fst (dfs st)) -> P k)
  /\ (forall k, write_key st = Some k -> Py.truthy (Some k) = true -> P k).

(** The tables that the search of the trimming stage finds under a node
    [t] reached as [top]; under nothing, it finds none. *)
Definition probes_in (top : string) (t : fs.node) : list string :=
  flat_map (fun '(root, dirs, files) =>
      map (os_path.join root)
        (filter (fun file => Py.endswith file "_Probes.tsv" = true) files))
    (fs.walk_topdown top t).

Definition probes_at (top : string) (n : option fs.node) : list string :=
  match n with
  | Some t => probes_in top t
  | None => []
  end.

(** Entry names as a file system has them: no name holds a [/]. *)
Fixpoint names_ok (t : fs.node) : bool :=
  match t with
  | fs.File _ => true
  | fs.Dir _ es =>
      forallb (fun e => negb (Py.in_chars os_path.sep (fst e)) && names_ok (snd e)) es
  end.

(** Two paths that part ways: at some place their components differ, so
    that neither leads into the other. *)
Fixpoint apart (p q : list string) : bool :=
  match p, q with
  | a :: p', b :: q' => if String.eqb a b then apart p' q' else true
  | _, _ => false
  end.

(** The later tree is the earlier one wherever a path parts ways with
    [p]. *)
Definition untouched_outside (p : list string) (t t' : fs.node) : Prop :=
  forall q, apart p q = true -> fs.lookup t' q = fs.lookup t q.

(** A computation that, on a tree with proper names, changes nothing
    outside [p] and leaves a tree with proper names. *)
Definition confined {A} (p : list string) (m : M A) : Prop :=
  forall w r w', m w = (r, w') -> names_ok (root w) = true ->
    names_ok (root w') = true /\ untouched_outside p (root w) (root w').

(** A path that leads to [p] or below it. *)
Definition under (p : list string) (path : string) : Prop :=
  exists rest, fs.components path = p ++ rest.

(** The triples of a walk whose directories and files all lie under
    [p]. *)
Definition triples_under (p : list string)
    (triples : list (string * list string * list string)) : Prop :=
  Forall (fun '(r, dirs, files) =>
            Forall (fun d => under p (os_path.join r d)) (dirs ++ files))
    triples.

(** A computation that changes nothing outside [p]. *)
Definition framed {A} (p : list string) (m : M A) : Prop :=
  forall w r w', m w = (r, w') -> untouched_outside p (root w) (root w').

(** A later tree that has everything the earlier one had: every path of the
    earlier tree is a path of the later one, to a node of the same kind. *)
Definition keeps (t t' : fs.node) : Prop :=
  forall q n, fs.lookup t q = Some n ->
              exists n', fs.lookup t' q = Some n' /\ fs.is_dir n' = fs.is_dir n.

(** A computation that, returning or raising, removes nothing from the
    tree. *)
Definition preserving {A} (m : M A) : Prop :=
  forall w r w', m w = (r, w') -> keeps (root w) (root w').

(** ** Sample inputs *)

Module Sample.

(** Collaborators for the samples: no network, no archive; header names
    are taken as they are, which is what pandas does with names that are
    distinct and not empty. *)
Definition ext : External :=
  {| wget_download := fun _ => None;
     tarfile_open := fun _ => None;
     gzip_read := fun _ => None;
     mangle_dupe_cols := fun names => names |}.

Definition line (cells : list string) : string := pd.csv_line cells.

(** The file of the scenario: a [Heading] section, then a [Probes]
    section. *)
Definition scenario : list string :=
  [ line ["[Heading]"];
    line ["a"; "b"];
    line ["[Probes]"];
    line ["ID_REF"; "Definition"; "Probe_Sequence"];
    line ["1"; "foo"; "ACGT"] ].

(** A file whose only section is [Heading]. *)
Definition heading_last : list string :=
  [ line ["[Heading]"]; line ["a"; "b"] ].

(** A file with two sections of the same name. *)
Definition twice : list string :=
  [ line ["[Probes]"]; line ["ID_REF"]; line ["1"];
    line ["[Probes]"]; line ["ID_REF"]; line ["2"] ].

(** A file whose first section has no line at all. *)
Definition empty_section : list string :=
  [ line ["[Heading]"]; line ["[Probes]"]; line ["ID_REF"]; line ["1"] ].

Definition probes_table : string :=
  pd.concat_lines [ line ["ID_REF"; "Definition"; "Probe_Sequence"];
                    line ["1"; "foo"; "ACGT"] ].

Definition empty_world : world :=
  {| root := fs.Dir true []; log := [] |}.

(** Two tables under [processed_data]; the first one is an empty file. *)
Definition two_tables : world :=
  {| root := fs.Dir true
       [ ("processed_data", fs.Dir true
            [ ("A.txt", fs.Dir true [ ("A_Probes.tsv", fs.File EmptyString) ]);
              ("B.txt", fs.Dir true [ ("B_Probes.tsv", fs.File probes_table) ]) ]) ];
     log := [] |}.

(** One table under [processed_data]. *)
Definition one_table : world :=
  {| root := fs.Dir true
       [ ("processed_data", fs.Dir true
            [ ("B.txt", fs.Dir true [ ("B_Probes.tsv", fs.File probes_table) ]) ]) ];
     log := [] |}.

(** A directory of extracted data without any [Probes] table. *)
Definition no_tables : world :=
  {| root := fs.Dir true
       [ ("processed_data", fs.Dir true
            [ ("B.txt", fs.Dir true [ ("B.txt", fs.File EmptyString) ]) ]) ];
     log := [] |}.

(** Extracted data without a [Probes] table, where the name of the
    directory of the trimmed tables is taken by a regular file. *)
Definition trimmed_is_a_file : world :=
  {| root := fs.Dir true
       [ ("processed_data", fs.Dir true
            [ ("B.txt", fs.Dir true [ ("B.txt", fs.File EmptyString) ]) ]);
         ("trimmed_probes", fs.File EmptyString) ];
     log := [] |}.

(** Extracted data without a [Probes] table, in a working directory that
    takes no new entry. *)
Definition read_only : world :=
  {| root := fs.Dir false
       [ ("processed_data", fs.Dir true
            [ ("B.txt", fs.Dir true [ ("B.txt", fs.File EmptyString) ]) ]) ];
     log := [] |}.

(** The name of the output directory is taken by a regular file. *)
Definition output_dir_is_a_file : world :=
  {| root := fs.Dir true [ ("processed_data", fs.File EmptyString) ]; log := [] |}.

(** Extracted data in a directory that does not let its entries go. *)
Definition locked : world :=
  {| root := fs.Dir true
       [ ("processed_data", fs.Dir true
            [ ("B.txt", fs.Dir false [ ("B.txt", fs.File EmptyString) ]) ]) ];
     log := [] |}.

(** The sections of the file of the scenario. *)
Definition scenario_sections : list section :=
  [ (line ["[Heading]"], [line ["a"; "b"]]);
    (line ["[Probes]"], [line ["ID_REF"; "Definition"; "Probe_Sequence"];
                         line ["1"; "foo"; "ACGT"]]) ].

(** A file in which the name [Probes] comes twice, before a section of
    another name, in the directory of its extraction. *)
Definition duplicate_lines : list string :=
  [ line ["[Probes]"]; line ["ID_REF"]; line ["1"];
    line ["[Probes]"]; line ["ID_REF"]; line ["2"];
    line ["[Controls]"]; line ["Name"]; line ["x"] ].

Definition duplicate_file : world :=
  {| root := fs.Dir true
       [ ("processed_data", fs.Dir true
            [ ("G.txt", fs.Dir true
                 [ ("G.txt", fs.File (pd.concat_lines duplicate_lines)) ]) ]) ];
     log := [] |}.

(** A file in which the name [p/q] comes twice, before a section named
    [p//q], in a directory that has a sub-directory [G_p]. *)
Definition colliding_lines : list string :=
  [ line ["[p/q]"]; line ["ID_REF"]; line ["1"];
    line ["[p/q]"]; line ["ID_REF"]; line ["2"];
    line ["[p//q]"]; line ["ID_REF"]; line ["3"] ].

Definition colliding_file : world :=
  {| root := fs.Dir true
       [ ("processed_data", fs.Dir true
            [ ("G.txt", fs.Dir true
                 [ ("G.txt", fs.File (pd.concat_lines colliding_lines));
                   ("G_p", fs.Dir true []) ]) ]) ];
     log := [] |}.

(** Collaborators that fetch one archive of two members, the second of
    which does not decompress. *)
Definition archive_ext : External :=
  {| wget_download := fun _ => Some "tar";
     tarfile_open := fun content =>
       if String.eqb content "tar"
       then Some [ {| name := "G1.txt.gz"; isfile := true; payload := "gz" |};
                   {| name := "G2.txt.gz"; isfile := true; payload := "??" |} ]
       else if String.eqb content "notes"
       then Some [ {| name := "README"; isfile := true; payload := "gz" |};
                   {| name := "raw.txt.gz"; isfile := false; payload := "gz" |} ]
       else None;
     gzip_read := fun bytes =>
       if String.eqb bytes "gz"
       then Some (pd.concat_lines [ line ["[Probes]"]; line ["ID_REF"]; line ["1"] ])
       else None;
     mangle_dupe_cols := fun names => names |}.

(** A fetched archive, of one of the three kinds above. *)
Definition with_archive (content : string) : world :=
  {| root := fs.Dir true [ ("data", fs.Dir true [ ("GSE68849_RAW.tar", fs.File content) ]) ];
     log := [] |}.

(** An empty directory of extracted data. *)
Definition empty_processed : world :=
  {| root := fs.Dir true [ ("processed_data", fs.Dir true []) ]; log := [] |}.

(** The trimming stage on the samples, with the default parameters. *)
Definition trim_two_tables : result unit * world :=
  TrimProbesTable_run ext "GSE68849" "data" "processed_data" "trimmed_probes" two_tables.

Definition trim_one_table : result unit * world :=
  TrimProbesTable_run ext "GSE68849" "data" "processed_data" "trimmed_probes" one_table.

(** The cleaning stage on the samples, with the default parameters. *)
Definition clean_no_tables : result unit * world :=
  DeleteOriginalData_run "GSE68849" "data" "processed_data" "trimmed_probes" no_tables.

Definition clean_locked : result unit * world :=
  DeleteOriginalData_run "GSE68849" "data" "processed_data" "trimmed_probes" locked.

End Sample.

(** * Properties *)

(** ** Results and dicts *)

Lemma rbind_Ok {A B} (r : result A) (k : A -> result B) (b : B) :
  rbind r k = Ok b -> exists a, r = Ok a /\ k a = Ok b.
Proof. destruct r as [a|e]; simpl; [eauto | discriminate]. Qed.

Lemma dict_get_set_eq {V} (key : string) (v : V) (d : list (string * V)) :
  dict_get key (dict_set key v d) = Some v.
Proof.
  induction d as [|[k v0] d IH]; simpl.
  - now rewrite String.eqb_refl.
  - destruct (String.eqb k key) eqn:E; simpl; rewrite E; [reflexivity | exact IH].
Qed.

Lemma dict_get_set_ne {V} (key key' : string) (v : V) (d : list (string * V)) :
  key <> key' -> dict_get key' (dict_set key v d) = dict_get key' d.
Proof.
  intros Hne. induction d as [|[k v0] d IH]; simpl.
  - destruct (String.eqb_spec key key'); [contradiction | reflexivity].
  - destruct (String.eqb_spec k key) as [->|Hk]; simpl.
    + destruct (String.eqb_spec key key'); [contradiction | reflexivity].
    + now rewrite IH.
Qed.

(** Storing under a key that is present changes no key and adds none. *)
Lemma dict_set_keys {V} (key : string) (v v0 : V) (d : list (string * V)) :
  dict_get key d = Some v0 -> map fst (dict_set key v d) = map fst d.
Proof.
  induction d as [|[k v1] d IH]; simpl; [discriminate|].
  destruct (String.eqb k key); simpl; [reflexivity|].
  intros H. now rewrite IH.
Qed.

(** ** Column selection *)

Lemma select_map_filter {A} (f : A -> bool) (xs : list A) :
  pd.select (map f xs) xs = List.filter f xs.
Proof.
  induction xs as [|x xs IH]; simpl; [reflexivity|].
  destruct (f x); now rewrite IH.
Qed.

Lemma drop_columns (df : pd.DataFrame) (names : list string) :
  pd.columns (pd.drop df names)
  = List.filter (fun l => negb (pd.label_in l names)) (pd.columns df).
Proof. unfold pd.drop; simpl. apply select_map_filter. Qed.

Lemma label_in_name (name : string) (names : list string) :
  In name names -> pd.label_in (pd.StrLabel name) names = true.
Proof.
  intros H. unfold pd.label_in. apply existsb_exists.
  exists name. split; [exact H | simpl; apply String.eqb_refl].
Qed.

(** ** The world under reads and log records *)

Lemma read_file_emit (path text : string) (l : level) (msg : string) (w : world) :
  read_file path w = (Ok text, w) ->
  read_file path {| root := root w; log := log w ++ [(l, msg)] |}
  = (Ok text, {| root := root w; log := log w ++ [(l, msg)] |}).
Proof.
  unfold read_file, os.node_at; simpl.
  destruct (fs.resolve path) as [p|]; [|discriminate].
  destruct (fs.lookup (root w) p) as [[data|wr es]|]; try discriminate.
  intros H. injection H as ->. reflexivity.
Qed.

(** ** Requirements are built from the dataset identifier alone *)

(** C10: whatever directories a [TrimProbesTable] or a [DeleteOriginalData]
    task is configured with, the task it requires is constructed from the
    dataset identifier only, so the required task, and the tasks required by
    it in turn, have the default download, processed and trimmed
    directories, and their output targets are the default paths. *)
Theorem requires_passes_only_dataset_id
    (dataset_id download_dir processed_data_dir output_dir : string) :
  requires (TrimProbesTable dataset_id download_dir processed_data_dir output_dir)
  = Some (ExtractAndProcessFiles dataset_id "data" "processed_data")
  /\ requires (DeleteOriginalData dataset_id download_dir processed_data_dir output_dir)
     = Some (TrimProbesTable dataset_id "data" "processed_data" "trimmed_probes")
  /\ requires (TrimProbesTable dataset_id "data" "processed_data" "trimmed_probes")
     = Some (ExtractAndProcessFiles dataset_id "data" "processed_data")
  /\ requires (ExtractAndProcessFiles dataset_id "data" "processed_data")
     = Some (DownloadDataset dataset_id "data")
  /\ input (TrimProbesTable dataset_id download_dir processed_data_dir output_dir)
     = "processed_data"
  /\ input (DeleteOriginalData dataset_id download_dir processed_data_dir output_dir)
     = "trimmed_probes/Probes_trimmed.tsv".
Proof. repeat split; reflexivity. Qed.

(** ** Column trimming *)

Lemma select_nil {A} (keep : list bool) : pd.select keep (@nil A) = [].
Proof. destruct keep as [|[] keep]; reflexivity. Qed.

(** Selecting by the flags of the labels is pairing each cell with its
    label and keeping the pairs whose label is flagged. *)
Lemma select_combine {A} (f : pd.label -> bool) (labels : list pd.label) (row : list A) :
  pd.select (map f labels) row
  = map snd (List.filter (fun c => f (fst c)) (combine labels row)).
Proof.
  revert row. induction labels as [|l ls IH]; intros row; [reflexivity|].
  destruct row as [|x xs]; cbn [map combine].
  - apply select_nil.
  - cbn [List.filter fst]. destruct (f l); cbn [pd.select map snd]; now rewrite IH.
Qed.

(** Selecting in the labels and in every row is selecting among the
    columns. *)
Lemma by_columns_select (f : pd.label -> bool) (labels : list pd.label) :
  forall rows,
    by_columns (pd.select (map f labels) labels)
      (map (pd.select (map f labels)) rows)
    = List.filter (fun c => f (fst c)) (by_columns labels rows).
Proof.
  induction labels as [|l ls IH]; intros rows; [reflexivity|].
  cbn [map by_columns List.filter fst]. destruct (f l) eqn:E; cbn [pd.select].
  - cbn [by_columns]. f_equal.
    + f_equal. rewrite map_map. apply map_ext. now intros [|x xs].
    + rewrite <- (IH (map (@List.tl string) rows)). f_equal.
      rewrite !map_map. apply map_ext. intros [|x xs]; [|reflexivity].
      cbn [pd.select List.tl]. symmetry. apply select_nil.
  - rewrite <- (IH (map (@List.tl string) rows)). f_equal.
    rewrite map_map. apply map_ext. intros [|x xs]; [|reflexivity].
    cbn [pd.select List.tl]. symmetry. apply select_nil.
Qed.

(** Where every label is flagged, a row that is not longer than the labels
    is selected as a whole. *)
Lemma select_all {A} (f : pd.label -> bool) (labels : list pd.label) (row : list A) :
  (forall l, In l labels -> f l = true) -> length row <= length labels ->
  pd.select (map f labels) row = row.
Proof.
  revert row. induction labels as [|l ls IH]; intros row Hall Hlen.
  - destruct row; [reflexivity | simpl in Hlen; lia].
  - destruct row as [|x xs]; [apply select_nil|].
    cbn [map]. rewrite (Hall l (or_introl eq_refl)). cbn [pd.select]. f_equal.
    apply IH; [intros l' Hl'; apply Hall; now right | simpl in Hlen; lia].
Qed.

(** C8: the table written for a [_Probes.tsv] file is the table read
    without the columns labelled by one of the seven fixed names.  None of
    the seven is a label of the result and every other label is kept, in the
    order of the source.  The columns go with their cells: column by column,
    the result is the source without the columns of the seven names, each
    other column with the cells it had; row by row, every row keeps the cells
    that are under a kept label and no other.  A table that has none of the
    seven names is not an error (the drop is a total function): it keeps all
    its labels, and it is left as it is when its rows are as long as its
    header.  The text written is the header line of the kept labels followed
    by the lines of the kept cells. *)
Theorem trimmed_table_columns (ext : External) (df : pd.DataFrame) :
  let keep := fun l => negb (pd.label_in l columns_to_remove) in
  let kept := List.filter keep (pd.columns df) in
  pd.columns (pd.drop df columns_to_remove) = kept
  /\ (forall name, In name columns_to_remove -> ~ In (pd.StrLabel name) kept)
  /\ (forall l, In l (pd.columns df) ->
        pd.label_in l columns_to_remove = false -> In l kept)
  /\ columns_of (pd.drop df columns_to_remove)
     = List.filter (fun c => keep (fst c)) (columns_of df)
  /\ pd.rows (pd.drop df columns_to_remove)
     = map (kept_cells columns_to_remove (pd.columns df)) (pd.rows df)
  /\ ((forall l, In l (pd.columns df) -> pd.label_in l columns_to_remove = false) ->
        kept = pd.columns df
        /\ (Forall (fun r => length r = length (pd.columns df)) (pd.rows df) ->
            pd.drop df columns_to_remove = df))
  /\ (forall self probes_file_path text w,
        read_file probes_file_path w = (Ok text, w) ->
        pd.read_csv (mangle_dupe_cols ext) text pd.HeaderInfer = Ok df ->
        trim_probes_file ext self probes_file_path w
        = (logging.info ("Loading Probes file: " +:+ probes_file_path);;
           write_file (trimmed_path self probes_file_path)
             (pd.csv_line (map pd.str_of_label kept)
              +:+ pd.concat_lines
                    (map pd.csv_line
                       (map (kept_cells columns_to_remove (pd.columns df))
                          (pd.rows df))));;
           logging.info ("Trimmed probes table saved to: "
                         +:+ trimmed_path self probes_file_path)) w).
Proof.
  intros keep kept.
  assert (Hrows : pd.rows (pd.drop df columns_to_remove)
                  = map (kept_cells columns_to_remove (pd.columns df)) (pd.rows df)).
  { unfold pd.drop, kept_cells. cbn [pd.rows]. apply map_ext. intros row.
    apply (select_combine keep). }
  split; [apply drop_columns|].
  split.
  { intros name Hin Hk. apply filter_In in Hk as [_ Hk]. subst keep. cbn beta in Hk.
    rewrite (label_in_name _ _ Hin) in Hk. discriminate. }
  split.
  { intros l Hl Hno. apply filter_In. split; [exact Hl|]. subst keep. cbn beta.
    now rewrite Hno. }
  split.
  { unfold columns_of, pd.drop. cbn [pd.columns pd.rows].
    apply (by_columns_select keep). }
  split; [exact Hrows|].
  split.
  { intros Hall.
    assert (Hkeep : forall l, In l (pd.columns df) -> keep l = true).
    { intros l Hl. subst keep. cbn beta. now rewrite (Hall l Hl). }
    assert (Hkept : kept = pd.columns df).
    { subst kept. clear -Hkeep. induction (pd.columns df) as [|l ls IH]; [reflexivity|].
      cbn [List.filter]. rewrite (Hkeep l (or_introl eq_refl)). f_equal.
      apply IH. intros l' Hl'. apply Hkeep. now right. }
    split; [exact Hkept|]. intros Hrect.
    destruct df as [cols rws]. unfold pd.drop. cbn [pd.columns pd.rows] in *. f_equal.
    - rewrite select_map_filter. exact Hkept.
    - clear -Hkeep Hrect. induction Hrect as [|r rs Hr _ IH]; [reflexivity|].
      cbn [map]. rewrite IH. f_equal.
      apply (select_all keep); [exact Hkeep | lia]. }
  intros self path text w Hread Hcsv.
  unfold trim_probes_file, mbind, M_bind, bind, logging.info, emit. simpl.
  rewrite (read_file_emit _ _ _ _ _ Hread).
  unfold lift. rewrite Hcsv. unfold pd.to_csv. rewrite drop_columns, Hrows.
  reflexivity.
Qed.

(** The theorem applied to the table of the scenario: the column that is
    left is [ID_REF], with its cell. *)
Lemma trimmed_table_columns_witness :
  pd.columns (pd.drop {| pd.columns := [pd.StrLabel "ID_REF"; pd.StrLabel "Definition";
                                        pd.StrLabel "Probe_Sequence"];
                         pd.rows := [["1"; "foo"; "ACGT"]] |} columns_to_remove)
  = [pd.StrLabel "ID_REF"]
  /\ pd.rows (pd.drop {| pd.columns := [pd.StrLabel "ID_REF"; pd.StrLabel "Definition";
                                         pd.StrLabel "Probe_Sequence"];
                          pd.rows := [["1"; "foo"; "ACGT"]] |} columns_to_remove)
     = [["1"]].
Proof.
  destruct (trimmed_table_columns Sample.ext
              {| pd.columns := [pd.StrLabel "ID_REF"; pd.StrLabel "Definition";
                                pd.StrLabel "Probe_Sequence"];
                 pd.rows := [["1"; "foo"; "ACGT"]] |})
    as (Hcols & _ & _ & _ & Hrows & _).
  split; [exact Hcols | exact Hrows].
Defined.

(** ** The scanning loop *)

Lemma append_cons (x : ascii) (a b : string) :
  String x a +:+ b = String x (a +:+ b).
Proof. reflexivity. Qed.

Lemma append_assoc (a b c : string) : (a +:+ b) +:+ c = a +:+ (b +:+ c).
Proof.
  induction a as [|x a IH]; [reflexivity|].
  rewrite !append_cons. f_equal. exact IH.
Qed.

Lemma append_empty_r (a : string) : a +:+ EmptyString = a.
Proof.
  induction a as [|x a IH]; [reflexivity|].
  rewrite append_cons. f_equal. exact IH.
Qed.

Lemma scan_lines_app (ext : External) (st : scan) (l1 l2 : list string) :
  scan_lines ext st (l1 ++ l2)
  = rbind (scan_lines ext st l1) (fun st' => scan_lines ext st' l2).
Proof.
  revert st. induction l1 as [|l l1 IH]; intros st; simpl; [reflexivity|].
  destruct (scan_line ext st l) as [st'|e]; simpl; [apply IH | reflexivity].
Qed.

(** Inside a section, lines that do not open a section are appended to the
    buffer as they are. *)
Lemma scan_lines_body (ext : External) (st : scan) (body : list string) :
  Py.truthy (write_key st) = true ->
  Forall (fun l => Py.startswith l "[" = false) body ->
  scan_lines ext st body
  = Ok {| dfs := dfs st; write_key := write_key st;
          fio := fio st +:+ pd.concat_lines body |}.
Proof.
  intros Hk Hbody. revert st Hk.
  induction Hbody as [|l body Hl _ IH]; intros st Hk; simpl.
  - rewrite append_empty_r. now destruct st.
  - unfold scan_line. rewrite Hl, Hk. simpl.
    rewrite IH by exact Hk. simpl. now rewrite append_assoc.
Qed.

(** Before any section, such lines are dropped. *)
Lemma scan_lines_outside (ext : External) (st : scan) (ls : list string) :
  Py.truthy (write_key st) = false ->
  Forall (fun l => Py.startswith l "[" = false) ls ->
  scan_lines ext st ls = Ok st.
Proof.
  intros Hk Hls. induction Hls as [|l ls Hl _ IH]; simpl; [reflexivity|].
  unfold scan_line. rewrite Hl, Hk. simpl. exact IH.
Qed.

(** A line that opens a section closes the current one: its buffer is read,
    without a header row exactly when its key is [Heading]. *)
Lemma scan_line_open (ext : External) (st : scan) (key line : string) :
  write_key st = Some key -> Py.truthy (Some key) = true ->
  Py.startswith line "[" = true ->
  scan_line ext st line
  = rbind (pd.read_csv (mangle_dupe_cols ext) (fio st)
             (if String.eqb key "Heading" then pd.HeaderNone else pd.HeaderInfer))
      (fun df => Ok {| dfs := dict_set key df (dfs st);
                       write_key := Some (Py.strip line ("[]" +:+ Py.nl));
                       fio := EmptyString |}).
Proof.
  intros Hk Ht Hl. unfold scan_line. rewrite Hl, Hk, Ht.
  destruct (pd.read_csv _ _ _); reflexivity.
Qed.

Lemma scan_end_key (ext : External) (st : scan) (key : string) :
  write_key st = Some key -> Py.truthy (Some key) = true ->
  scan_end ext st
  = rbind (pd.read_csv (mangle_dupe_cols ext) (fio st) pd.HeaderInfer)
      (fun df => Ok (dict_set key df (dfs st))).
Proof. intros Hk Ht. unfold scan_end. now rewrite Hk, Ht. Qed.

(** ** The header row of a section *)

(** C3: a section that is closed by a later line starting with [[] is read
    without a header row exactly when its key is [Heading]; the section that
    is open at the end of the input is read with the header row inferred,
    whatever its key, [Heading] included. *)
Theorem heading_header_only_mid_file (ext : External) :
  (forall pre st key body nxt,
      scan_lines ext scan_start pre = Ok st ->
      write_key st = Some key -> Py.truthy (Some key) = true ->
      Forall (fun l => Py.startswith l "[" = false) body ->
      Py.startswith nxt "[" = true ->
      scan_lines ext scan_start (pre ++ body ++ [nxt])
      = rbind (pd.read_csv (mangle_dupe_cols ext) (fio st +:+ pd.concat_lines body)
                 (if String.eqb key "Heading" then pd.HeaderNone else pd.HeaderInfer))
          (fun df => Ok {| dfs := dict_set key df (dfs st);
                           write_key := Some (Py.strip nxt ("[]" +:+ Py.nl));
                           fio := EmptyString |}))
  /\ (forall pre st key body,
        scan_lines ext scan_start pre = Ok st ->
        write_key st = Some key -> Py.truthy (Some key) = true ->
        Forall (fun l => Py.startswith l "[" = false) body ->
        parse_lines ext (pre ++ body)
        = rbind (pd.read_csv (mangle_dupe_cols ext) (fio st +:+ pd.concat_lines body)
                   pd.HeaderInfer)
            (fun df => Ok (dict_set key df (dfs st)))).
Proof.
  split.
  - intros pre st key body nxt Hpre Hk Ht Hbody Hnxt.
    rewrite scan_lines_app, Hpre. simpl.
    rewrite scan_lines_app, scan_lines_body; [simpl | now rewrite Hk | exact Hbody].
    rewrite (scan_line_open ext _ key nxt); [simpl | exact Hk | exact Ht | exact Hnxt].
    destruct (pd.read_csv _ _ _); reflexivity.
  - intros pre st key body Hpre Hk Ht Hbody.
    unfold parse_lines. rewrite scan_lines_app, Hpre. simpl.
    rewrite scan_lines_body; [simpl | now rewrite Hk | exact Hbody].
    now rewrite (scan_end_key ext _ key).
Qed.

(** The theorem on the two sample files: [Heading] closed by [[Probes]]
    has the integer labels and one row; [Heading] at the end of the file has
    its first line as the header and no row. *)
Lemma heading_header_only_mid_file_witness :
  scan_lines Sample.ext scan_start
    ([Sample.line ["[Heading]"]] ++ [Sample.line ["a"; "b"]] ++ [Sample.line ["[Probes]"]])
  = Ok {| dfs := [("Heading", {| pd.columns := [pd.IntLabel 0; pd.IntLabel 1];
                                 pd.rows := [["a"; "b"]] |})];
          write_key := Some "Probes"; fio := EmptyString |}
  /\ parse_lines Sample.ext ([Sample.line ["[Heading]"]] ++ [Sample.line ["a"; "b"]])
     = Ok [("Heading", {| pd.columns := [pd.StrLabel "a"; pd.StrLabel "b"];
                          pd.rows := [] |})].
Proof.
  split.
  - rewrite (proj1 (heading_header_only_mid_file Sample.ext)
               [Sample.line ["[Heading]"]]
               {| dfs := []; write_key := Some "Heading"; fio := EmptyString |}
               "Heading" [Sample.line ["a"; "b"]] (Sample.line ["[Probes]"])).
    + reflexivity.
    + reflexivity.
    + reflexivity.
    + reflexivity.
    + repeat constructor.
    + reflexivity.
  - rewrite (proj2 (heading_header_only_mid_file Sample.ext)
               [Sample.line ["[Heading]"]]
               {| dfs := []; write_key := Some "Heading"; fio := EmptyString |}
               "Heading" [Sample.line ["a"; "b"]]).
    + reflexivity.
    + reflexivity.
    + reflexivity.
    + reflexivity.
    + repeat constructor.
Defined.

(** ** Reading a buffer *)

Lemma read_csv_empty (mangle : list string -> list string) (header : pd.header_arg) :
  pd.read_csv mangle EmptyString header = Raise EmptyDataError.
Proof. reflexivity. Qed.

(** A text made of one line and its line end has that line and nothing
    else. *)
Lemma split_on_one_line (l : string) :
  Py.in_chars Py.newline l = false ->
  Py.split_on Py.newline (l +:+ Py.nl) = [l; EmptyString].
Proof.
  induction l as [|c l IH]; intros Hnl; [reflexivity|].
  rewrite append_cons. cbn [Py.split_on].
  unfold Py.in_chars in Hnl. cbn [list_ascii_of_string existsb] in Hnl.
  apply orb_false_iff in Hnl as [Hc Hl].
  rewrite Ascii.eqb_sym in Hc. rewrite Hc.
  rewrite (IH Hl). reflexivity.
Qed.

Lemma text_lines_one_line (l : string) :
  Py.in_chars Py.newline l = false -> pd.blank l = false ->
  pd.text_lines (l +:+ Py.nl) = [l].
Proof.
  intros Hnl Hb. unfold pd.text_lines. rewrite (split_on_one_line l Hnl).
  rewrite filter_cons_True by exact Hb.
  rewrite filter_cons_False by (simpl; discriminate).
  reflexivity.
Qed.

(** ** Empty files and empty sections *)

(** C4, as the code has it: a file without any line that opens a section,
    the empty file among them, gives no table and no error; a buffer that
    holds one line gives, with the header inferred, a table with that header
    and no row, and, without a header, a table of one row; a buffer without
    any line makes the read raise [EmptyDataError], so a section that has no
    line at all makes the parse of its file fail, whether the section is
    closed by the next one or by the end of the input. *)
Theorem empty_section_fails_the_parse (ext : External) :
  (forall lines,
      Forall (fun l => Py.startswith l "[" = false) lines ->
      parse_lines ext lines = Ok [])
  /\ (forall l,
        Py.in_chars Py.newline l = false -> pd.blank l = false ->
        pd.read_csv (mangle_dupe_cols ext) (l +:+ Py.nl) pd.HeaderInfer
        = Ok {| pd.columns := map pd.StrLabel (mangle_dupe_cols ext (pd.fields l));
                pd.rows := [] |}
        /\ pd.read_csv (mangle_dupe_cols ext) (l +:+ Py.nl) pd.HeaderNone
           = Ok {| pd.columns := map pd.IntLabel (seq 0 (length (pd.fields l)));
                   pd.rows := [pd.fields l] |})
  /\ (forall header,
        pd.read_csv (mangle_dupe_cols ext) EmptyString header = Raise EmptyDataError)
  /\ (forall pre st key,
        scan_lines ext scan_start pre = Ok st ->
        write_key st = Some key -> Py.truthy (Some key) = true ->
        fio st = EmptyString ->
        parse_lines ext pre = Raise EmptyDataError
        /\ forall nxt rest, Py.startswith nxt "[" = true ->
             parse_lines ext (pre ++ nxt :: rest) = Raise EmptyDataError).
Proof.
  split; [|split; [|split]].
  - intros lines Hl. unfold parse_lines.
    now rewrite scan_lines_outside.
  - intros l Hnl Hb. unfold pd.read_csv.
    rewrite (text_lines_one_line l Hnl Hb). split; [reflexivity|].
    cbn [pd.parse_rows]. rewrite Nat.ltb_irrefl, Nat.sub_diag.
    cbn [rbind repeat]. now rewrite app_nil_r.
  - intros header. apply read_csv_empty.
  - intros pre st key Hpre Hk Ht Hfio. split.
    + unfold parse_lines. rewrite Hpre. cbn [rbind].
      rewrite (scan_end_key ext st key Hk Ht), Hfio. reflexivity.
    + intros nxt rest Hnxt. unfold parse_lines.
      rewrite scan_lines_app, Hpre. cbn [rbind scan_lines].
      rewrite (scan_line_open ext st key nxt Hk Ht Hnxt), Hfio.
      rewrite read_csv_empty. reflexivity.
Qed.

(** The theorem on samples: the empty file; a section with a header line
    only; a section without any line, at the end of the file and before
    another section. *)
Lemma empty_section_fails_the_parse_witness :
  parse_lines Sample.ext [] = Ok []
  /\ pd.read_csv (mangle_dupe_cols Sample.ext) ("ID_REF" +:+ Py.nl) pd.HeaderInfer
     = Ok {| pd.columns := [pd.StrLabel "ID_REF"]; pd.rows := [] |}
  /\ parse_lines Sample.ext [Sample.line ["[Probes]"]] = Raise EmptyDataError
  /\ parse_lines Sample.ext ([Sample.line ["[Heading]"]] ++ Sample.line ["[Probes]"]
                             :: [Sample.line ["ID_REF"]; Sample.line ["1"]])
     = Raise EmptyDataError.
Proof.
  destruct (empty_section_fails_the_parse Sample.ext) as (Hnone & Hone & _ & Hempty).
  split; [|split; [|split]].
  - apply Hnone. constructor.
  - apply (Hone "ID_REF"); reflexivity.
  - apply (Hempty [Sample.line ["[Probes]"]]
             {| dfs := []; write_key := Some "Probes"; fio := EmptyString |} "Probes");
      reflexivity.
  - apply (Hempty [Sample.line ["[Heading]"]]
             {| dfs := []; write_key := Some "Heading"; fio := EmptyString |} "Heading");
      reflexivity.
Defined.

(** C4 as the specification states it fails: the first section of this file
    has no line, and the parse raises instead of giving an empty table; so
    it does for a file that ends with the line that opens a section. *)
Lemma empty_section_counterexample :
  parse_lines Sample.ext Sample.empty_section = Raise EmptyDataError
  /\ parse_sections Sample.ext ("[Probes]" +:+ Py.nl) = Raise EmptyDataError.
Proof. split; reflexivity. Qed.

(** ** Sections of the same name *)

Lemma dict_get_None_keys {V} (key : string) (d : list (string * V)) :
  dict_get key d = None -> ~ In key (map fst d).
Proof.
  induction d as [|[k v] d IH]; simpl; [tauto|].
  destruct (String.eqb_spec k key) as [->|Hk]; [discriminate|].
  intros H [Heq|Hin]; [contradiction | now apply IH].
Qed.

Lemma dict_set_keys_new {V} (key : string) (v : V) (d : list (string * V)) :
  dict_get key d = None -> map fst (dict_set key v d) = map fst d ++ [key].
Proof.
  induction d as [|[k v1] d IH]; simpl; [reflexivity|].
  destruct (String.eqb k key); [discriminate|].
  intros H. simpl. now rewrite IH.
Qed.

(** A dict holds a key once. *)
Lemma dict_set_NoDup {V} (key : string) (v : V) (d : list (string * V)) :
  NoDup (map fst d) -> NoDup (map fst (dict_set key v d)).
Proof.
  intros Hd. destruct (dict_get key d) as [v0|] eqn:E.
  - now rewrite (dict_set_keys key v v0 d E).
  - rewrite (dict_set_keys_new key v d E).
    apply NoDup_app. split; [exact Hd|]. split; [|apply NoDup_singleton].
    intros k Hin%list_elem_of_In Hk%list_elem_of_In. destruct Hk as [<-|[]].
    now apply (dict_get_None_keys key d E).
Qed.

Lemma scan_line_NoDup (ext : External) (st st' : scan) (line : string) :
  NoDup (map fst (dfs st)) -> scan_line ext st line = Ok st' ->
  NoDup (map fst (dfs st')).
Proof.
  intros Hd. unfold scan_line.
  destruct (Py.startswith line "[").
  - destruct (write_key st) as [key|]; [destruct (Py.truthy (Some key))|].
    + destruct (pd.read_csv _ _ _) as [df|e]; simpl; [|discriminate].
      intros H. injection H as <-. simpl. now apply dict_set_NoDup.
    + simpl. intros H. injection H as <-. exact Hd.
    + simpl. intros H. injection H as <-. exact Hd.
  - destruct (Py.truthy (write_key st)); intros H; injection H as <-; exact Hd.
Qed.

Lemma scan_lines_NoDup (ext : External) (lines : list string) (st st' : scan) :
  NoDup (map fst (dfs st)) -> scan_lines ext st lines = Ok st' ->
  NoDup (map fst (dfs st')).
Proof.
  revert st. induction lines as [|l lines IH]; intros st Hd; simpl.
  - intros H. injection H as <-. exact Hd.
  - destruct (scan_line ext st l) as [st1|e] eqn:E; simpl; [|discriminate].
    apply IH. exact (scan_line_NoDup ext st st1 l Hd E).
Qed.

Lemma parse_lines_NoDup (ext : External) (lines : list string)
    (tables : list (string * pd.DataFrame)) :
  parse_lines ext lines = Ok tables -> NoDup (map fst tables).
Proof.
  unfold parse_lines. intros H. apply rbind_Ok in H as (st & Hst & Hend).
  assert (Hd : NoDup (map fst (dfs st))).
  { apply (scan_lines_NoDup ext lines scan_start st); [constructor | exact Hst]. }
  unfold scan_end in Hend.
  destruct (write_key st) as [key|]; [destruct (Py.truthy (Some key))|].
  - destruct (pd.read_csv _ _ _) as [df|e]; simpl in Hend; [|discriminate].
    injection Hend as <-. now apply dict_set_NoDup.
  - injection Hend as <-. exact Hd.
  - injection Hend as <-. exact Hd.
Qed.

(** ** The directory tree under [os.makedirs] *)

Lemma lookup_entry_replace (m n : string) (c : fs.node) (es : list (string * fs.node)) :
  fs.lookup_entry m (fs.replace_entry n c es)
  = if String.eqb n m then Some c else fs.lookup_entry m es.
Proof.
  induction es as [|[k c0] es IH]; simpl.
  - reflexivity.
  - destruct (String.eqb_spec k n) as [->|Hkn]; simpl.
    + destruct (String.eqb n m); reflexivity.
    + destruct (String.eqb_spec k m) as [->|Hkm].
      * destruct (String.eqb_spec n m) as [->|_]; [contradiction | reflexivity].
      * exact IH.
Qed.

Lemma same_files_refl (t : fs.node) : same_files t t.
Proof. intros q data. reflexivity. Qed.

Lemma same_files_under (w : bool) (n : string) (c' : fs.node)
    (es : list (string * fs.node)) :
  (forall q data, fs.lookup c' q = Some (fs.File data) <->
                  match fs.lookup_entry n es with
                  | Some c0 => fs.lookup c0 q = Some (fs.File data)
                  | None => False
                  end) ->
  same_files (fs.Dir w es) (fs.Dir w (fs.replace_entry n c' es)).
Proof.
  intros Hc [|m q] data; simpl.
  - split; discriminate.
  - rewrite lookup_entry_replace.
    destruct (String.eqb_spec n m) as [->|Hnm]; [|reflexivity].
    rewrite Hc. destruct (fs.lookup_entry m es); [reflexivity|].
    split; [tauto | discriminate].
Qed.

(** [os.makedirs] creates directories only: it leaves every file where it
    is, with its content, and adds none. *)
Lemma makedirs_at_same_files (path : string) (p : list string) (t t' : fs.node) :
  fs.makedirs_at path p t = Ok t' -> same_files t t'.
Proof.
  revert t t'. induction p as [|n p IH]; intros t t'; simpl.
  - destruct t; [discriminate|]. intros H. injection H as <-. apply same_files_refl.
  - destruct t as [|w es]; [discriminate|].
    destruct (fs.lookup_entry n es) as [c|] eqn:E.
    + destruct (fs.makedirs_at path p c) as [c'|e] eqn:Ec; simpl; [|discriminate].
      intros H. injection H as <-. apply same_files_under.
      intros q data. rewrite E. exact (IH c c' Ec q data).
    + destruct w; [|discriminate].
      destruct (fs.makedirs_at path p (fs.Dir true [])) as [c'|e] eqn:Ec; simpl;
        [|discriminate].
      intros H. injection H as <-. apply same_files_under.
      intros q data. rewrite E. rewrite (IH _ _ Ec q data).
      destruct q; simpl; split; try discriminate; tauto.
Qed.

(** After [os.makedirs] the path is a directory. *)
Lemma makedirs_at_is_dir (path : string) (p : list string) (t t' : fs.node) :
  fs.makedirs_at path p t = Ok t' ->
  exists n, fs.lookup t' p = Some n /\ fs.is_dir n = true.
Proof.
  revert t t'. induction p as [|n p IH]; intros t t'; simpl.
  - destruct t; [discriminate|]. intros H. injection H as <-. eauto.
  - destruct t as [|w es]; [discriminate|].
    destruct (fs.lookup_entry n es) as [c|] eqn:E.
    + destruct (fs.makedirs_at path p c) as [c'|e] eqn:Ec; simpl; [|discriminate].
      intros H. injection H as <-. simpl.
      rewrite lookup_entry_replace, String.eqb_refl. exact (IH c c' Ec).
    + destruct w; [|discriminate].
      destruct (fs.makedirs_at path p (fs.Dir true [])) as [c'|e] eqn:Ec; simpl;
        [|discriminate].
      intros H. injection H as <-. simpl.
      rewrite lookup_entry_replace, String.eqb_refl. exact (IH _ c' Ec).
Qed.

(** What [os.makedirs] does to the world. *)
Lemma makedirs_Ok (path : string) (w w1 : world) :
  os.makedirs path w = (Ok tt, w1) ->
  log w1 = log w
  /\ same_files (root w) (root w1)
  /\ os.path_isdir path w1 = (Ok true, w1)
  /\ os.path_exists path w1 = (Ok true, w1).
Proof.
  unfold os.makedirs, os.path_isdir, os.path_exists, os.node_at.
  destruct (fs.resolve path) as [p|]; [|discriminate].
  unfold update_tree.
  destruct (fs.makedirs_at path p (root w)) as [t|e] eqn:E; [|discriminate].
  intros H. injection H as <-. simpl.
  destruct (makedirs_at_is_dir path p _ _ E) as (n & Hn & Hd).
  rewrite Hn, Hd. repeat split; try reflexivity.
  - apply (makedirs_at_same_files path p _ _ E q data).
  - apply (makedirs_at_same_files path p _ _ E q data).
Qed.

Lemma makedirs_Raise (path : string) (w w' : world) (e : exn) :
  os.makedirs path w = (Raise e, w') -> w' = w.
Proof.
  unfold os.makedirs. destruct (fs.resolve path) as [p|].
  - unfold update_tree. destruct (fs.makedirs_at path p (root w)); [discriminate|].
    intros H. now injection H.
  - unfold raise. intros H. now injection H.
Qed.

(** Whether a path is a file depends on the files of the tree only. *)
Lemma path_isfile_same_files (path : string) (w w1 : world) :
  same_files (root w) (root w1) ->
  fst (os.path_isfile path w1) = fst (os.path_isfile path w).
Proof.
  intros Hs. unfold os.path_isfile, os.node_at; simpl.
  destruct (fs.resolve path) as [p|]; [|reflexivity].
  destruct (fs.lookup (root w1) p) as [[d|wr es]|] eqn:E1.
  - apply Hs in E1. now rewrite E1.
  - destruct (fs.lookup (root w) p) as [[d|wr' es']|] eqn:E; try reflexivity.
    apply Hs in E. congruence.
  - destruct (fs.lookup (root w) p) as [[d|wr' es']|] eqn:E; try reflexivity.
    apply Hs in E. congruence.
Qed.

Lemma path_isfile_false_after (path : string) (w w2 : world) :
  same_files (root w) (root w2) ->
  os.path_isfile path w = (Ok false, w) ->
  os.path_isfile path w2 = (Ok false, w2).
Proof.
  intros Hs H. pose proof (path_isfile_same_files path w w2 Hs) as Hfst.
  rewrite H in Hfst. unfold os.path_isfile in *. simpl in Hfst.
  injection Hfst as Hfst. now rewrite Hfst.
Qed.

(** ** A missing archive *)

(** C5, as the code has it: when the archive path is not a file (it does
    not exist, for one) and the output directory could be created, the run
    raises the [FileNotFoundError] of the program after two log records and
    before it opens anything; the tree it leaves is the one [os.makedirs]
    made, in which the output directory exists and every file is as it was:
    no file is written. *)
Theorem missing_archive_fails_before_extraction
    (ext : External) (dataset_id download_dir output_dir : string) (w w1 : world) :
  let tar_path := input (ExtractAndProcessFiles dataset_id download_dir output_dir) in
  os.makedirs output_dir w = (Ok tt, w1) ->
  os.path_isfile tar_path w = (Ok false, w) ->
  ExtractAndProcessFiles_run ext dataset_id download_dir output_dir w
  = (Raise (FileNotFoundError ("TAR file does not exist: " +:+ tar_path)),
     {| root := root w1;
        log := log w ++ [(INFO, "Opening TAR file at " +:+ tar_path)]
                     ++ [(ERROR, "TAR file does not exist: " +:+ tar_path)] |})
  /\ same_files (root w) (root w1)
  /\ os.path_isdir output_dir w1 = (Ok true, w1).
Proof.
  intros tar_path Hmk Hno.
  destruct (makedirs_Ok _ _ _ Hmk) as (Hlog & Hfiles & Hdir & _).
  split; [|split; [exact Hfiles | exact Hdir]].
  unfold ExtractAndProcessFiles_run, mbind, M_bind, bind. rewrite Hmk.
  unfold logging.info, logging.error, emit. fold tar_path.
  cbn [root log].
  erewrite (path_isfile_false_after tar_path w {| root := root w1; log := _ |}
              Hfiles Hno).
  cbn [negb when raise root log]. rewrite Hlog, <- app_assoc. reflexivity.
Qed.

(** The theorem in a fresh working directory. *)
Lemma missing_archive_fails_before_extraction_witness :
  ExtractAndProcessFiles_run Sample.ext "GSE68849" "data" "processed_data"
    Sample.empty_world
  = (Raise (FileNotFoundError "TAR file does not exist: data/GSE68849_RAW.tar"),
     {| root := fs.Dir true [("processed_data", fs.Dir true [])];
        log := [(INFO, "Opening TAR file at data/GSE68849_RAW.tar");
                (ERROR, "TAR file does not exist: data/GSE68849_RAW.tar")] |}).
Proof.
  exact (proj1 (missing_archive_fails_before_extraction Sample.ext
                  "GSE68849" "data" "processed_data" Sample.empty_world
                  {| root := fs.Dir true [("processed_data", fs.Dir true [])];
                     log := [] |}
                  eq_refl eq_refl)).
Defined.

(** C5 as the specification states it fails on both counts.  Where a
    regular file has the name of the output directory, the archive is
    missing and the stage fails with the [FileExistsError] of
    [os.makedirs], not with the missing-input error.  And in a fresh
    working directory, where it does fail with the missing-input error, it
    has written to the file system: the output directory is there
    afterwards. *)
Lemma missing_archive_counterexample :
  os.path_exists "data/GSE68849_RAW.tar" Sample.output_dir_is_a_file
  = (Ok false, Sample.output_dir_is_a_file)
  /\ ExtractAndProcessFiles_run Sample.ext "GSE68849" "data" "processed_data"
       Sample.output_dir_is_a_file
     = (Raise (FileExistsError "processed_data"), Sample.output_dir_is_a_file)
  /\ os.path_exists "processed_data" Sample.empty_world = (Ok false, Sample.empty_world)
  /\ exists w',
       snd (ExtractAndProcessFiles_run Sample.ext "GSE68849" "data" "processed_data"
              Sample.empty_world) = w'
       /\ os.path_exists "processed_data" w' = (Ok true, w').
Proof.
  split; [reflexivity|]. split; [reflexivity|]. split; [reflexivity|].
  eexists. split; reflexivity.
Qed.

(** ** Where a [FileNotFoundError] of the program can come from *)

Lemma raises_library_ret {A} (a : A) : raises_library (ret a).
Proof. intros w e w' H. discriminate. Qed.

Lemma raises_library_raise {A} (e : exn) :
  from_library e = true -> raises_library (@raise A e).
Proof. intros He w e' w' H. injection H as <- _. exact He. Qed.

Lemma raises_library_bind {A B} (m : M A) (k : A -> M B) :
  raises_library m -> (forall a, raises_library (k a)) -> raises_library (bind m k).
Proof.
  intros Hm Hk w e w'. unfold bind.
  destruct (m w) as [[a|e0] w0] eqn:E.
  - apply Hk.
  - intros H. injection H as <- _. exact (Hm _ _ _ E).
Qed.

Lemma raises_library_for_each {A} (xs : list A) (body : A -> M unit) :
  (forall x, raises_library (body x)) -> raises_library (for_each xs body).
Proof.
  intros Hb. induction xs as [|x xs IH]; simpl.
  - apply raises_library_ret.
  - apply raises_library_bind; [apply Hb | intros _; exact IH].
Qed.

Lemma raises_library_when (b : bool) (m : M unit) :
  raises_library m -> raises_library (when b m).
Proof. intros Hm. destruct b; [exact Hm | apply raises_library_ret]. Qed.

Lemma raises_library_emit (l : level) (msg : string) : raises_library (emit l msg).
Proof. intros w e w' H. discriminate. Qed.

Lemma raises_library_lift {A} (r : result A) :
  (forall e, r = Raise e -> from_library e = true) -> raises_library (lift r).
Proof. intros Hr w e w' H. injection H as H _. exact (Hr e H). Qed.

Lemma raises_library_update_tree (f : fs.node -> result fs.node) :
  (forall t e, f t = Raise e -> from_library e = true) ->
  raises_library (update_tree f).
Proof.
  intros Hf w e w'. unfold update_tree.
  destruct (f (root w)) as [t|e0] eqn:E; [discriminate|].
  intros H. injection H as <- _. exact (Hf _ _ E).
Qed.

Lemma at_entry_raises_in (P : exn -> bool) (path : string) (p : list string)
    (act : bool -> option fs.node -> result (option fs.node)) :
  P (PermissionError path) = true -> P (NotADirectoryError path) = true ->
  P (ENOENT path) = true ->
  (forall wr x e, act wr x = Raise e -> P e = true) ->
  forall t e, fs.at_entry path p act t = Raise e -> P e = true.
Proof.
  intros HP HN HE Hact. induction p as [|n p IH]; intros t e; simpl.
  - intros H. injection H as <-. exact HP.
  - destruct t as [|wr es]; [intros H; injection H as <-; exact HN|].
    destruct p as [|n' p'].
    + destruct (act wr (fs.lookup_entry n es)) as [r|e0] eqn:E; simpl; [discriminate|].
      intros H. injection H as <-. exact (Hact _ _ _ E).
    + destruct (fs.lookup_entry n es) as [c|];
        [|intros H; injection H as <-; exact HE].
      destruct (fs.at_entry path (n' :: p') act c) as [c'|e0] eqn:E; simpl;
        [discriminate|].
      intros H. injection H as <-. exact (IH _ _ E).
Qed.

Lemma at_entry_raises (path : string) (p : list string)
    (act : bool -> option fs.node -> result (option fs.node)) :
  (forall wr x e, act wr x = Raise e -> from_library e = true) ->
  forall t e, fs.at_entry path p act t = Raise e -> from_library e = true.
Proof. now apply at_entry_raises_in. Qed.

Lemma makedirs_at_raises (path : string) (p : list string) :
  forall t e, fs.makedirs_at path p t = Raise e -> from_library e = true.
Proof.
  induction p as [|n p IH]; intros t e; simpl.
  - destruct t; [|discriminate]. intros H. injection H as <-. reflexivity.
  - destruct t as [|wr es]; [intros H; injection H as <-; reflexivity|].
    destruct (fs.lookup_entry n es) as [c|].
    + destruct (fs.makedirs_at path p c) as [c'|e0] eqn:E; simpl; [discriminate|].
      intros H. injection H as <-. exact (IH _ _ E).
    + destruct wr; [|intros H; injection H as <-; reflexivity].
      destruct (fs.makedirs_at path p (fs.Dir true [])) as [c'|e0] eqn:E; simpl;
        [discriminate|].
      intros H. injection H as <-. exact (IH _ _ E).
Qed.

Lemma raises_library_makedirs (path : string) : raises_library (os.makedirs path).
Proof.
  unfold os.makedirs. destruct (fs.resolve path) as [p|].
  - apply raises_library_update_tree, makedirs_at_raises.
  - now apply raises_library_raise.
Qed.

Lemma raises_library_write_file (path data : string) :
  raises_library (write_file path data).
Proof.
  unfold write_file, os.on_entry. destruct (fs.resolve path) as [p|].
  - apply raises_library_update_tree, at_entry_raises.
    intros wr x e. unfold fs.write_act.
    destruct x as [[d|wr' es]|]; [discriminate | | destruct wr; [discriminate|]];
      intros H; injection H as <-; reflexivity.
  - now apply raises_library_raise.
Qed.

Lemma raises_library_read_file (path : string) : raises_library (read_file path).
Proof.
  intros w e w'. unfold read_file.
  destruct (os.node_at w path) as [[d|wr es]|]; [discriminate | |];
    intros H; injection H as <- _; reflexivity.
Qed.

Lemma parse_rows_raises (width line_no : nat) (ls : list string) (e : exn) :
  pd.parse_rows width line_no ls = Raise e -> from_library e = true.
Proof.
  revert line_no. induction ls as [|l ls IH]; intros line_no; simpl; [discriminate|].
  destruct (Nat.ltb width (length (pd.fields l))).
  - intros H. injection H as <-. reflexivity.
  - destruct (pd.parse_rows width (S line_no) ls) as [rs|e0] eqn:E; simpl;
      [discriminate|].
    intros H. injection H as <-. exact (IH _ E).
Qed.

Lemma read_csv_raises (mangle : list string -> list string) (text : string)
    (header : pd.header_arg) (e : exn) :
  pd.read_csv mangle text header = Raise e -> from_library e = true.
Proof.
  unfold pd.read_csv. destruct (pd.text_lines text) as [|l0 rest].
  - intros H. injection H as <-. reflexivity.
  - destruct header.
    + destruct (pd.parse_rows _ 2 rest) as [rs|e0] eqn:E; simpl; [discriminate|].
      intros H. injection H as <-. exact (parse_rows_raises _ _ _ _ E).
    + destruct (pd.parse_rows _ 1 (l0 :: rest)) as [rs|e0] eqn:E; [discriminate|].
      cbn [rbind]. intros H. injection H as <-. exact (parse_rows_raises _ _ _ _ E).
Qed.

Lemma scan_line_raises (ext : External) (st : scan) (line : string) (e : exn) :
  scan_line ext st line = Raise e -> from_library e = true.
Proof.
  unfold scan_line. destruct (Py.startswith line "[").
  - destruct (write_key st) as [key|]; [destruct (Py.truthy (Some key))|];
      try discriminate.
    destruct (pd.read_csv _ _ _) as [df|e0] eqn:E; simpl; [discriminate|].
    intros H. injection H as <-. exact (read_csv_raises _ _ _ _ E).
  - destruct (Py.truthy (write_key st)); discriminate.
Qed.

Lemma parse_lines_raises (ext : External) (lines : list string) (e : exn) :
  parse_lines ext lines = Raise e -> from_library e = true.
Proof.
  unfold parse_lines. generalize scan_start.
  induction lines as [|l lines IH]; intros st; simpl.
  - unfold scan_end.
    destruct (write_key st) as [key|]; [destruct (Py.truthy (Some key))|];
      try discriminate.
    destruct (pd.read_csv _ _ _) as [df|e0] eqn:E; simpl; [discriminate|].
    intros H. injection H as <-. exact (read_csv_raises _ _ _ _ E).
  - destruct (scan_line ext st l) as [st'|e0] eqn:E; simpl.
    + apply IH.
    + intros H. injection H as <-. exact (scan_line_raises _ _ _ _ E).
Qed.

Lemma raises_library_process_file (ext : External) (file_path : string) :
  raises_library (process_file ext file_path).
Proof.
  unfold process_file, mbind, M_bind.
  apply raises_library_bind; [apply raises_library_read_file|]. intros text.
  apply raises_library_bind.
  { apply raises_library_lift. intros e. apply parse_lines_raises. }
  intros tables. apply raises_library_for_each. intros [key df].
  apply raises_library_bind; [apply raises_library_write_file|].
  intros _. apply raises_library_emit.
Qed.

Lemma raises_library_extract_member (ext : External) (output_dir : string)
    (member : TarInfo) :
  raises_library (extract_member ext output_dir member).
Proof.
  unfold extract_member, mbind, M_bind. apply raises_library_when.
  apply raises_library_bind; [apply raises_library_makedirs|]. intros _.
  apply raises_library_bind; [apply raises_library_emit|]. intros _.
  apply raises_library_bind.
  { destruct (gzip_read ext (payload member)).
    - apply raises_library_write_file.
    - now apply raises_library_raise. }
  intros _. apply raises_library_bind; [apply raises_library_emit|]. intros _.
  apply raises_library_process_file.
Qed.

(** What follows the check of the archive in [ExtractAndProcessFiles.run]
    raises library exceptions only. *)
Lemma raises_library_extraction (ext : External) (tar_path output_dir : string) :
  raises_library
    (bind (read_file tar_path) (fun archive =>
       bind (match tarfile_open ext archive with
             | None => raise (ReadError tar_path)
             | Some members =>
                 bind (logging.info ("Extracting files from " +:+ tar_path))
                   (fun _ => for_each members (extract_member ext output_dir))
             end)
         (fun _ => logging.info "All files extracted and processed."))).
Proof.
  apply raises_library_bind; [apply raises_library_read_file|]. intros archive.
  apply raises_library_bind; [|intros _; apply raises_library_emit].
  destruct (tarfile_open ext archive) as [members|].
  - apply raises_library_bind; [apply raises_library_emit|]. intros _.
    apply raises_library_for_each. intros m. apply raises_library_extract_member.
  - now apply raises_library_raise.
Qed.

Lemma path_exists_root (path : string) (w w' : world) :
  root w' = root w ->
  os.path_exists path w = (Ok true, w) -> os.path_exists path w' = (Ok true, w').
Proof.
  unfold os.path_exists, os.node_at. intros ->.
  destruct (fs.resolve path) as [p|]; [|discriminate].
  destruct (fs.lookup (root w) p); [reflexivity | discriminate].
Qed.

Lemma path_isdir_root (path : string) (w w' : world) :
  root w' = root w ->
  os.path_isdir path w = (Ok true, w) -> os.path_isdir path w' = (Ok true, w').
Proof.
  unfold os.path_isdir, os.node_at. intros ->.
  destruct (fs.resolve path) as [p|]; [|discriminate].
  destruct (fs.lookup (root w) p) as [n|]; [|discriminate].
  destruct (fs.is_dir n); [reflexivity | discriminate].
Qed.

(** ** A failed extraction that counts as complete *)

(** C6: a run of [ExtractAndProcessFiles] that ends with the
    [FileNotFoundError] of the program ended at the check of the archive:
    [os.makedirs] had succeeded before, and the tree the run leaves is the
    one it made.  So the output directory, the output target of the task,
    exists afterwards; the task is complete, and building it again skips it
    without running it. *)
Theorem failed_extraction_is_complete
    (ext : External) (dataset_id download_dir output_dir msg : string) (w w' : world) :
  let self := ExtractAndProcessFiles dataset_id download_dir output_dir in
  ExtractAndProcessFiles_run ext dataset_id download_dir output_dir w
  = (Raise (FileNotFoundError msg), w') ->
  msg = "TAR file does not exist: " +:+ input self
  /\ (exists w1, os.makedirs output_dir w = (Ok tt, w1) /\ root w' = root w1)
  /\ os.path_isdir (output self) w' = (Ok true, w')
  /\ complete self w' = (Ok true, w')
  /\ build ext self w' = (Ok Skipped, w').
Proof.
  intros self Hrun.
  unfold ExtractAndProcessFiles_run, mbind, M_bind in Hrun.
  unfold bind at 1 in Hrun.
  destruct (os.makedirs output_dir w) as [[[]|e] w1] eqn:Hmk.
  2:{ injection Hrun as He _. pose proof (raises_library_makedirs _ _ _ _ Hmk) as Hl.
      rewrite He in Hl. discriminate. }
  unfold bind at 1 in Hrun. unfold logging.info at 1, emit in Hrun.
  unfold bind at 1 in Hrun. unfold os.path_isfile in Hrun.
  destruct (makedirs_Ok _ _ _ Hmk) as (_ & _ & Hdir & Hex).
  match type of Hrun with
  | context [when (negb ?b)] => destruct b
  end.
  - cbn [negb when] in Hrun. unfold bind at 1, ret in Hrun.
    pose proof (raises_library_extraction ext _ _ _ _ _ Hrun) as Hl. discriminate.
  - cbn [negb when] in Hrun. unfold bind at 1 2, logging.error, emit, raise in Hrun.
    injection Hrun as Hmsg Hw'.
    assert (Hroot : root w' = root w1) by (now rewrite <- Hw').
    assert (Hcomplete : complete self w' = (Ok true, w')).
    { unfold complete. exact (path_exists_root _ _ _ Hroot Hex). }
    split; [now rewrite <- Hmsg|]. split; [now exists w1|].
    split; [exact (path_isdir_root _ _ _ Hroot Hdir)|].
    split; [exact Hcomplete|].
    unfold build, build_from. unfold bind at 1. rewrite Hcomplete. reflexivity.
Qed.

(** The theorem on the run in a fresh working directory. *)
Lemma failed_extraction_is_complete_witness :
  exists w',
    ExtractAndProcessFiles_run Sample.ext "GSE68849" "data" "processed_data"
      Sample.empty_world
    = (Raise (FileNotFoundError "TAR file does not exist: data/GSE68849_RAW.tar"), w')
    /\ build Sample.ext (ExtractAndProcessFiles "GSE68849" "data" "processed_data") w'
       = (Ok Skipped, w').
Proof.
  exists {| root := fs.Dir true [("processed_data", fs.Dir true [])];
            log := [(INFO, "Opening TAR file at data/GSE68849_RAW.tar");
                    (ERROR, "TAR file does not exist: data/GSE68849_RAW.tar")] |}.
  split; [reflexivity|].
  exact (proj2 (proj2 (proj2 (proj2
           (failed_extraction_is_complete Sample.ext "GSE68849" "data" "processed_data"
              _ Sample.empty_world _ eq_refl))))).
Defined.

(** ** Loops *)

Lemma for_each_app {A} (xs ys : list A) (body : A -> M unit) (w : world) :
  for_each (xs ++ ys) body w
  = match for_each xs body w with
    | (Ok _, w') => for_each ys body w'
    | (Raise e, w') => (Raise e, w')
    end.
Proof.
  revert w. induction xs as [|x xs IH]; intros w; simpl; [reflexivity|].
  unfold mbind, M_bind, bind. destruct (body x w) as [[[]|e] w0]; [apply IH | reflexivity].
Qed.

(** The first element whose body raises ends the loop: the elements after
    it are not visited. *)
Lemma for_each_abort {A} (before after : list A) (x : A) (body : A -> M unit)
    (w wk wk' : world) (e : exn) :
  for_each before body w = (Ok tt, wk) ->
  body x wk = (Raise e, wk') ->
  for_each (before ++ x :: after) body w = (Raise e, wk').
Proof.
  intros Hb Hx. rewrite for_each_app, Hb. simpl.
  unfold mbind, M_bind, bind. now rewrite Hx.
Qed.

(** ** One failing table ends the trimming *)

(** C1, as the code has it: the files found are trimmed one after the
    other in the order of the walk, and nothing catches an exception in the
    loop.  The first file whose loading or writing raises ends the run with
    that exception, in the world that file left: the files after it are not
    processed and the completion marker is not written.  When every file is
    processed without an exception, the run goes on to write the marker with
    its fixed text. *)
Theorem first_failing_table_ends_the_run
    (ext : External) (dataset_id download_dir processed_data_dir output_dir : string)
    (w w0 : world) (probes_files : list string) :
  let self := TrimProbesTable dataset_id download_dir processed_data_dir output_dir in
  os.makedirs output_dir w = (Ok tt, w0) ->
  find_probes_files processed_data_dir w0 = (Ok probes_files, w0) ->
  probes_files <> [] ->
  (forall before f after wk e wk',
      probes_files = before ++ f :: after ->
      for_each before (trim_probes_file ext self) w0 = (Ok tt, wk) ->
      trim_probes_file ext self f wk = (Raise e, wk') ->
      TrimProbesTable_run ext dataset_id download_dir processed_data_dir output_dir w
      = (Raise e, wk'))
  /\ (forall wn,
        for_each probes_files (trim_probes_file ext self) w0 = (Ok tt, wn) ->
        TrimProbesTable_run ext dataset_id download_dir processed_data_dir output_dir w
        = target_write (output self) completion_text wn).
Proof.
  intros self Hmk Hfind Hne.
  assert (Hrun : TrimProbesTable_run ext dataset_id download_dir processed_data_dir
                   output_dir w
                 = match for_each probes_files (trim_probes_file ext self) w0 with
                   | (Ok _, wn) => target_write (output self) completion_text wn
                   | (Raise e, wn) => (Raise e, wn)
                   end).
  { unfold TrimProbesTable_run, mbind, M_bind, bind. rewrite Hmk, Hfind.
    destruct probes_files as [|f fs]; [contradiction|]. reflexivity. }
  split.
  - intros before f after wk e wk' -> Hbefore Hf.
    rewrite Hrun. now rewrite (for_each_abort before after f _ _ _ _ _ Hbefore Hf).
  - intros wn Hall. rewrite Hrun. now rewrite Hall.
Qed.

(** The theorem on the samples.  With two tables of which the first is an
    empty file, the run ends with the [EmptyDataError] of the first; with
    the second table alone, it ends well, marker written. *)
Lemma first_failing_table_ends_the_run_witness :
  fst (TrimProbesTable_run Sample.ext "GSE68849" "data" "processed_data" "trimmed_probes"
         Sample.two_tables) = Raise EmptyDataError
  /\ fst (TrimProbesTable_run Sample.ext "GSE68849" "data" "processed_data"
            "trimmed_probes" Sample.one_table) = Ok tt
  /\ fst (read_file "trimmed_probes/Probes_trimmed.tsv"
            (snd (TrimProbesTable_run Sample.ext "GSE68849" "data" "processed_data"
                    "trimmed_probes" Sample.one_table))) = Ok completion_text.
Proof.
  destruct (first_failing_table_ends_the_run Sample.ext
              "GSE68849" "data" "processed_data" "trimmed_probes"
              Sample.two_tables
              {| root := fs.Dir true
                   (fs.entries_of (root Sample.two_tables)
                    ++ [("trimmed_probes", fs.Dir true [])]);
                 log := [] |}
              [ "processed_data/A.txt/A_Probes.tsv";
                "processed_data/B.txt/B_Probes.tsv" ]
              eq_refl eq_refl ltac:(discriminate)) as [Habort _].
  destruct (first_failing_table_ends_the_run Sample.ext
              "GSE68849" "data" "processed_data" "trimmed_probes"
              Sample.one_table
              {| root := fs.Dir true
                   (fs.entries_of (root Sample.one_table)
                    ++ [("trimmed_probes", fs.Dir true [])]);
                 log := [] |}
              [ "processed_data/B.txt/B_Probes.tsv" ]
              eq_refl eq_refl ltac:(discriminate)) as [_ Hdone].
  split; [|split].
  - rewrite (Habort [] "processed_data/A.txt/A_Probes.tsv"
               ["processed_data/B.txt/B_Probes.tsv"] _ EmptyDataError _
               eq_refl eq_refl eq_refl).
    reflexivity.
  - rewrite (Hdone _ eq_refl). reflexivity.
  - rewrite (Hdone _ eq_refl). reflexivity.
Defined.

(** C1 as the specification states it fails: the first of the two tables
    is an empty file, loading it raises, and the run ends there.  The second
    table, which the run trims well when it is alone, is not processed, and
    the completion marker is not written. *)
Lemma independent_tables_counterexample :
  fst Sample.trim_two_tables = Raise EmptyDataError
  /\ fst (os.path_exists "trimmed_probes/B_trimmed_Probes.tsv"
            (snd Sample.trim_two_tables)) = Ok false
  /\ fst (os.path_exists "trimmed_probes/Probes_trimmed.tsv"
            (snd Sample.trim_two_tables)) = Ok false
  /\ fst Sample.trim_one_table = Ok tt
  /\ fst (os.path_exists "trimmed_probes/B_trimmed_Probes.tsv"
            (snd Sample.trim_one_table)) = Ok true.
Proof. repeat split; reflexivity. Qed.

(** ** The directory tree under deletions *)

Lemma lookup_entry_remove (m n : string) (es : list (string * fs.node)) :
  fs.lookup_entry m (fs.remove_entry n es)
  = if String.eqb n m then None else fs.lookup_entry m es.
Proof.
  unfold fs.remove_entry. induction es as [|[k c] es IH].
  - simpl. now destruct (String.eqb n m).
  - destruct (String.eqb_spec k n) as [->|Hkn].
    + rewrite filter_cons_False by (simpl; rewrite String.eqb_refl; discriminate).
      rewrite IH. simpl. now destruct (String.eqb n m).
    + rewrite filter_cons_True
        by (simpl; now destruct (String.eqb_spec k n)).
      simpl. rewrite IH.
      destruct (String.eqb_spec k m) as [->|Hkm]; [|reflexivity].
      now destruct (String.eqb_spec n m) as [->|_].
Qed.




(** ** Best-effort steps *)












(** ** The cleaning stage and its marker *)


(** The cleaning stage on two samples, with the default parameters.  On
    extracted data it can delete, the run returns, everything under
    [processed_data] and the directory itself are gone, and the marker does
    not exist.  On a directory that does not let its entries go, the run
    returns as well, the failed deletions are logged, and the marker does
    not exist either. *)
Lemma cleaner_marker_is_missing :
  fst Sample.clean_no_tables = Ok tt
  /\ root (snd Sample.clean_no_tables) = fs.Dir true []
  /\ fst (complete (DeleteOriginalData "GSE68849" "data" "processed_data" "trimmed_probes")
            (snd Sample.clean_no_tables)) = Ok false
  /\ fst Sample.clean_locked = Ok tt
  /\ root (snd Sample.clean_locked) = root Sample.locked
  /\ In (ERROR, "Error deleting file processed_data/B.txt/B.txt: "
                +:+ "Permission denied: processed_data/B.txt/B.txt")
        (log (snd Sample.clean_locked))
  /\ fst (complete (DeleteOriginalData "GSE68849" "data" "processed_data" "trimmed_probes")
            (snd Sample.clean_locked)) = Ok false.
Proof.
  repeat split; try reflexivity.
  vm_compute. tauto.
Qed.

(** * Further properties of the parser *)

(** ** Lines outside of a section *)

(** X1: the lines of a file that come before its first section line are
    discarded: the tables are those of the rest of the file. *)
Theorem lines_before_first_section_are_dropped
    (ext : External) (pre rest : list string) :
  Forall (fun l => Py.startswith l "[" = false) pre ->
  parse_lines ext (pre ++ rest) = parse_lines ext rest.
Proof.
  intros Hpre. unfold parse_lines.
  rewrite scan_lines_app, scan_lines_outside; [reflexivity | reflexivity | exact Hpre].
Qed.

Lemma lines_before_first_section_are_dropped_witness :
  parse_lines Sample.ext ([Sample.line ["!Series_title"; "x"]] ++ Sample.scenario)
  = parse_lines Sample.ext Sample.scenario.
Proof.
  apply (lines_before_first_section_are_dropped Sample.ext).
  repeat constructor.
Defined.

(** X2: a section line whose name is empty once the brackets and the line
    end are stripped (a line [[]] for one) opens no section: when no
    section is open before it, the lines that follow it up to the next
    section line are discarded, and at the end of the input no table is
    made for it. *)
Theorem unnamed_section_is_dropped
    (ext : External) (pre : list string) (st : scan) (nxt : string)
    (body : list string) :
  scan_lines ext scan_start pre = Ok st ->
  Py.truthy (write_key st) = false ->
  Py.startswith nxt "[" = true ->
  Py.strip nxt ("[]" +:+ Py.nl) = EmptyString ->
  Forall (fun l => Py.startswith l "[" = false) body ->
  parse_lines ext (pre ++ nxt :: body) = Ok (dfs st).
Proof.
  intros Hpre Hk Hnxt Hstrip Hbody. unfold parse_lines.
  rewrite scan_lines_app, Hpre. cbn [rbind scan_lines].
  assert (Hline : scan_line ext st nxt
                  = Ok {| dfs := dfs st; write_key := Some EmptyString;
                          fio := EmptyString |}).
  { unfold scan_line. rewrite Hnxt, Hstrip. revert Hk.
    destruct (write_key st) as [key|]; [|reflexivity].
    intros Hk. now rewrite Hk. }
  rewrite Hline. cbn [rbind].
  rewrite scan_lines_outside; [reflexivity | reflexivity | exact Hbody].
Qed.

Lemma unnamed_section_is_dropped_witness :
  parse_lines Sample.ext ([] ++ Sample.line ["[]"] :: [Sample.line ["a"; "b"]]) = Ok [].
Proof.
  apply (unnamed_section_is_dropped Sample.ext [] scan_start); try reflexivity.
  repeat constructor.
Defined.

(** ** The names of the tables *)

Lemma dict_set_keys_incl {V} (key k : string) (v : V) (d : list (string * V)) :
  In k (map fst (dict_set key v d)) -> k = key \/ In k (map fst d).
Proof.
  induction d as [|[k0 v0] d IH]; simpl.
  - intros [<-|[]]. now left.
  - destruct (String.eqb_spec k0 key) as [->|Hne]; simpl.
    + intros [<-|Hin]; [now left | right; now right].
    + intros [<-|Hin]; [right; now left|].
      destruct (IH Hin) as [->|Hd]; [now left | right; now right].
Qed.

Lemma scan_line_keys_from (ext : External) (P : string -> Prop)
    (st st' : scan) (line : string) :
  (Py.startswith line "[" = true ->
   Py.truthy (Some (Py.strip line ("[]" +:+ Py.nl))) = true ->
   P (Py.strip line ("[]" +:+ Py.nl))) ->
  keys_from P st -> scan_line ext st line = Ok st' -> keys_from P st'.
Proof.
  intros Hline [Hd Hk]. unfold scan_line.
  destruct (Py.startswith line "[") eqn:Hs.
  - intros H. apply rbind_Ok in H as (d' & Hd' & H). injection H as <-.
    split; cbn [dfs write_key].
    + destruct (write_key st) as [key|] eqn:Ek;
        [destruct (Py.truthy (Some key)) eqn:Et|].
      * apply rbind_Ok in Hd' as (df & _ & Hdf). injection Hdf as <-.
        intros k Hin. destruct (dict_set_keys_incl _ _ _ _ Hin) as [->|Hin'].
        -- now apply Hk.
        -- now apply Hd.
      * injection Hd' as <-. exact Hd.
      * injection Hd' as <-. exact Hd.
    + intros k Hkey Ht. injection Hkey as <-. now apply Hline.
  - destruct (Py.truthy (write_key st)); intros H; injection H as <-.
    + split; [exact Hd | exact Hk].
    + split; [exact Hd | exact Hk].
Qed.

Lemma scan_lines_keys_from (ext : External) (P : string -> Prop)
    (lines : list string) (st st' : scan) :
  (forall l, In l lines -> Py.startswith l "[" = true ->
             Py.truthy (Some (Py.strip l ("[]" +:+ Py.nl))) = true ->
             P (Py.strip l ("[]" +:+ Py.nl))) ->
  keys_from P st -> scan_lines ext st lines = Ok st' -> keys_from P st'.
Proof.
  revert st. induction lines as [|l lines IH]; intros st Hl Hst; simpl.
  - intros H. injection H as <-. exact Hst.
  - intros H. apply rbind_Ok in H as (st1 & H1 & H).
    apply (IH st1); [intros l' Hin; apply Hl; now right | | exact H].
    apply (scan_line_keys_from ext P st st1 l); [apply Hl; now left | exact Hst | exact H1].
Qed.

(** X3: every table of a file is named after one of its section lines: the
    name is what is left of a line starting with [[] once the brackets and
    the line end are stripped from its two ends, and it is not empty. *)
Theorem tables_are_named_after_section_lines
    (ext : External) (lines : list string) (tables : list (string * pd.DataFrame))
    (k : string) :
  parse_lines ext lines = Ok tables ->
  In k (map fst tables) ->
  k <> EmptyString
  /\ exists l, In l lines /\ Py.startswith l "[" = true
               /\ k = Py.strip l ("[]" +:+ Py.nl).
Proof.
  set (P := fun k => k <> EmptyString
                     /\ exists l, In l lines /\ Py.startswith l "[" = true
                                  /\ k = Py.strip l ("[]" +:+ Py.nl)).
  unfold parse_lines. intros H Hin.
  apply rbind_Ok in H as (st & Hst & Hend).
  assert (Hinv : keys_from P st).
  { apply (scan_lines_keys_from ext P lines scan_start st); [| |exact Hst].
    - intros l Hl Hs Ht. split; [|now exists l].
      intros He. rewrite He in Ht. discriminate.
    - split; [intros k' []| discriminate]. }
  destruct Hinv as [Hd Hk]. unfold scan_end in Hend.
  destruct (write_key st) as [key|] eqn:Ek; [destruct (Py.truthy (Some key)) eqn:Et|].
  - apply rbind_Ok in Hend as (df & _ & Hdf). injection Hdf as <-.
    destruct (dict_set_keys_incl _ _ _ _ Hin) as [->|Hin']; [now apply Hk | now apply Hd].
  - injection Hend as <-. now apply Hd.
  - injection Hend as <-. now apply Hd.
Qed.

Lemma tables_are_named_after_section_lines_witness :
  "Probes" <> EmptyString
  /\ exists l, In l Sample.scenario /\ Py.startswith l "[" = true
               /\ "Probes" = Py.strip l ("[]" +:+ Py.nl).
Proof.
  apply (tables_are_named_after_section_lines Sample.ext Sample.scenario
           [("Heading", {| pd.columns := [pd.IntLabel 0; pd.IntLabel 1];
                           pd.rows := [["a"; "b"]] |});
            ("Probes", {| pd.columns := [pd.StrLabel "ID_REF"; pd.StrLabel "Definition";
                                         pd.StrLabel "Probe_Sequence"];
                          pd.rows := [["1"; "foo"; "ACGT"]] |})]
           "Probes").
  - reflexivity.
  - simpl. tauto.
Defined.

(** ** A file as the sequence of its sections *)

Lemma scan_open_section (ext : External) (d : list (string * pd.DataFrame))
    (s : section) (secs : list section) :
  well_formed_section s -> Forall well_formed_section secs ->
  rbind (scan_lines ext {| dfs := d; write_key := Some (section_key s);
                           fio := EmptyString |}
           (snd s ++ lines_of_sections secs))
    (scan_end ext)
  = tables_of_sections (mangle_dupe_cols ext) d (s :: secs).
Proof.
  intros Hs Hsecs. revert d s Hs.
  induction Hsecs as [|s2 secs Hs2 _ IH]; intros d s (Hl & Ht & Hbody).
  - cbn [lines_of_sections flat_map]. rewrite app_nil_r.
    rewrite scan_lines_body; [| exact Ht | exact Hbody]. cbn [rbind dfs write_key fio].
    rewrite (scan_end_key ext _ (section_key s)); [| reflexivity | exact Ht].
    cbn [fio dfs tables_of_sections]. reflexivity.
  - cbn [lines_of_sections flat_map]. fold (lines_of_sections secs).
    rewrite scan_lines_app.
    rewrite scan_lines_body; [| exact Ht | exact Hbody]. cbn [rbind dfs write_key fio].
    destruct Hs2 as (Hl2 & Ht2 & Hbody2).
    cbn [app scan_lines].
    rewrite (scan_line_open ext _ (section_key s) (fst s2));
      [| reflexivity | exact Ht | exact Hl2].
    cbn [fio dfs tables_of_sections].
    destruct (pd.read_csv _ _ _) as [df|e]; [|reflexivity].
    cbn [rbind]. apply (IH (dict_set (section_key s) df d) s2).
    repeat split; assumption.
Qed.

(** The sections of a file that starts with a section line. *)
Lemma parse_lines_of_sections (ext : External) (secs : list section) :
  Forall well_formed_section secs ->
  parse_lines ext (lines_of_sections secs)
  = tables_of_sections (mangle_dupe_cols ext) [] secs.
Proof.
  intros Hsecs.
  destruct Hsecs as [|s secs Hs Hsecs]; [reflexivity|].
  unfold parse_lines. cbn [lines_of_sections flat_map].
  fold (lines_of_sections secs). cbn [app scan_lines].
  destruct Hs as (Hl & Ht & Hbody).
  assert (Hfirst : scan_line ext scan_start (fst s)
                   = Ok {| dfs := []; write_key := Some (section_key s);
                           fio := EmptyString |}).
  { unfold scan_line. now rewrite Hl. }
  rewrite Hfirst. cbn [rbind].
  apply scan_open_section; [repeat split; assumption | exact Hsecs].
Qed.

(** X4: the tables of a file are made section by section.  For a file that
    is a run of lines without a section line followed by sections with
    non-empty names, the result is that of reading, in the order of the file,
    the lines of each section as one table (without a header row for a
    [Heading] section that is not the last) and storing it under the name of
    the section: a section sees its own lines only, and the first section
    that cannot be read fails the whole file. *)
Theorem parse_lines_by_sections
    (ext : External) (pre : list string) (secs : list section) :
  Forall (fun l => Py.startswith l "[" = false) pre ->
  Forall well_formed_section secs ->
  parse_lines ext (pre ++ lines_of_sections secs)
  = tables_of_sections (mangle_dupe_cols ext) [] secs.
Proof.
  intros Hpre Hsecs.
  rewrite <- (parse_lines_of_sections ext secs Hsecs). unfold parse_lines.
  rewrite scan_lines_app, scan_lines_outside; [reflexivity | reflexivity | exact Hpre].
Qed.

Lemma parse_lines_by_sections_witness :
  parse_lines Sample.ext ([] ++ lines_of_sections Sample.scenario_sections)
  = tables_of_sections (mangle_dupe_cols Sample.ext) [] Sample.scenario_sections.
Proof.
  apply (parse_lines_by_sections Sample.ext [] Sample.scenario_sections).
  - constructor.
  - repeat constructor.
Defined.

Lemma tables_of_sections_keys (mangle : list string -> list string)
    (secs : list section) (d tables : list (string * pd.DataFrame)) :
  NoDup (map fst d ++ map section_key secs) ->
  tables_of_sections mangle d secs = Ok tables ->
  map fst tables = map fst d ++ map section_key secs.
Proof.
  revert d. induction secs as [|s secs IH]; intros d Hnd; cbn [tables_of_sections].
  - intros H. injection H as <-. simpl. now rewrite app_nil_r.
  - intros H. apply rbind_Ok in H as (df & _ & H).
    assert (Hnew : dict_get (section_key s) d = None).
    { destruct (dict_get (section_key s) d) as [v|] eqn:E; [|reflexivity].
      exfalso. apply NoDup_app in Hnd as (_ & Hdis & _).
      apply (Hdis (section_key s)).
      - apply list_elem_of_In. clear -E.
        induction d as [|[k0 v0] d IHd]; simpl in *; [discriminate|].
        destruct (String.eqb_spec k0 (section_key s)) as [->|_]; [now left|].
        right. now apply IHd.
      - simpl. apply list_elem_of_In. now left. }
    pose proof (dict_set_keys_new (section_key s) df d Hnew) as Hkeys.
    rewrite (IH (dict_set (section_key s) df d)); [| | exact H].
    + rewrite Hkeys, <- app_assoc. reflexivity.
    + rewrite Hkeys, <- app_assoc. exact Hnd.
Qed.

(** X5: a file of sections with distinct non-empty names that parses gives
    exactly one table for each section, in the order of the sections in the
    file. *)
Theorem distinct_sections_give_one_table_each
    (ext : External) (pre : list string) (secs : list section)
    (tables : list (string * pd.DataFrame)) :
  Forall (fun l => Py.startswith l "[" = false) pre ->
  Forall well_formed_section secs ->
  NoDup (map section_key secs) ->
  parse_lines ext (pre ++ lines_of_sections secs) = Ok tables ->
  map fst tables = map section_key secs /\ length tables = length secs.
Proof.
  intros Hpre Hsecs Hnd H.
  assert (Hskip : parse_lines ext (pre ++ lines_of_sections secs)
                  = parse_lines ext (lines_of_sections secs)).
  { unfold parse_lines.
    rewrite scan_lines_app, scan_lines_outside; [reflexivity | reflexivity | exact Hpre]. }
  rewrite Hskip, (parse_lines_of_sections ext secs Hsecs) in H.
  pose proof (tables_of_sections_keys _ secs [] tables Hnd H) as Hkeys.
  split; [exact Hkeys|].
  rewrite <- (length_map fst tables), Hkeys. apply length_map.
Qed.

Lemma distinct_sections_give_one_table_each_witness :
  exists tables,
    parse_lines Sample.ext ([] ++ lines_of_sections Sample.scenario_sections) = Ok tables
    /\ map fst tables = ["Heading"; "Probes"] /\ length tables = 2.
Proof.
  eexists. split; [reflexivity|].
  apply (distinct_sections_give_one_table_each Sample.ext [] Sample.scenario_sections).
  - constructor.
  - repeat constructor.
  - repeat constructor; simpl; intros H; inversion H; subst;
      try discriminate; match goal with H' : _ ∈ [] |- _ => inversion H' end.
  - reflexivity.
Defined.

(** ** Nothing is written before the whole file is parsed *)

(** X6: [process_file] writes its tables only once the whole file is
    parsed.  When the parse raises, the exception leaves [process_file] and
    the world is as it was: no table of the file is written, not even those
    of the sections before the one that failed.  And a file without any
    section line is read and nothing else happens. *)
Theorem process_file_parses_before_it_writes
    (ext : External) (file_path text : string) (w : world) :
  read_file file_path w = (Ok text, w) ->
  (forall e, parse_sections ext text = Raise e ->
             process_file ext file_path w = (Raise e, w))
  /\ (Forall (fun l => Py.startswith l "[" = false) (Py.readlines text) ->
      process_file ext file_path w = (Ok tt, w)).
Proof.
  intros Hread. split.
  - intros e He. unfold process_file, mbind, M_bind, bind, lift.
    now rewrite Hread, He.
  - intros Hno. unfold process_file, mbind, M_bind, bind, lift.
    rewrite Hread. unfold parse_sections, parse_lines.
    rewrite scan_lines_outside; [reflexivity | reflexivity | exact Hno].
Qed.

(** * Further properties of the stages *)

(** ** Writing a file and reading it back *)

Lemma at_entry_written (path : string) (p : list string)
    (act : bool -> option fs.node -> result (option fs.node)) (n : fs.node) :
  (forall wr x r, act wr x = Ok r -> r = Some n) ->
  forall t t', fs.at_entry path p act t = Ok t' -> fs.lookup t' p = Some n.
Proof.
  intros Hact. induction p as [|n0 p IH]; intros t t'; simpl; [discriminate|].
  destruct t as [|wr es]; [discriminate|].
  destruct p as [|n1 p'].
  - destruct (act wr (fs.lookup_entry n0 es)) as [r|e] eqn:E; simpl; [|discriminate].
    intros H. injection H as <-. rewrite (Hact _ _ _ E). simpl.
    now rewrite lookup_entry_replace, String.eqb_refl.
  - destruct (fs.lookup_entry n0 es) as [c|]; [|discriminate].
    destruct (fs.at_entry path (n1 :: p') act c) as [c'|e] eqn:E; simpl; [|discriminate].
    intros H. injection H as <-.
    cbn [fs.lookup]. rewrite lookup_entry_replace, String.eqb_refl.
    exact (IH c c' E).
Qed.

Lemma write_act_result (path data : string) (wr : bool) (x : option fs.node)
    (r : option fs.node) :
  fs.write_act path data wr x = Ok r -> r = Some (fs.File data).
Proof.
  unfold fs.write_act. destruct x as [[d|wr' es]|]; [| discriminate |].
  - intros H. now injection H.
  - destruct wr; [|discriminate]. intros H. now injection H.
Qed.

(** A file that has been written holds what was written: it can be read
    back, and it exists. *)
Lemma write_file_read (path data : string) (w w' : world) :
  write_file path data w = (Ok tt, w') ->
  read_file path w' = (Ok data, w')
  /\ os.path_exists path w' = (Ok true, w')
  /\ log w' = log w.
Proof.
  unfold write_file, os.on_entry, read_file, os.path_exists, os.node_at.
  destruct (fs.resolve path) as [p|]; [|discriminate].
  unfold update_tree.
  destruct (fs.at_entry path p (fs.write_act path data) (root w)) as [t|e] eqn:E;
    [|discriminate].
  intros H. injection H as <-. cbn [root log].
  rewrite (at_entry_written path p _ (fs.File data) (write_act_result path data) _ _ E).
  repeat split.
Qed.

Lemma try_except_Ok {A} (body : M A) (catches : exn -> bool) (handler : exn -> M A)
    (w w' : world) (a : A) :
  try_except body catches handler w = (Ok a, w') ->
  body w = (Ok a, w')
  \/ exists e w1, body w = (Raise e, w1) /\ handler e w1 = (Ok a, w').
Proof.
  unfold try_except. destruct (body w) as [[a0|e] w1].
  - intros H. now left.
  - destruct (catches e); [|discriminate]. intros H. right. now exists e, w1.
Qed.

(** The same for a luigi target. *)
Lemma target_write_read (path data : string) (w w' : world) :
  target_write path data w = (Ok tt, w') ->
  read_file path w' = (Ok data, w') /\ os.path_exists path w' = (Ok true, w').
Proof.
  unfold target_write, mbind, M_bind, bind.
  destruct (when _ _ w) as [[[]|e] w1]; [|discriminate].
  intros H. destruct (write_file_read _ _ _ _ H) as (Hr & He & _). now split.
Qed.

(** ** A trimming that returns has made its marker *)

(** X7: when [TrimProbesTable.run] returns, its output target holds the
    fixed text, so that the task is complete: the marker is the last thing
    the run writes. *)
Theorem trimming_that_returns_is_complete
    (ext : External) (dataset_id download_dir processed_data_dir output_dir : string)
    (w w' : world) :
  let self := TrimProbesTable dataset_id download_dir processed_data_dir output_dir in
  TrimProbesTable_run ext dataset_id download_dir processed_data_dir output_dir w
  = (Ok tt, w') ->
  read_file (output self) w' = (Ok completion_text, w')
  /\ complete self w' = (Ok true, w').
Proof.
  intros self H. unfold complete.
  unfold TrimProbesTable_run, mbind, M_bind in H.
  unfold bind at 1 in H.
  destruct (os.makedirs output_dir w) as [[[]|e] w1]; [|discriminate].
  unfold bind at 1 in H.
  destruct (find_probes_files processed_data_dir w1) as [[files|e] w2]; [|discriminate].
  unfold bind at 1 in H.
  destruct (when _ _ w2) as [[[]|e] w3]; [|discriminate].
  unfold bind at 1 in H.
  destruct (for_each files _ w3) as [[[]|e] w4]; [|discriminate].
  exact (target_write_read _ _ _ _ H).
Qed.

Lemma trimming_that_returns_is_complete_witness :
  complete (TrimProbesTable "GSE68849" "data" "processed_data" "trimmed_probes")
    (snd Sample.trim_one_table)
  = (Ok true, snd Sample.trim_one_table).
Proof.
  exact (proj2 (trimming_that_returns_is_complete Sample.ext
                  "GSE68849" "data" "processed_data" "trimmed_probes"
                  Sample.one_table (snd Sample.trim_one_table) eq_refl)).
Defined.

(** ** The download *)

(** X8: when [DownloadDataset.run], started where its output target does
    not exist yet (the case in which the worker runs it, and the one in
    which [wget] saves under the name it is given), returns, the output
    target holds what was fetched from the address made of the dataset
    identifier, and the task is complete. *)
Theorem download_writes_what_it_fetched
    (ext : External) (dataset_id download_dir : string) (w w' : world) :
  let self := DownloadDataset dataset_id download_dir in
  let url := "ftp://ftp.ncbi.nlm.nih.gov/geo/series/GSE68nnn/" +:+ dataset_id
             +:+ "/suppl/" +:+ dataset_id +:+ "_RAW.tar" in
  fst (os.path_exists (output self) w) = Ok false ->
  DownloadDataset_run ext dataset_id download_dir w = (Ok tt, w') ->
  exists data,
    wget_download ext url = Some data
    /\ read_file (output self) w' = (Ok data, w')
    /\ complete self w' = (Ok true, w').
Proof.
  intros self url _ H. unfold complete.
  unfold DownloadDataset_run, mbind, M_bind in H. fold url in H.
  unfold bind at 1 in H.
  destruct (os.makedirs download_dir w) as [[[]|e] w1]; [|discriminate].
  unfold bind at 1 in H. unfold print at 1, emit at 1 in H.
  unfold bind at 1 in H.
  destruct (wget_download ext url) as [data|]; [|discriminate].
  match type of H with
  | context [write_file ?p ?d ?w0] =>
      destruct (write_file p d w0) as [[[]|e] w2] eqn:Hw; [|discriminate]
  end.
  unfold print, emit in H. injection H as <-.
  destruct (write_file_read _ _ _ _ Hw) as (Hr & He & _).
  exists data. split; [reflexivity|]. subst self. split.
  - unfold read_file, os.node_at in *. cbn [root].
    destruct (fs.resolve (output (DownloadDataset dataset_id download_dir)))
      as [p|]; [|discriminate].
    destruct (fs.lookup (root w2) p) as [[d|wr es]|]; try discriminate.
    injection Hr as ->. reflexivity.
  - unfold os.path_exists, os.node_at in *. cbn [root].
    destruct (fs.resolve (output (DownloadDataset dataset_id download_dir)))
      as [p|]; [|discriminate].
    destruct (fs.lookup (root w2) p); [reflexivity | discriminate].
Qed.

Lemma download_writes_what_it_fetched_witness :
  exists data,
    wget_download Sample.archive_ext
      "ftp://ftp.ncbi.nlm.nih.gov/geo/series/GSE68nnn/GSE68849/suppl/GSE68849_RAW.tar"
    = Some data
    /\ read_file "data/GSE68849_RAW.tar"
         (snd (DownloadDataset_run Sample.archive_ext "GSE68849" "data"
                 Sample.empty_world))
       = (Ok data, snd (DownloadDataset_run Sample.archive_ext "GSE68849" "data"
                          Sample.empty_world)).
Proof.
  destruct (download_writes_what_it_fetched Sample.archive_ext
              "GSE68849" "data" Sample.empty_world
              (snd (DownloadDataset_run Sample.archive_ext "GSE68849" "data"
                      Sample.empty_world)) eq_refl eq_refl)
    as (data & Hd & Hr & _).
  exists data. split; [exact Hd | exact Hr].
Defined.

(** ** Steps that remove nothing *)

Lemma keeps_refl (t : fs.node) : keeps t t.
Proof. intros q n H. eauto. Qed.

Lemma keeps_trans (t1 t2 t3 : fs.node) : keeps t1 t2 -> keeps t2 t3 -> keeps t1 t3.
Proof.
  intros H12 H23 q n1 H1.
  destruct (H12 q n1 H1) as (n2 & H2 & E2).
  destruct (H23 q n2 H2) as (n3 & H3 & E3).
  exists n3. split; [exact H3 | congruence].
Qed.

Lemma keeps_under (wr : bool) (n0 : string) (c c' : fs.node)
    (es : list (string * fs.node)) :
  fs.lookup_entry n0 es = Some c -> keeps c c' ->
  keeps (fs.Dir wr es) (fs.Dir wr (fs.replace_entry n0 c' es)).
Proof.
  intros Ec Hc [|m q] n; simpl.
  - intros H. injection H as <-. eauto.
  - rewrite lookup_entry_replace.
    destruct (String.eqb_spec n0 m) as [<-|Hne]; [|eauto].
    rewrite Ec. apply Hc.
Qed.

Lemma keeps_new (wr : bool) (n0 : string) (c' : fs.node)
    (es : list (string * fs.node)) :
  fs.lookup_entry n0 es = None ->
  keeps (fs.Dir wr es) (fs.Dir wr (fs.replace_entry n0 c' es)).
Proof.
  intros Ec [|m q] n; simpl.
  - intros H. injection H as <-. eauto.
  - rewrite lookup_entry_replace.
    destruct (String.eqb_spec n0 m) as [<-|Hne]; [|eauto].
    rewrite Ec. discriminate.
Qed.

Lemma makedirs_at_keeps (path : string) (p : list string) (t t' : fs.node) :
  fs.makedirs_at path p t = Ok t' -> keeps t t'.
Proof.
  revert t t'. induction p as [|n0 p IH]; intros t t'; simpl.
  - destruct t; [discriminate|]. intros H. injection H as <-. apply keeps_refl.
  - destruct t as [|wr es]; [discriminate|].
    destruct (fs.lookup_entry n0 es) as [c|] eqn:Ec.
    + destruct (fs.makedirs_at path p c) as [c'|e] eqn:E; simpl; [|discriminate].
      intros H. injection H as <-. exact (keeps_under wr n0 c c' es Ec (IH c c' E)).
    + destruct wr; [|discriminate].
      destruct (fs.makedirs_at path p (fs.Dir true [])) as [c'|e]; simpl; [|discriminate].
      intros H. injection H as <-. exact (keeps_new true n0 c' es Ec).
Qed.

(** Writing a file puts a file where there was a file or nothing. *)
Lemma write_at_keeps (path data : string) (p : list string) (t t' : fs.node) :
  fs.at_entry path p (fs.write_act path data) t = Ok t' -> keeps t t'.
Proof.
  revert t t'. induction p as [|n0 p IH]; intros t t'; simpl; [discriminate|].
  destruct t as [|wr es]; [discriminate|].
  destruct p as [|n1 p'].
  - destruct (fs.lookup_entry n0 es) as [[d|wr' es']|] eqn:Ec; simpl.
    + intros H. injection H as <-. simpl.
      apply (keeps_under wr n0 (fs.File d) (fs.File data) es Ec).
      intros [|m q] n; simpl; [|discriminate].
      intros H. injection H as <-. eauto.
    + discriminate.
    + destruct wr; simpl; [|discriminate].
      intros H. injection H as <-. exact (keeps_new true n0 _ es Ec).
  - destruct (fs.lookup_entry n0 es) as [c|] eqn:Ec; [|discriminate].
    destruct (fs.at_entry path (n1 :: p') (fs.write_act path data) c) as [c'|e] eqn:E;
      simpl; [|discriminate].
    intros H. injection H as <-. exact (keeps_under wr n0 c c' es Ec (IH c c' E)).
Qed.

Lemma preserving_ret {A} (a : A) : preserving (ret a).
Proof. intros w r w' H. injection H as _ <-. apply keeps_refl. Qed.

Lemma preserving_raise {A} (e : exn) : preserving (@raise A e).
Proof. intros w r w' H. injection H as _ <-. apply keeps_refl. Qed.

Lemma preserving_emit (l : level) (msg : string) : preserving (emit l msg).
Proof. intros w r w' H. injection H as _ <-. apply keeps_refl. Qed.

Lemma preserving_lift {A} (x : result A) : preserving (lift x).
Proof. intros w r w' H. injection H as _ <-. apply keeps_refl. Qed.

(** A step that only looks at the world. *)
Lemma preserving_look {A} (f : world -> result A) : preserving (fun w => (f w, w)).
Proof. intros w r w' H. injection H as _ <-. apply keeps_refl. Qed.

Lemma preserving_bind {A B} (m : M A) (k : A -> M B) :
  preserving m -> (forall a, preserving (k a)) -> preserving (bind m k).
Proof.
  intros Hm Hk w r w'. unfold bind.
  destruct (m w) as [[a|e] w1] eqn:E.
  - intros H. exact (keeps_trans _ _ _ (Hm _ _ _ E) (Hk a _ _ _ H)).
  - intros H. injection H as _ <-. exact (Hm _ _ _ E).
Qed.

Lemma preserving_for_each {A} (xs : list A) (body : A -> M unit) :
  (forall x, preserving (body x)) -> preserving (for_each xs body).
Proof.
  intros Hb. induction xs as [|x xs IH]; simpl.
  - apply preserving_ret.
  - apply preserving_bind; [apply Hb | intros _; exact IH].
Qed.

Lemma preserving_when (b : bool) (m : M unit) : preserving m -> preserving (when b m).
Proof. intros Hm. destruct b; [exact Hm | apply preserving_ret]. Qed.

Lemma preserving_update_tree (f : fs.node -> result fs.node) :
  (forall t t', f t = Ok t' -> keeps t t') -> preserving (update_tree f).
Proof.
  intros Hf w r w'. unfold update_tree.
  destruct (f (root w)) as [t|e] eqn:E; intros H; injection H as _ <-.
  - exact (Hf _ _ E).
  - apply keeps_refl.
Qed.

Lemma preserving_makedirs (path : string) : preserving (os.makedirs path).
Proof.
  unfold os.makedirs. destruct (fs.resolve path) as [p|].
  - apply preserving_update_tree. apply makedirs_at_keeps.
  - apply preserving_raise.
Qed.

Lemma preserving_write_file (path data : string) : preserving (write_file path data).
Proof.
  unfold write_file, os.on_entry. destruct (fs.resolve path) as [p|].
  - apply preserving_update_tree. apply write_at_keeps.
  - apply preserving_raise.
Qed.

Lemma preserving_read_file (path : string) : preserving (read_file path).
Proof.
  intros w r w'. unfold read_file.
  destruct (os.node_at w path) as [[d|wr es]|]; intros H; injection H as _ <-;
    apply keeps_refl.
Qed.

Lemma preserving_process_file (ext : External) (file_path : string) :
  preserving (process_file ext file_path).
Proof.
  unfold process_file, mbind, M_bind.
  apply preserving_bind; [apply preserving_read_file|]. intros text.
  apply preserving_bind; [apply preserving_lift|]. intros tables.
  apply preserving_for_each. intros [key df].
  apply preserving_bind; [apply preserving_write_file|].
  intros _. apply preserving_emit.
Qed.

Lemma preserving_extract_member (ext : External) (output_dir : string)
    (member : TarInfo) :
  preserving (extract_member ext output_dir member).
Proof.
  unfold extract_member, mbind, M_bind. apply preserving_when.
  apply preserving_bind; [apply preserving_makedirs|]. intros _.
  apply preserving_bind; [apply preserving_emit|]. intros _.
  apply preserving_bind.
  { destruct (gzip_read ext (payload member)).
    - apply preserving_write_file.
    - apply preserving_raise. }
  intros _. apply preserving_bind; [apply preserving_emit|]. intros _.
  apply preserving_process_file.
Qed.

(** The whole of [ExtractAndProcessFiles.run] removes nothing. *)
Lemma preserving_ExtractAndProcessFiles_run
    (ext : External) (dataset_id download_dir output_dir : string) :
  preserving (ExtractAndProcessFiles_run ext dataset_id download_dir output_dir).
Proof.
  unfold ExtractAndProcessFiles_run, mbind, M_bind.
  apply preserving_bind; [apply preserving_makedirs|]. intros _.
  apply preserving_bind; [apply preserving_emit|]. intros _.
  apply preserving_bind; [apply (preserving_look (fun w => Ok _))|]. intros is_file.
  apply preserving_bind.
  { apply preserving_when. apply preserving_bind; [apply preserving_emit|].
    intros _. apply preserving_raise. }
  intros _. apply preserving_bind; [apply preserving_read_file|]. intros archive.
  apply preserving_bind; [|intros _; apply preserving_emit].
  destruct (tarfile_open ext archive) as [members|].
  - apply preserving_bind; [apply preserving_emit|]. intros _.
    apply preserving_for_each. intros m. apply preserving_extract_member.
  - apply preserving_raise.
Qed.

Lemma path_isdir_keeps (path : string) (w w' : world) :
  keeps (root w) (root w') ->
  os.path_isdir path w = (Ok true, w) ->
  os.path_isdir path w' = (Ok true, w') /\ os.path_exists path w' = (Ok true, w').
Proof.
  unfold os.path_isdir, os.path_exists, os.node_at. intros Hk.
  destruct (fs.resolve path) as [p|]; [|discriminate].
  destruct (fs.lookup (root w) p) as [n|] eqn:E; [|discriminate].
  destruct (Hk p n E) as (n' & -> & Hd). rewrite Hd.
  destruct (fs.is_dir n); [split; reflexivity | discriminate].
Qed.

(** ** The output directory of the extraction *)

(** X9: once [ExtractAndProcessFiles.run] has created its output
    directory, nothing it does removes it: however the run ends, with or
    without an exception and whatever was extracted by then, the directory
    exists afterwards, the task is complete and building it again skips it.
    And the run as a whole removes nothing that was in the tree. *)
Theorem extraction_leaves_its_target_behind
    (ext : External) (dataset_id download_dir output_dir : string)
    (w w1 w' : world) (r : result unit) :
  let self := ExtractAndProcessFiles dataset_id download_dir output_dir in
  os.makedirs output_dir w = (Ok tt, w1) ->
  ExtractAndProcessFiles_run ext dataset_id download_dir output_dir w = (r, w') ->
  os.path_isdir output_dir w' = (Ok true, w')
  /\ complete self w' = (Ok true, w')
  /\ build ext self w' = (Ok Skipped, w')
  /\ keeps (root w) (root w').
Proof.
  intros self Hmk Hrun.
  pose proof (preserving_ExtractAndProcessFiles_run ext _ _ _ _ _ _ Hrun) as Hall.
  destruct (makedirs_Ok _ _ _ Hmk) as (_ & _ & Hdir & _).
  assert (Hrest : keeps (root w1) (root w')).
  { unfold ExtractAndProcessFiles_run, mbind, M_bind in Hrun.
    unfold bind at 1 in Hrun. rewrite Hmk in Hrun. cbv beta in Hrun.
    revert Hrun.
    match goal with
    | |- ?m w1 = _ -> _ => assert (Hp : preserving m); [|apply Hp]
    end.
    apply preserving_bind; [apply preserving_emit|]. intros _.
    apply preserving_bind; [apply (preserving_look (fun w => Ok _))|]. intros is_file.
    apply preserving_bind.
    { apply preserving_when. apply preserving_bind; [apply preserving_emit|].
      intros _. apply preserving_raise. }
    intros _. apply preserving_bind; [apply preserving_read_file|]. intros archive.
    apply preserving_bind; [|intros _; apply preserving_emit].
    destruct (tarfile_open ext archive) as [members|].
    - apply preserving_bind; [apply preserving_emit|]. intros _.
      apply preserving_for_each. intros m. apply preserving_extract_member.
    - apply preserving_raise. }
  destruct (path_isdir_keeps _ _ _ Hrest Hdir) as (Hd & He).
  split; [exact Hd|]. split; [exact He|]. split; [|exact Hall].
  subst self. unfold build, build_from. unfold bind at 1.
  unfold complete. cbn [output]. rewrite He. reflexivity.
Qed.

(** The theorem on an archive whose second member does not decompress:
    the run raises, and the task is complete all the same. *)
Lemma extraction_leaves_its_target_behind_witness :
  fst (ExtractAndProcessFiles_run Sample.archive_ext "GSE68849" "data" "processed_data"
         (Sample.with_archive "tar")) = Raise BadGzipFile
  /\ build Sample.archive_ext (ExtractAndProcessFiles "GSE68849" "data" "processed_data")
       (snd (ExtractAndProcessFiles_run Sample.archive_ext "GSE68849" "data"
               "processed_data" (Sample.with_archive "tar")))
     = (Ok Skipped,
        snd (ExtractAndProcessFiles_run Sample.archive_ext "GSE68849" "data"
               "processed_data" (Sample.with_archive "tar"))).
Proof.
  split; [reflexivity|].
  apply (extraction_leaves_its_target_behind Sample.archive_ext
           "GSE68849" "data" "processed_data" (Sample.with_archive "tar")
           (snd (os.makedirs "processed_data" (Sample.with_archive "tar")))
           _ (Raise BadGzipFile)); reflexivity.
Defined.

(** ** The archive and its members *)

Lemma read_file_after (path data : string) (w w2 : world) :
  same_files (root w) (root w2) ->
  read_file path w = (Ok data, w) ->
  read_file path w2 = (Ok data, w2) /\ os.path_isfile path w2 = (Ok true, w2).
Proof.
  intros Hs. unfold read_file, os.path_isfile, os.node_at.
  destruct (fs.resolve path) as [p|]; [|discriminate].
  destruct (fs.lookup (root w) p) as [[d|wr es]|] eqn:E; try discriminate.
  intros H. injection H as ->.
  apply Hs in E. rewrite E. split; reflexivity.
Qed.

(** The run up to the loop over the members of an archive that is there. *)
Lemma extraction_reaches_the_archive
    (ext : External) (dataset_id download_dir output_dir archive : string)
    (w w1 : world) :
  let tar_path := input (ExtractAndProcessFiles dataset_id download_dir output_dir) in
  os.makedirs output_dir w = (Ok tt, w1) ->
  read_file tar_path w = (Ok archive, w) ->
  ExtractAndProcessFiles_run ext dataset_id download_dir output_dir w
  = (match tarfile_open ext archive with
     | None => raise (ReadError tar_path)
     | Some members =>
         logging.info ("Extracting files from " +:+ tar_path);;
         for_each members (extract_member ext output_dir)
     end;;
     logging.info "All files extracted and processed.")
      {| root := root w1;
         log := log w ++ [(INFO, "Opening TAR file at " +:+ tar_path)] |}.
Proof.
  intros tar_path Hmk Hread.
  destruct (makedirs_Ok _ _ _ Hmk) as (Hlog & Hfiles & _ & _).
  unfold ExtractAndProcessFiles_run. fold tar_path.
  unfold mbind, M_bind. unfold bind at 1. rewrite Hmk.
  unfold bind at 1. unfold logging.info at 1, emit at 1.
  destruct (read_file_after tar_path archive w
              {| root := root w1;
                 log := log w1 ++ [(INFO, "Opening TAR file at " +:+ tar_path)] |}
              Hfiles Hread) as (Hr & Hf).
  unfold bind at 1. rewrite Hf. cbn [negb when].
  unfold bind at 1. unfold ret at 1.
  unfold bind at 1. rewrite Hr. rewrite Hlog. reflexivity.
Qed.

(** X10: an archive that [tarfile] cannot open ends the extraction with
    its [ReadError] before anything is extracted: the run leaves the tree
    that the creation of the output directory made, and one log record. *)
Theorem unreadable_archive_extracts_nothing
    (ext : External) (dataset_id download_dir output_dir archive : string)
    (w w1 : world) :
  let tar_path := input (ExtractAndProcessFiles dataset_id download_dir output_dir) in
  os.makedirs output_dir w = (Ok tt, w1) ->
  read_file tar_path w = (Ok archive, w) ->
  tarfile_open ext archive = None ->
  ExtractAndProcessFiles_run ext dataset_id download_dir output_dir w
  = (Raise (ReadError tar_path),
     {| root := root w1;
        log := log w ++ [(INFO, "Opening TAR file at " +:+ tar_path)] |}).
Proof.
  intros tar_path Hmk Hread Hopen.
  rewrite (extraction_reaches_the_archive ext _ _ _ archive w w1 Hmk Hread).
  fold tar_path. rewrite Hopen. reflexivity.
Qed.

Lemma unreadable_archive_extracts_nothing_witness :
  ExtractAndProcessFiles_run Sample.archive_ext "GSE68849" "data" "processed_data"
    (Sample.with_archive "garbage")
  = (Raise (ReadError "data/GSE68849_RAW.tar"),
     {| root := fs.Dir true
          [ ("data", fs.Dir true [ ("GSE68849_RAW.tar", fs.File "garbage") ]);
            ("processed_data", fs.Dir true []) ];
        log := [(INFO, "Opening TAR file at data/GSE68849_RAW.tar")] |}).
Proof.
  exact (unreadable_archive_extracts_nothing Sample.archive_ext
           "GSE68849" "data" "processed_data" "garbage"
           (Sample.with_archive "garbage")
           {| root := fs.Dir true
                [ ("data", fs.Dir true [ ("GSE68849_RAW.tar", fs.File "garbage") ]);
                  ("processed_data", fs.Dir true []) ];
              log := [] |}
           eq_refl eq_refl eq_refl).
Defined.

Lemma for_each_skips {A} (xs : list A) (body : A -> M unit) (w : world) :
  Forall (fun x => body x = ret tt) xs -> for_each xs body w = (Ok tt, w).
Proof.
  intros Hxs. induction Hxs as [|x xs Hx _ IH]; simpl; [reflexivity|].
  unfold mbind, M_bind, bind. rewrite Hx. exact IH.
Qed.

(** X11: the members of the archive that are not regular files, or whose
    name does not end with [.txt.gz], are passed over.  An archive that has
    no other member is extracted without an exception and without a change
    to the tree beyond the output directory: three log records are all the
    run adds. *)
Theorem archive_without_text_members_extracts_nothing
    (ext : External) (dataset_id download_dir output_dir archive : string)
    (members : list TarInfo) (w w1 : world) :
  let tar_path := input (ExtractAndProcessFiles dataset_id download_dir output_dir) in
  os.makedirs output_dir w = (Ok tt, w1) ->
  read_file tar_path w = (Ok archive, w) ->
  tarfile_open ext archive = Some members ->
  Forall (fun m => (isfile m && Py.endswith (name m) ".txt.gz")%bool = false) members ->
  ExtractAndProcessFiles_run ext dataset_id download_dir output_dir w
  = (Ok tt,
     {| root := root w1;
        log := log w ++ [(INFO, "Opening TAR file at " +:+ tar_path)]
                     ++ [(INFO, "Extracting files from " +:+ tar_path)]
                     ++ [(INFO, "All files extracted and processed.")] |}).
Proof.
  intros tar_path Hmk Hread Hopen Hskip.
  rewrite (extraction_reaches_the_archive ext _ _ _ archive w w1 Hmk Hread).
  fold tar_path. rewrite Hopen.
  unfold mbind, M_bind, bind, logging.info, emit.
  rewrite for_each_skips.
  - cbn [root log]. rewrite <- !app_assoc. reflexivity.
  - apply (Forall_impl _ _ _ Hskip). intros m Hm.
    unfold extract_member. now rewrite Hm.
Qed.

Lemma archive_without_text_members_extracts_nothing_witness :
  fst (ExtractAndProcessFiles_run Sample.archive_ext "GSE68849" "data" "processed_data"
         (Sample.with_archive "notes")) = Ok tt
  /\ root (snd (ExtractAndProcessFiles_run Sample.archive_ext "GSE68849" "data"
                  "processed_data" (Sample.with_archive "notes")))
     = fs.Dir true
         [ ("data", fs.Dir true [ ("GSE68849_RAW.tar", fs.File "notes") ]);
           ("processed_data", fs.Dir true []) ].
Proof.
  rewrite (archive_without_text_members_extracts_nothing Sample.archive_ext
             "GSE68849" "data" "processed_data" "notes"
             [ {| name := "README"; isfile := true; payload := "gz" |};
               {| name := "raw.txt.gz"; isfile := false; payload := "gz" |} ]
             (Sample.with_archive "notes")
             {| root := fs.Dir true
                  [ ("data", fs.Dir true [ ("GSE68849_RAW.tar", fs.File "notes") ]);
                    ("processed_data", fs.Dir true []) ];
                log := [] |}
             eq_refl eq_refl eq_refl ltac:(repeat constructor)).
  split; reflexivity.
Defined.

(** X12: a member that does not decompress ends the extraction with the
    exception of [gzip].  What the members before it gave stays in the tree,
    the directory of the failing member has been created and holds no file
    of it, and the members after it are not looked at. *)
Theorem member_that_does_not_decompress_ends_the_extraction
    (ext : External) (dataset_id download_dir output_dir archive : string)
    (before after : list TarInfo) (m : TarInfo) (w w1 wk wk1 : world) :
  let tar_path := input (ExtractAndProcessFiles dataset_id download_dir output_dir) in
  let extraction_dir := os_path.join output_dir (os_path.splitext_root (name m)) in
  os.makedirs output_dir w = (Ok tt, w1) ->
  read_file tar_path w = (Ok archive, w) ->
  tarfile_open ext archive = Some (before ++ m :: after) ->
  for_each before (extract_member ext output_dir)
    {| root := root w1;
       log := log w ++ [(INFO, "Opening TAR file at " +:+ tar_path)]
                    ++ [(INFO, "Extracting files from " +:+ tar_path)] |}
  = (Ok tt, wk) ->
  isfile m = true -> Py.endswith (name m) ".txt.gz" = true ->
  gzip_read ext (payload m) = None ->
  os.makedirs extraction_dir wk = (Ok tt, wk1) ->
  ExtractAndProcessFiles_run ext dataset_id download_dir output_dir w
  = (Raise BadGzipFile,
     {| root := root wk1;
        log := log wk ++ [(INFO, "Extracting file " +:+ name m +:+ " to "
                                 +:+ extraction_dir)] |}).
Proof.
  intros tar_path extraction_dir Hmk Hread Hopen Hbefore Hfile Hname Hgz Hdir.
  rewrite (extraction_reaches_the_archive ext _ _ _ archive w w1 Hmk Hread).
  fold tar_path. rewrite Hopen.
  assert (Hm : extract_member ext output_dir m wk
               = (Raise BadGzipFile,
                  {| root := root wk1;
                     log := log wk ++ [(INFO, "Extracting file " +:+ name m +:+ " to "
                                              +:+ extraction_dir)] |})).
  { unfold extract_member. rewrite Hfile, Hname. cbn [andb when].
    fold extraction_dir. unfold mbind, M_bind, bind. rewrite Hdir.
    unfold logging.info, emit. rewrite Hgz. unfold raise. cbn [root log].
    destruct (makedirs_Ok _ _ _ Hdir) as (-> & _). reflexivity. }
  unfold mbind, M_bind. unfold bind at 1. unfold bind at 1.
  unfold logging.info at 1, emit at 1. cbn [root log]. rewrite <- app_assoc.
  rewrite (for_each_abort before after m _ _ _ _ _ Hbefore Hm). reflexivity.
Qed.

Lemma member_that_does_not_decompress_ends_the_extraction_witness :
  fst (ExtractAndProcessFiles_run Sample.archive_ext "GSE68849" "data" "processed_data"
         (Sample.with_archive "tar")) = Raise BadGzipFile
  /\ fst (os.path_isfile "processed_data/G1.txt/G1_Probes.tsv"
            (snd (ExtractAndProcessFiles_run Sample.archive_ext "GSE68849" "data"
                    "processed_data" (Sample.with_archive "tar")))) = Ok true
  /\ fst (os.path_isdir "processed_data/G2.txt"
            (snd (ExtractAndProcessFiles_run Sample.archive_ext "GSE68849" "data"
                    "processed_data" (Sample.with_archive "tar")))) = Ok true
  /\ fst (os.path_exists "processed_data/G2.txt/G2.txt"
            (snd (ExtractAndProcessFiles_run Sample.archive_ext "GSE68849" "data"
                    "processed_data" (Sample.with_archive "tar")))) = Ok false.
Proof.
  rewrite (member_that_does_not_decompress_ends_the_extraction Sample.archive_ext
             "GSE68849" "data" "processed_data" "tar"
             [ {| name := "G1.txt.gz"; isfile := true; payload := "gz" |} ] []
             {| name := "G2.txt.gz"; isfile := true; payload := "??" |}
             (Sample.with_archive "tar")
             (snd (os.makedirs "processed_data" (Sample.with_archive "tar")))
             _ _ eq_refl eq_refl eq_refl eq_refl eq_refl eq_refl eq_refl eq_refl).
  repeat split; reflexivity.
Defined.

(** ** Nothing to clean *)

(** X13: where the processed directory is missing, is a regular file, or
    is a directory without an entry, [DeleteOriginalData.run] returns after
    two log records and leaves the tree as it is.  So a processed directory
    that is there but empty is not removed: the run returns before its last
    step, the one that removes the directory once it is empty. *)
Theorem nothing_to_delete_changes_nothing
    (dataset_id download_dir processed_data_dir output_dir : string) (w : world) :
  (forall wr es, os.node_at w processed_data_dir = Some (fs.Dir wr es) -> es = []) ->
  DeleteOriginalData_run dataset_id download_dir processed_data_dir output_dir w
  = (Ok tt,
     {| root := root w;
        log := log w ++ [(INFO, "Found original files: []")]
                     ++ [(WARNING, "No original files found to delete.")] |}).
Proof.
  intros Hempty.
  assert (Hfind : find_original_items processed_data_dir w = (Ok [], w)).
  { unfold find_original_items, mbind, M_bind, bind, os.walk, ret.
    destruct (os.node_at w processed_data_dir) as [[d|wr es]|]; try reflexivity.
    rewrite (Hempty wr es eq_refl). reflexivity. }
  unfold DeleteOriginalData_run, mbind, M_bind, bind.
  rewrite Hfind. unfold logging.info, logging.warning, emit. cbn [root log].
  now rewrite <- app_assoc.
Qed.

Lemma nothing_to_delete_changes_nothing_witness :
  fst (DeleteOriginalData_run "GSE68849" "data" "processed_data" "trimmed_probes"
         Sample.empty_processed) = Ok tt
  /\ root (snd (DeleteOriginalData_run "GSE68849" "data" "processed_data" "trimmed_probes"
                  Sample.empty_processed))
     = fs.Dir true [ ("processed_data", fs.Dir true []) ].
Proof.
  rewrite (nothing_to_delete_changes_nothing "GSE68849" "data" "processed_data"
             "trimmed_probes" Sample.empty_processed).
  - split; reflexivity.
  - intros wr es H. vm_compute in H. now injection H as _ <-.
Defined.

(** ** The shape of a trimmed table *)

Lemma select_length {A B} (keep : list bool) (xs : list A) (ys : list B) :
  length xs = length ys -> length (pd.select keep xs) = length (pd.select keep ys).
Proof.
  revert xs ys. induction keep as [|b keep IH]; intros xs ys Hlen; [reflexivity|].
  destruct xs as [|x xs], ys as [|y ys]; try discriminate.
  - now destruct b.
  - injection Hlen as Hlen. destruct b; simpl; [f_equal|]; now apply IH.
Qed.

(** X14: dropping the columns keeps the table rectangular and keeps its
    rows: when every row of the table read has one cell per column, the
    trimmed table has as many rows, and each of them has one cell per column
    that is left. *)
Theorem trimmed_table_is_rectangular (df : pd.DataFrame) (names : list string) :
  Forall (fun r => length r = length (pd.columns df)) (pd.rows df) ->
  length (pd.rows (pd.drop df names)) = length (pd.rows df)
  /\ Forall (fun r => length r = length (pd.columns (pd.drop df names)))
       (pd.rows (pd.drop df names)).
Proof.
  intros Hrect. unfold pd.drop. cbn [pd.rows pd.columns]. split.
  - apply length_map.
  - apply Forall_map. apply (Forall_impl _ _ _ Hrect).
    intros r Hr. now apply select_length.
Qed.

Lemma trimmed_table_is_rectangular_witness :
  Forall (fun r => length r = 1)
    (pd.rows (pd.drop {| pd.columns := [pd.StrLabel "ID_REF"; pd.StrLabel "Definition";
                                        pd.StrLabel "Probe_Sequence"];
                         pd.rows := [["1"; "foo"; "ACGT"]; ["2"; "bar"; "TTGA"]] |}
                columns_to_remove)).
Proof.
  apply (trimmed_table_is_rectangular
           {| pd.columns := [pd.StrLabel "ID_REF"; pd.StrLabel "Definition";
                             pd.StrLabel "Probe_Sequence"];
              pd.rows := [["1"; "foo"; "ACGT"]; ["2"; "bar"; "TTGA"]] |}
           columns_to_remove).
  repeat constructor.
Defined.

(** * Further properties of names and paths *)

(** ** Strings read from their end *)

Lemma rev_string_acc (s acc : string) :
  Py.rev_string s acc = Py.rev_string s EmptyString +:+ acc.
Proof.
  revert acc. induction s as [|c s IH]; intros acc; simpl; [reflexivity|].
  rewrite (IH (String c acc)), (IH (String c EmptyString)).
  rewrite append_assoc. reflexivity.
Qed.

Lemma rev_string_app (s t : string) :
  Py.rev_string (s +:+ t) EmptyString
  = Py.rev_string t EmptyString +:+ Py.rev_string s EmptyString.
Proof.
  induction s as [|c s IH].
  - simpl. now rewrite append_empty_r.
  - rewrite append_cons. simpl.
    rewrite (rev_string_acc (s +:+ t)), (rev_string_acc s), IH.
    now rewrite append_assoc.
Qed.

Lemma rev_string_involutive (s : string) :
  Py.rev_string (Py.rev_string s EmptyString) EmptyString = s.
Proof.
  induction s as [|c s IH]; [reflexivity|].
  simpl. rewrite (rev_string_acc s), rev_string_app, IH. reflexivity.
Qed.

Lemma length_append (s t : string) :
  String.length (s +:+ t) = String.length s + String.length t.
Proof.
  induction s as [|c s IH]; [reflexivity|].
  rewrite append_cons. simpl. now rewrite IH.
Qed.

Lemma length_rev_string (s : string) :
  String.length (Py.rev_string s EmptyString) = String.length s.
Proof.
  induction s as [|c s IH]; [reflexivity|].
  simpl. rewrite (rev_string_acc s), length_append, IH. simpl. lia.
Qed.

Lemma length_lstrip (s chars : string) :
  String.length (Py.lstrip s chars) <= String.length s.
Proof.
  induction s as [|c s IH]; simpl; [lia|].
  destruct (Py.in_chars c chars); simpl; lia.
Qed.

(** A string that [lstrip] leaves alone does not start with one of the
    characters. *)
Lemma lstrip_fixed (s chars : string) :
  Py.lstrip s chars = s -> s <> EmptyString ->
  exists c s', s = String c s' /\ Py.in_chars c chars = false.
Proof.
  destruct s as [|c s]; [congruence|]. intros H _. exists c, s. split; [reflexivity|].
  simpl in H. destruct (Py.in_chars c chars); [|reflexivity].
  pose proof (length_lstrip s chars) as Hlen. rewrite H in Hlen. simpl in Hlen. lia.
Qed.

(** Leading characters of the set are all stripped. *)
Lemma lstrip_prefix (pre s chars : string) :
  forallb (fun c => Py.in_chars c chars) (list_ascii_of_string pre) = true ->
  Py.lstrip (pre +:+ s) chars = Py.lstrip s chars.
Proof.
  induction pre as [|c pre IH]; intros H; [reflexivity|].
  rewrite append_cons. simpl in *. apply andb_true_iff in H as [Hc Hpre].
  rewrite Hc. now apply IH.
Qed.

Lemma lstrip_stops (c : ascii) (s chars : string) :
  Py.in_chars c chars = false -> Py.lstrip (String c s) chars = String c s.
Proof. intros H. simpl. now rewrite H. Qed.

Lemma forallb_rev_string (f : ascii -> bool) (s : string) :
  forallb f (list_ascii_of_string (Py.rev_string s EmptyString))
  = forallb f (list_ascii_of_string s).
Proof.
  assert (Happ : forall a b, forallb f (list_ascii_of_string (a +:+ b))
                             = (forallb f (list_ascii_of_string a)
                                && forallb f (list_ascii_of_string b))%bool).
  { intros a b. induction a as [|c a IH]; [reflexivity|].
    rewrite append_cons. simpl. now rewrite IH, andb_assoc. }
  induction s as [|c s IH]; [reflexivity|].
  simpl. rewrite (rev_string_acc s), Happ, IH. simpl.
  rewrite andb_true_r. apply andb_comm.
Qed.

(** What [strip] leaves alone is found again once it is wrapped in
    characters of the set. *)
Lemma strip_wrapped (pre k post chars : string) :
  k <> EmptyString -> Py.strip k chars = k ->
  forallb (fun c => Py.in_chars c chars) (list_ascii_of_string pre) = true ->
  forallb (fun c => Py.in_chars c chars) (list_ascii_of_string post) = true ->
  Py.strip (pre +:+ k +:+ post) chars = k.
Proof.
  intros Hk Hstrip Hpre Hpost.
  assert (Hl : Py.lstrip k chars = k).
  { unfold Py.strip, Py.rstrip in Hstrip.
    destruct (string_dec (Py.lstrip k chars) k) as [E|E]; [exact E|].
    exfalso.
    assert (Hlt : String.length (Py.lstrip k chars) < String.length k).
    { clear -E. destruct k as [|c k]; [now contradiction E|].
      cbn [Py.lstrip] in *. destruct (Py.in_chars c chars); [|now contradiction E].
      pose proof (length_lstrip k chars). cbn [String.length]. lia. }
    pose proof (f_equal String.length Hstrip) as Hlen.
    rewrite length_rev_string in Hlen.
    pose proof (length_lstrip (Py.rev_string (Py.lstrip k chars) EmptyString) chars).
    rewrite length_rev_string in *. lia. }
  assert (Hr : Py.lstrip (Py.rev_string k EmptyString) chars
               = Py.rev_string k EmptyString).
  { unfold Py.strip, Py.rstrip in Hstrip. rewrite Hl in Hstrip.
    apply (f_equal (fun s => Py.rev_string s EmptyString)) in Hstrip.
    now rewrite rev_string_involutive in Hstrip. }
  destruct (lstrip_fixed k chars Hl Hk) as (c & k' & Ek & Hc).
  unfold Py.strip, Py.rstrip.
  rewrite (lstrip_prefix pre _ chars Hpre).
  rewrite Ek, append_cons, (lstrip_stops c _ chars Hc), <- append_cons, <- Ek.
  rewrite rev_string_app.
  rewrite (lstrip_prefix (Py.rev_string post EmptyString) _ chars)
    by (now rewrite forallb_rev_string).
  rewrite Hr. apply rev_string_involutive.
Qed.

(** ** The name of a section *)

(** X15: the name of a section is what stands between the brackets: for a
    name that is not empty and neither starts nor ends with a bracket or a
    line end (stripping leaves it alone), the line made of the name in
    brackets, with or without its line end, starts a section of that name.
    Brackets inside the name are kept. *)
Theorem section_line_gives_its_name (k : string) :
  k <> EmptyString ->
  Py.strip k ("[]" +:+ Py.nl) = k ->
  Py.startswith ("[" +:+ k +:+ "]" +:+ Py.nl) "[" = true
  /\ Py.strip ("[" +:+ k +:+ "]" +:+ Py.nl) ("[]" +:+ Py.nl) = k
  /\ Py.strip ("[" +:+ k +:+ "]") ("[]" +:+ Py.nl) = k
  /\ Py.truthy (Some k) = true.
Proof.
  intros Hk Hstrip. split; [|split; [|split]].
  - clear Hstrip. destruct k as [|c k']; [now contradiction Hk | reflexivity].
  - apply (strip_wrapped "[" k ("]" +:+ Py.nl)); [exact Hk | exact Hstrip | |];
      reflexivity.
  - apply (strip_wrapped "[" k "]"); [exact Hk | exact Hstrip | |]; reflexivity.
  - destruct k; [congruence | reflexivity].
Qed.

Lemma section_line_gives_its_name_witness :
  Py.strip ("[" +:+ "Probes[2]x" +:+ "]" +:+ Py.nl) ("[]" +:+ Py.nl) = "Probes[2]x".
Proof.
  apply (section_line_gives_its_name "Probes[2]x"); [discriminate | reflexivity].
Defined.

(** ** Paths made with [os.path.join] *)

Lemma in_chars_cons (c a : ascii) (s : string) :
  Py.in_chars c (String a s) = (Ascii.eqb c a || Py.in_chars c s)%bool.
Proof. reflexivity. Qed.

Lemma rsplit_without (c : ascii) (b : string) :
  Py.in_chars c b = false -> os_path.rsplit c b = None.
Proof.
  induction b as [|a b IH]; [reflexivity|].
  rewrite in_chars_cons. intros H. apply orb_false_iff in H as [Ha Hb].
  simpl. rewrite (IH Hb). rewrite Ascii.eqb_sym in Ha. now rewrite Ha.
Qed.

Lemma rsplit_last (c : ascii) (a b : string) :
  Py.in_chars c b = false -> os_path.rsplit c (a +:+ String c b) = Some (a, b).
Proof.
  intros Hb. induction a as [|x a IH].
  - simpl. rewrite (rsplit_without c b Hb). now rewrite Ascii.eqb_refl.
  - rewrite append_cons. simpl. now rewrite IH.
Qed.

Lemma prefix_char (c x : ascii) (s : string) :
  String.prefix (String c EmptyString) (String x s) = Ascii.eqb c x.
Proof.
  cbn [String.prefix]. destruct (ascii_dec c x) as [<-|Hne].
  - rewrite Ascii.eqb_refl. now destruct s.
  - symmetry. now apply Ascii.eqb_neq.
Qed.

Lemma startswith_sep_false (b : string) :
  Py.in_chars os_path.sep b = false -> Py.startswith b "/" = false.
Proof.
  destruct b as [|x b]; [reflexivity|].
  rewrite in_chars_cons. intros H. apply orb_false_iff in H as [Hx _].
  unfold Py.startswith. rewrite prefix_char. exact Hx.
Qed.

(** A directory path that does not end with a slash. *)
Lemma no_trailing_sep (a : string) :
  a <> EmptyString -> Py.rstrip a "/" = a ->
  Py.endswith a "/" = false /\ os_path.all_chars os_path.sep a = false.
Proof.
  intros Ha Hr. unfold Py.rstrip in Hr.
  apply (f_equal (fun s => Py.rev_string s EmptyString)) in Hr.
  rewrite rev_string_involutive in Hr.
  assert (Hne : Py.rev_string a EmptyString <> EmptyString).
  { intros E. apply Ha. rewrite <- (rev_string_involutive a), E. reflexivity. }
  destruct (lstrip_fixed _ _ Hr Hne) as (c & r & Er & Hc).
  rewrite in_chars_cons in Hc. apply orb_false_iff in Hc as [Hc _].
  split.
  - unfold Py.endswith. rewrite Er.
    change (Py.rev_string "/" EmptyString) with (String "/"%char EmptyString).
    rewrite prefix_char, Ascii.eqb_sym. exact Hc.
  - unfold os_path.all_chars. rewrite <- forallb_rev_string, Er.
    cbn [list_ascii_of_string forallb].
    unfold os_path.sep. rewrite Ascii.eqb_sym, Hc. reflexivity.
Qed.

(** Joining a directory and a name, and splitting the result again. *)
Lemma join_split (a b : string) :
  a <> EmptyString -> Py.rstrip a "/" = a -> Py.in_chars os_path.sep b = false ->
  os_path.join a b = a +:+ String os_path.sep b
  /\ os_path.basename (os_path.join a b) = b
  /\ os_path.dirname (os_path.join a b) = a.
Proof.
  intros Ha Hr Hb. destruct (no_trailing_sep a Ha Hr) as (He & Hall).
  assert (Hj : os_path.join a b = a +:+ String os_path.sep b).
  { unfold os_path.join. rewrite (startswith_sep_false b Hb), He.
    destruct (String.eqb_spec a EmptyString) as [E|_]; [contradiction|].
    reflexivity. }
  split; [exact Hj|]. rewrite Hj.
  unfold os_path.basename, os_path.dirname.
  rewrite (rsplit_last os_path.sep a b Hb), Hall. split; [reflexivity | exact Hr].
Qed.

(** ** Where the tables go *)

(** X16: the tables of a decompressed file are written next to it: for a
    file [name] in a directory [dir] (a path without a trailing slash, a
    name without a slash), the table of [key] is the file
    [<name without its extension>_<key>.tsv] of the same directory. *)
Theorem tables_go_next_to_their_file (dir name key : string) :
  dir <> EmptyString -> Py.rstrip dir "/" = dir ->
  Py.in_chars os_path.sep name = false ->
  table_path (os_path.join dir name) key
  = os_path.join dir (os_path.splitext_root name +:+ "_" +:+ key +:+ ".tsv").
Proof.
  intros Hd Hr Hn. unfold table_path.
  destruct (join_split dir name Hd Hr Hn) as (_ & -> & ->). reflexivity.
Qed.

Lemma tables_go_next_to_their_file_witness :
  table_path (os_path.join "processed_data/G1.txt" "G1.txt") "Probes"
  = "processed_data/G1.txt/G1_Probes.tsv".
Proof.
  rewrite (tables_go_next_to_their_file "processed_data/G1.txt" "G1.txt" "Probes");
    [reflexivity | discriminate | reflexivity | reflexivity].
Defined.

(** X17: the name of a trimmed table is made from the name of its source
    alone, not from the directory the source is in: every occurrence of
    [_Probes.tsv] in the name is replaced, and the file goes to the
    directory of the output target.  Two tables of the same name in two
    directories of the processed data are thus written to one and the same
    trimmed file. *)
Theorem trimmed_name_forgets_the_directory
    (self : Task) (root1 root2 name : string) :
  root1 <> EmptyString -> Py.rstrip root1 "/" = root1 ->
  root2 <> EmptyString -> Py.rstrip root2 "/" = root2 ->
  Py.in_chars os_path.sep name = false ->
  trimmed_path self (os_path.join root1 name)
  = os_path.join (os_path.dirname (output self))
      (Py.replace name "_Probes.tsv" "_trimmed_Probes.tsv")
  /\ trimmed_path self (os_path.join root1 name)
     = trimmed_path self (os_path.join root2 name).
Proof.
  intros H1 Hr1 H2 Hr2 Hn. unfold trimmed_path.
  destruct (join_split root1 name H1 Hr1 Hn) as (_ & -> & _).
  destruct (join_split root2 name H2 Hr2 Hn) as (_ & -> & _).
  split; reflexivity.
Qed.

Lemma trimmed_name_forgets_the_directory_witness :
  trimmed_path (TrimProbesTable "GSE68849" "data" "processed_data" "trimmed_probes")
    (os_path.join "processed_data/A.txt" "X_Probes.tsv")
  = "trimmed_probes/X_trimmed_Probes.tsv"
  /\ trimmed_path (TrimProbesTable "GSE68849" "data" "processed_data" "trimmed_probes")
       (os_path.join "processed_data/A.txt" "X_Probes.tsv")
     = trimmed_path (TrimProbesTable "GSE68849" "data" "processed_data" "trimmed_probes")
         (os_path.join "processed_data/B.txt" "X_Probes.tsv").
Proof.
  destruct (trimmed_name_forgets_the_directory
              (TrimProbesTable "GSE68849" "data" "processed_data" "trimmed_probes")
              "processed_data/A.txt" "processed_data/B.txt" "X_Probes.tsv")
    as (Hname & Hsame); try reflexivity; try discriminate.
  split; [rewrite Hname; reflexivity | exact Hsame].
Defined.

(** * Further properties: what the producing stages never do *)

Lemma preserving_try_except {A} (body : M A) (catches : exn -> bool)
    (handler : exn -> M A) :
  preserving body -> (forall e, preserving (handler e)) ->
  preserving (try_except body catches handler).
Proof.
  intros Hb Hh w r w'. unfold try_except.
  destruct (body w) as [[a|e] w1] eqn:E.
  - intros H. injection H as _ <-. exact (Hb _ _ _ E).
  - destruct (catches e).
    + intros H. exact (keeps_trans _ _ _ (Hb _ _ _ E) (Hh e _ _ _ H)).
    + intros H. injection H as _ <-. exact (Hb _ _ _ E).
Qed.

Lemma preserving_target_write (path data : string) :
  preserving (target_write path data).
Proof.
  unfold target_write, mbind, M_bind.
  apply preserving_bind; [|intros _; apply preserving_write_file].
  apply preserving_when. apply preserving_try_except.
  - apply preserving_makedirs.
  - intros e. apply preserving_ret.
Qed.

(** X18: the download and the trimming remove nothing either: however
    [DownloadDataset.run] or [TrimProbesTable.run] ends, every path of the
    tree before the run is still there after it, a directory still a
    directory and a file still a file.  In particular the trimming leaves
    every table of the processed directory in place for the stage that
    deletes them. *)
Theorem download_and_trimming_remove_nothing
    (ext : External) (dataset_id download_dir processed_data_dir output_dir : string) :
  preserving (DownloadDataset_run ext dataset_id download_dir)
  /\ preserving (TrimProbesTable_run ext dataset_id download_dir processed_data_dir
                   output_dir).
Proof.
  split.
  - unfold DownloadDataset_run, mbind, M_bind.
    apply preserving_bind; [apply preserving_makedirs|]. intros _.
    apply preserving_bind; [apply preserving_emit|]. intros _.
    apply preserving_bind; [|intros _; apply preserving_emit].
    destruct (wget_download ext _).
    + apply preserving_write_file.
    + apply preserving_raise.
  - unfold TrimProbesTable_run, find_probes_files, mbind, M_bind, mret, M_ret.
    apply preserving_bind; [apply preserving_makedirs|]. intros _.
    apply preserving_bind.
    { apply preserving_bind; [apply (preserving_look (fun w => Ok _))|].
      intros triples. apply preserving_ret. }
    intros probes_files.
    apply preserving_bind.
    { apply preserving_when. apply preserving_bind; [apply preserving_emit|].
      intros _. apply preserving_raise. }
    intros _. apply preserving_bind; [|intros _; apply preserving_target_write].
    apply preserving_for_each. intros f. unfold trim_probes_file, mbind, M_bind.
    apply preserving_bind; [apply preserving_emit|]. intros _.
    apply preserving_bind; [apply preserving_read_file|]. intros text.
    apply preserving_bind; [apply preserving_lift|]. intros df.
    apply preserving_bind; [apply preserving_write_file|]. intros _.
    apply preserving_emit.
Qed.

(** X6 on a file whose only section has no line: the parse raises, and
    [process_file] leaves the world as it found it. *)
Lemma process_file_parses_before_it_writes_witness :
  process_file Sample.ext "processed_data/B.txt/B.txt"
    {| root := fs.Dir true
         [ ("processed_data", fs.Dir true
              [ ("B.txt", fs.Dir true [ ("B.txt", fs.File (Sample.line ["[Probes]"])) ]) ]) ];
       log := [] |}
  = (Raise EmptyDataError,
     {| root := fs.Dir true
          [ ("processed_data", fs.Dir true
               [ ("B.txt", fs.Dir true [ ("B.txt", fs.File (Sample.line ["[Probes]"])) ]) ]) ];
        log := [] |}).
Proof.
  apply (proj1 (process_file_parses_before_it_writes Sample.ext
                  "processed_data/B.txt/B.txt" (Sample.line ["[Probes]"])
                  {| root := fs.Dir true
                       [ ("processed_data", fs.Dir true
                            [ ("B.txt", fs.Dir true
                                 [ ("B.txt", fs.File (Sample.line ["[Probes]"])) ]) ]) ];
                     log := [] |}
                  eq_refl)).
  reflexivity.
Defined.

(** * Further properties: the search and the output directory *)

Lemma find_probes_files_eq (processed_data_dir : string) (w : world) :
  find_probes_files processed_data_dir w
  = (Ok (probes_at processed_data_dir (os.node_at w processed_data_dir)), w).
Proof.
  unfold find_probes_files, mbind, M_bind, bind, os.walk, mret, M_ret, ret, probes_at.
  destruct (os.node_at w processed_data_dir); reflexivity.
Qed.

Lemma probes_in_dir (top : string) (wr : bool) (es : list (string * fs.node)) :
  probes_in top (fs.Dir wr es)
  = map (os_path.join top)
      (filter (fun file => Py.endswith file "_Probes.tsv" = true) (fs.file_names es))
    ++ flat_map (fun e => probes_in (os_path.join top (fst e)) (snd e)) es.
Proof.
  unfold probes_in. cbn [fs.walk_topdown flat_map]. f_equal.
  induction es as [|[n c] es IH]; [reflexivity|].
  cbn [flat_map fst snd]. rewrite flat_map_app. f_equal. exact IH.
Qed.

Lemma file_names_replace_dir (n : string) (c' : fs.node) (es : list (string * fs.node)) :
  fs.is_dir c' = true ->
  match fs.lookup_entry n es with
  | Some c => fs.is_dir c = true
  | None => True
  end ->
  fs.file_names (fs.replace_entry n c' es) = fs.file_names es.
Proof.
  intros Hc'. unfold fs.file_names. induction es as [|[k c0] es IH]; simpl.
  - intros _. rewrite filter_cons_False; [reflexivity|].
    simpl. destruct c'; [discriminate | simpl; discriminate].
  - destruct (String.eqb_spec k n) as [->|Hne].
    + intros Hc0. destruct c0 as [d|wr0 es0]; [discriminate|].
      destruct c' as [d|wr1 es1]; [discriminate|].
      rewrite !filter_cons_False by (simpl; discriminate). reflexivity.
    + intros Hl. specialize (IH Hl).
      destruct c0 as [d|wr0 es0].
      * rewrite !filter_cons_True by reflexivity. simpl. now rewrite IH.
      * rewrite !filter_cons_False by (simpl; discriminate). exact IH.
Qed.

Lemma probes_below_replace (top n : string) (c' : fs.node)
    (es : list (string * fs.node)) :
  probes_in (os_path.join top n) c'
  = probes_at (os_path.join top n) (fs.lookup_entry n es) ->
  flat_map (fun e => probes_in (os_path.join top (fst e)) (snd e))
    (fs.replace_entry n c' es)
  = flat_map (fun e => probes_in (os_path.join top (fst e)) (snd e)) es.
Proof.
  induction es as [|[k c0] es IH]; simpl.
  - intros ->. reflexivity.
  - destruct (String.eqb_spec k n) as [->|Hne]; simpl.
    + intros ->. reflexivity.
    + intros H. now rewrite IH.
Qed.

Lemma makedirs_at_dirs (path : string) (p : list string) (t t' : fs.node) :
  fs.makedirs_at path p t = Ok t' -> fs.is_dir t = true /\ fs.is_dir t' = true.
Proof.
  destruct p as [|n p]; simpl.
  - destruct t; [discriminate|]. intros H. injection H as <-. now split.
  - destruct t as [|wr es]; [discriminate|].
    destruct (fs.lookup_entry n es) as [c|].
    + destruct (fs.makedirs_at path p c); simpl; [|discriminate].
      intros H. injection H as <-. now split.
    + destruct wr; [|discriminate].
      destruct (fs.makedirs_at path p (fs.Dir true [])); simpl; [|discriminate].
      intros H. injection H as <-. now split.
Qed.

(** Creating directories changes nothing to the tables found, under any
    node of the tree. *)
Lemma makedirs_at_probes (path : string) (p : list string) :
  forall t t', fs.makedirs_at path p t = Ok t' ->
  forall q top, probes_at top (fs.lookup t' q) = probes_at top (fs.lookup t q).
Proof.
  induction p as [|n p IH]; intros t t'; simpl.
  - destruct t; [discriminate|]. intros H. now injection H as <-.
  - destruct t as [|wr es]; [discriminate|].
    destruct (fs.lookup_entry n es) as [c|] eqn:Ec.
    + destruct (fs.makedirs_at path p c) as [c'|e] eqn:E; simpl; [|discriminate].
      intros H. injection H as <-.
      destruct (makedirs_at_dirs _ _ _ _ E) as (Hc & Hc').
      intros [|m q] top; cbn [fs.lookup probes_at].
      * rewrite !probes_in_dir.
        rewrite file_names_replace_dir; [| exact Hc' | now rewrite Ec].
        f_equal. apply probes_below_replace. rewrite Ec.
        exact (IH c c' E [] (os_path.join top n)).
      * rewrite lookup_entry_replace.
        destruct (String.eqb_spec n m) as [<-|Hne]; [|reflexivity].
        rewrite Ec. exact (IH c c' E q top).
    + destruct wr; [|discriminate].
      destruct (fs.makedirs_at path p (fs.Dir true [])) as [c'|e] eqn:E; simpl;
        [|discriminate].
      intros H. injection H as <-.
      destruct (makedirs_at_dirs _ _ _ _ E) as (_ & Hc').
      intros [|m q] top; cbn [fs.lookup probes_at].
      * rewrite !probes_in_dir.
        rewrite file_names_replace_dir; [| exact Hc' | now rewrite Ec].
        f_equal. apply probes_below_replace. rewrite Ec.
        exact (IH _ c' E [] (os_path.join top n)).
      * rewrite lookup_entry_replace.
        destruct (String.eqb_spec n m) as [<-|Hne]; [|reflexivity].
        rewrite Ec. rewrite (IH _ c' E q top).
        destruct q; reflexivity.
Qed.

(** ** No table to trim *)

(** C7: on a processed directory in which there is no file whose name ends
    with [_Probes.tsv], [TrimProbesTable.run] never returns and never writes
    its completion marker: it raises, every file of the tree is as it was,
    and the marker is a file afterwards only if it was one before.  Where
    the output directory can be created, the exception is the
    [FileNotFoundError] of the program, after one log record, and the tree
    is the one that the creation of the directory left.  Where it cannot,
    the exception is the one of [os.makedirs], which is not the error of the
    program, and nothing has changed. *)
Theorem no_probes_file_fails_without_marker
    (ext : External) (dataset_id download_dir processed_data_dir output_dir : string)
    (w : world) :
  let self := TrimProbesTable dataset_id download_dir processed_data_dir output_dir in
  let msg := "No Probes files found in the directory: " +:+ processed_data_dir in
  find_probes_files processed_data_dir w = (Ok [], w) ->
  exists e w',
    TrimProbesTable_run ext dataset_id download_dir processed_data_dir output_dir w
    = (Raise e, w')
    /\ same_files (root w) (root w')
    /\ fst (os.path_isfile (output self) w') = fst (os.path_isfile (output self) w)
    /\ (forall w1, os.makedirs output_dir w = (Ok tt, w1) ->
          e = FileNotFoundError msg
          /\ w' = {| root := root w1; log := log w ++ [(ERROR, msg)] |})
    /\ (forall e1 w1, os.makedirs output_dir w = (Raise e1, w1) ->
          e = e1 /\ from_library e = true /\ w' = w).
Proof.
  intros self msg Hnone.
  destruct (os.makedirs output_dir w) as [[[]|e1] w1] eqn:Hmk.
  - destruct (makedirs_Ok _ _ _ Hmk) as (Hlog & Hfiles & _ & _).
    assert (Hfind : find_probes_files processed_data_dir w1 = (Ok [], w1)).
    { rewrite find_probes_files_eq in *. injection Hnone as Hnone.
      do 2 f_equal. rewrite <- Hnone.
      unfold os.makedirs in Hmk. unfold os.node_at.
      destruct (fs.resolve output_dir) as [p|]; [|discriminate].
      unfold update_tree in Hmk.
      destruct (fs.makedirs_at output_dir p (root w)) as [t|e] eqn:E; [|discriminate].
      injection Hmk as <-. cbn [root].
      destruct (fs.resolve processed_data_dir) as [q|]; [|reflexivity].
      exact (makedirs_at_probes output_dir p _ _ E q processed_data_dir). }
    exists (FileNotFoundError msg),
           {| root := root w1; log := log w ++ [(ERROR, msg)] |}.
    split; [|split; [exact Hfiles|split; [|split]]].
    + unfold TrimProbesTable_run, mbind, M_bind, bind. rewrite Hmk, Hfind.
      unfold logging.error, emit. cbn [when raise]. rewrite Hlog. reflexivity.
    + apply path_isfile_same_files. exact Hfiles.
    + intros w2 H. injection H as <-. now split.
    + intros e2 w2 H. discriminate H.
  - pose proof (makedirs_Raise _ _ _ _ Hmk) as ->.
    exists e1, w. split; [|split; [apply same_files_refl|split; [reflexivity|split]]].
    + unfold TrimProbesTable_run, mbind, M_bind, bind. now rewrite Hmk.
    + intros w2 H. discriminate H.
    + intros e2 w2 H. injection H as <- _.
      split; [reflexivity|]. split; [|reflexivity].
      exact (raises_library_makedirs output_dir _ _ _ Hmk).
Qed.

(** The theorem on a directory of extracted data without a [Probes]
    table: the run raises the error of the program and leaves no marker. *)
Lemma no_probes_file_fails_without_marker_witness :
  exists w',
    TrimProbesTable_run Sample.ext "GSE68849" "data" "processed_data" "trimmed_probes"
      Sample.no_tables
    = (Raise (FileNotFoundError "No Probes files found in the directory: processed_data"),
       w')
    /\ fst (os.path_isfile "trimmed_probes/Probes_trimmed.tsv" w') = Ok false.
Proof.
  destruct (no_probes_file_fails_without_marker Sample.ext
              "GSE68849" "data" "processed_data" "trimmed_probes" Sample.no_tables
              eq_refl) as (e & w' & Hrun & _ & Hmarker & Hok & _).
  destruct (Hok (snd (os.makedirs "trimmed_probes" Sample.no_tables)) eq_refl)
    as (-> & _).
  exists w'. split; [exact Hrun | exact Hmarker].
Defined.

(** C7 as the specification states it fails: where the name of the output
    directory is taken by a regular file, or where the working directory
    takes no new entry, the processed directory holds no table, the task is
    not complete, the worker runs it, and the run raises the error of
    [os.makedirs], not the missing-input error of the program. *)
Lemma no_probes_file_counterexample :
  let self := TrimProbesTable "GSE68849" "data" "processed_data" "trimmed_probes" in
  (find_probes_files "processed_data" Sample.trimmed_is_a_file
   = (Ok [], Sample.trimmed_is_a_file)
   /\ complete self Sample.trimmed_is_a_file = (Ok false, Sample.trimmed_is_a_file)
   /\ TrimProbesTable_run Sample.ext "GSE68849" "data" "processed_data" "trimmed_probes"
        Sample.trimmed_is_a_file
      = (Raise (FileExistsError "trimmed_probes"), Sample.trimmed_is_a_file)
   /\ build Sample.ext self Sample.trimmed_is_a_file
      = (Raise (FileExistsError "trimmed_probes"), Sample.trimmed_is_a_file))
  /\ (find_probes_files "processed_data" Sample.read_only = (Ok [], Sample.read_only)
      /\ complete self Sample.read_only = (Ok false, Sample.read_only)
      /\ TrimProbesTable_run Sample.ext "GSE68849" "data" "processed_data"
           "trimmed_probes" Sample.read_only
         = (Raise (PermissionError "trimmed_probes"), Sample.read_only)
      /\ build Sample.ext self Sample.read_only
         = (Raise (PermissionError "trimmed_probes"), Sample.read_only)).
Proof. repeat split; reflexivity. Qed.

(** X19: creating the output directory changes nothing to the tables that
    the search finds, wherever the output directory lies, inside the
    processed directory included.  So a processed directory in which there
    is no table before the run makes [TrimProbesTable.run] raise the
    [FileNotFoundError] of the program as soon as its output directory can
    be created. *)
Theorem creating_the_output_directory_adds_no_table
    (ext : External) (dataset_id download_dir processed_data_dir output_dir : string)
    (w w1 : world) :
  os.makedirs output_dir w = (Ok tt, w1) ->
  fst (find_probes_files processed_data_dir w1)
  = fst (find_probes_files processed_data_dir w)
  /\ (find_probes_files processed_data_dir w = (Ok [], w) ->
      fst (TrimProbesTable_run ext dataset_id download_dir processed_data_dir
             output_dir w)
      = Raise (FileNotFoundError
                 ("No Probes files found in the directory: " +:+ processed_data_dir))).
Proof.
  intros Hmk.
  assert (Hsame : fst (find_probes_files processed_data_dir w1)
                  = fst (find_probes_files processed_data_dir w)).
  { rewrite !find_probes_files_eq. cbn [fst]. f_equal.
    unfold os.makedirs in Hmk. unfold os.node_at.
    destruct (fs.resolve output_dir) as [p|]; [|discriminate].
    unfold update_tree in Hmk.
    destruct (fs.makedirs_at output_dir p (root w)) as [t|e] eqn:E; [|discriminate].
    injection Hmk as <-. cbn [root].
    destruct (fs.resolve processed_data_dir) as [q|]; [|reflexivity].
    exact (makedirs_at_probes output_dir p _ _ E q processed_data_dir). }
  split; [exact Hsame|].
  intros Hnone. rewrite Hnone in Hsame. cbn [fst] in Hsame.
  assert (Hfind : find_probes_files processed_data_dir w1 = (Ok [], w1)).
  { rewrite find_probes_files_eq in *. cbn [fst] in Hsame.
    injection Hsame as ->. reflexivity. }
  unfold TrimProbesTable_run, mbind, M_bind, bind. rewrite Hmk, Hfind.
  unfold logging.error, emit. cbn [when raise]. reflexivity.
Qed.

(** The theorem where the output directory is created inside the processed
    directory, which holds no table. *)
Lemma creating_the_output_directory_adds_no_table_witness :
  fst (find_probes_files "processed_data"
         (snd (os.makedirs "processed_data/trimmed" Sample.no_tables)))
  = fst (find_probes_files "processed_data" Sample.no_tables)
  /\ fst (TrimProbesTable_run Sample.ext "GSE68849" "data" "processed_data"
            "processed_data/trimmed" Sample.no_tables)
     = Raise (FileNotFoundError
                "No Probes files found in the directory: processed_data").
Proof.
  destruct (creating_the_output_directory_adds_no_table Sample.ext
              "GSE68849" "data" "processed_data" "processed_data/trimmed"
              Sample.no_tables
              (snd (os.makedirs "processed_data/trimmed" Sample.no_tables))
              eq_refl) as (Hsame & Hrun).
  split; [exact Hsame | exact (Hrun eq_refl)].
Defined.

(** * Further properties: the cleaner stays inside the processed directory *)

Lemma split_on_cons (c : ascii) (s : string) : exists w ws, Py.split_on c s = w :: ws.
Proof.
  induction s as [|a s (w & ws & IH)]; simpl; [eauto|].
  destruct (Ascii.eqb a c); [eauto|]. rewrite IH. eauto.
Qed.

Lemma split_on_sep (c : ascii) (a b : string) :
  Py.split_on c (a +:+ String c b) = Py.split_on c a ++ Py.split_on c b.
Proof.
  induction a as [|x a IH].
  - simpl. now rewrite Ascii.eqb_refl.
  - rewrite append_cons. simpl. destruct (Ascii.eqb x c).
    + now rewrite IH.
    + rewrite IH. destruct (split_on_cons c a) as (w & ws & ->). reflexivity.
Qed.

Lemma components_sep (a b : string) :
  fs.components (a +:+ String os_path.sep b) = fs.components a ++ fs.components b.
Proof. unfold fs.components. now rewrite split_on_sep, filter_app. Qed.

Lemma endswith_sep (a : string) :
  Py.endswith a "/" = true -> exists a', a = a' +:+ "/".
Proof.
  unfold Py.endswith. cbn [Py.rev_string].
  destruct (Py.rev_string a EmptyString) as [|x r] eqn:E; [discriminate|].
  rewrite prefix_char. intros Hx. apply Ascii.eqb_eq in Hx. subst x.
  exists (Py.rev_string r EmptyString).
  rewrite <- (rev_string_involutive a), E. simpl.
  now rewrite (rev_string_acc r).
Qed.

(** The components of a joined path: those of the directory, then those of
    the name. *)
Lemma components_join (top n : string) :
  Py.startswith n "/" = false ->
  fs.components (os_path.join top n) = fs.components top ++ fs.components n.
Proof.
  intros Hn. unfold os_path.join. rewrite Hn.
  destruct (String.eqb_spec top EmptyString) as [->|Hne]; [reflexivity|].
  cbn [orb]. destruct (Py.endswith top "/") eqn:He.
  - destruct (endswith_sep top He) as (a & ->).
    rewrite append_assoc. change ("/" +:+ n) with (String os_path.sep n).
    change (a +:+ "/") with (a +:+ String os_path.sep EmptyString).
    rewrite !components_sep. change (fs.components EmptyString) with (@nil string).
    now rewrite app_nil_r.
  - change (top +:+ "/" +:+ n) with (top +:+ String os_path.sep n).
    apply components_sep.
Qed.

Lemma under_join (p : list string) (top n : string) :
  Py.startswith n "/" = false -> under p top -> under p (os_path.join top n).
Proof.
  intros Hn (rest & Htop). exists (rest ++ fs.components n).
  now rewrite (components_join top n Hn), Htop, app_assoc.
Qed.

Lemma apart_app (p rest q : list string) :
  apart p q = true -> apart (p ++ rest) q = true.
Proof.
  revert q. induction p as [|a p IH]; intros q; simpl; [discriminate|].
  destruct q as [|b q]; [discriminate|].
  destruct (String.eqb a b); [apply IH | reflexivity].
Qed.

(** An induction principle that reaches the entries of a directory. *)
Lemma node_entries_ind (P : fs.node -> Prop) :
  (forall d, P (fs.File d)) ->
  (forall wr es, Forall (fun e => P (snd e)) es -> P (fs.Dir wr es)) ->
  forall t, P t.
Proof.
  intros HF HD. fix IH 1. intros [d|wr es]; [apply HF|]. apply HD.
  induction es as [|[n c] es IHes]; constructor; [apply IH | exact IHes].
Qed.

Lemma names_ok_dir (wr : bool) (es : list (string * fs.node)) :
  names_ok (fs.Dir wr es) = true <->
  Forall (fun e => Py.in_chars os_path.sep (fst e) = false /\ names_ok (snd e) = true) es.
Proof.
  cbn [names_ok]. induction es as [|e es IH]; cbn [forallb].
  - split; [constructor | reflexivity].
  - rewrite !andb_true_iff, negb_true_iff, IH. split.
    + intros ((H1 & H2) & H3). now constructor.
    + intros H. inversion H; subst. tauto.
Qed.

Lemma lookup_entry_In (n : string) (c : fs.node) (es : list (string * fs.node)) :
  fs.lookup_entry n es = Some c -> In (n, c) es.
Proof.
  induction es as [|[k c0] es IH]; simpl; [discriminate|].
  destruct (String.eqb_spec k n) as [->|_].
  - intros H. injection H as ->. now left.
  - intros H. right. now apply IH.
Qed.

Lemma Forall_replace_entry (Q : string * fs.node -> Prop) (n : string) (c c' : fs.node)
    (es : list (string * fs.node)) :
  fs.lookup_entry n es = Some c -> Q (n, c') -> Forall Q es ->
  Forall Q (fs.replace_entry n c' es).
Proof.
  intros Hl Hq. induction es as [|[k c0] es IH]; simpl in *; [discriminate|].
  intros H. inversion H as [|? ? Hk Hes]; subst.
  destruct (String.eqb_spec k n) as [->|_].
  - now constructor.
  - constructor; [exact Hk | now apply IH].
Qed.

Lemma Forall_remove_entry (Q : string * fs.node -> Prop) (n : string)
    (es : list (string * fs.node)) :
  Forall Q es -> Forall Q (fs.remove_entry n es).
Proof.
  unfold fs.remove_entry. induction 1 as [|e es He _ IH]; [constructor|].
  destruct (String.eqb (fst e) n) eqn:E.
  - rewrite filter_cons_False by (rewrite E; discriminate). exact IH.
  - rewrite filter_cons_True by exact E. now constructor.
Qed.

(** A removal at [p] leaves proper names and changes nothing away from
    [p]. *)
Lemma at_entry_confined (path : string) (p : list string)
    (act : bool -> option fs.node -> result (option fs.node)) :
  (forall wr x r, act wr x = Ok r -> r = None) ->
  forall t t', fs.at_entry path p act t = Ok t' ->
    (names_ok t = true -> names_ok t' = true) /\ untouched_outside p t t'.
Proof.
  intros Hact. induction p as [|n p IH]; intros t t'; simpl; [discriminate|].
  destruct t as [|wr es]; [discriminate|].
  destruct p as [|n' p'].
  - destruct (act wr (fs.lookup_entry n es)) as [r|e] eqn:E; cbn [rbind];
      [|intros H; discriminate H].
    intros H. injection H as <-. rewrite (Hact _ _ _ E). cbn [fs.set_entry]. split.
    + intros Hok. apply names_ok_dir. apply Forall_remove_entry.
      now apply (names_ok_dir wr).
    + intros [|m q]; cbn [apart fs.lookup]; [intros H; discriminate H|].
      rewrite lookup_entry_remove.
      destruct (String.eqb n m); [intros H; discriminate H | reflexivity].
  - destruct (fs.lookup_entry n es) as [c|] eqn:Ec; cbv beta iota;
      [|intros H; discriminate H].
    destruct (fs.at_entry path (n' :: p') act c) as [c'|e] eqn:E; cbn [rbind];
      [|intros H; discriminate H].
    intros H. injection H as <-. destruct (IH c c' E) as (Hok' & Hout). split.
    + intros Hok. apply names_ok_dir. apply (names_ok_dir wr) in Hok.
      apply (Forall_replace_entry _ n c c' es Ec); [|exact Hok].
      pose proof (proj1 (List.Forall_forall _ _) Hok _ (lookup_entry_In _ _ _ Ec))
        as (Hn & Hc).
      split; [exact Hn | exact (Hok' Hc)].
    + intros [|m q]; cbn [apart fs.lookup]; [intros H; discriminate H|].
      rewrite lookup_entry_replace.
      destruct (String.eqb_spec n m) as [<-|_]; [|reflexivity].
      rewrite Ec. apply Hout.
Qed.

Lemma untouched_outside_refl (p : list string) (t : fs.node) : untouched_outside p t t.
Proof. intros q _. reflexivity. Qed.

Lemma untouched_outside_trans (p : list string) (t1 t2 t3 : fs.node) :
  untouched_outside p t1 t2 -> untouched_outside p t2 t3 -> untouched_outside p t1 t3.
Proof. intros H1 H2 q Hq. now rewrite (H2 q Hq), (H1 q Hq). Qed.

Lemma confined_ret {A} (p : list string) (a : A) : confined p (ret a).
Proof.
  intros w r w' H Hok. injection H as <- <-.
  split; [exact Hok | apply untouched_outside_refl].
Qed.

Lemma confined_emit (p : list string) (l : level) (msg : string) :
  confined p (emit l msg).
Proof.
  intros w r w' H Hok. injection H as <- <-.
  split; [exact Hok | apply untouched_outside_refl].
Qed.

Lemma confined_bind {A B} (p : list string) (m : M A) (k : A -> M B) :
  confined p m -> (forall a, confined p (k a)) -> confined p (bind m k).
Proof.
  intros Hm Hk w r w' H Hok. unfold bind in H.
  destruct (m w) as [[a|e] w1] eqn:E.
  - destruct (Hm _ _ _ E Hok) as (Hok1 & O1).
    destruct (Hk a _ _ _ H Hok1) as (Hok2 & O2).
    split; [exact Hok2 | exact (untouched_outside_trans _ _ _ _ O1 O2)].
  - injection H as <- <-. exact (Hm _ _ _ E Hok).
Qed.

Lemma confined_for_each {A} (p : list string) (xs : list A) (body : A -> M unit) :
  Forall (fun x => confined p (body x)) xs -> confined p (for_each xs body).
Proof.
  induction 1 as [|x xs Hx _ IH]; cbn [for_each].
  - apply confined_ret.
  - apply confined_bind; [exact Hx | intros _; exact IH].
Qed.

Lemma confined_when (p : list string) (b : bool) (m : M unit) :
  confined p m -> confined p (when b m).
Proof. intros Hm. destruct b; [exact Hm | apply confined_ret]. Qed.

(** A step that looks at the world without changing it. *)
Lemma confined_read {A B} (p : list string) (f : world -> A) (k : A -> M B) :
  (forall w, names_ok (root w) = true -> confined p (k (f w))) ->
  confined p (bind (fun w => (Ok (f w), w)) k).
Proof. intros Hk w r w' H Hok. unfold bind in H. exact (Hk w Hok w r w' H Hok). Qed.

Lemma confined_try_except {A} (p : list string) (body : M A) (catches : exn -> bool)
    (handler : exn -> M A) :
  confined p body -> (forall e, confined p (handler e)) ->
  confined p (try_except body catches handler).
Proof.
  intros Hb Hh w r w' H Hok. unfold try_except in H.
  destruct (body w) as [[a|e] w1] eqn:E.
  - injection H as <- <-. exact (Hb _ _ _ E Hok).
  - destruct (Hb _ _ _ E Hok) as (Hok1 & O1). destruct (catches e).
    + destruct (Hh e _ _ _ H Hok1) as (Hok2 & O2).
      split; [exact Hok2 | exact (untouched_outside_trans _ _ _ _ O1 O2)].
    + injection H as <- <-. now split.
Qed.

(** A removal at a path under [p]. *)
Lemma confined_on_entry (p : list string) (path : string)
    (act : bool -> option fs.node -> result (option fs.node)) :
  (forall wr x r, act wr x = Ok r -> r = None) ->
  under p path -> confined p (os.on_entry path act).
Proof.
  intros Hact (rest & Hp) w r w' H Hok. unfold os.on_entry, fs.resolve in H.
  destruct path as [|a path'].
  - injection H as <- <-. split; [exact Hok | apply untouched_outside_refl].
  - rewrite Hp in H. unfold update_tree in H.
    destruct (fs.at_entry (String a path') (p ++ rest) act (root w)) as [t|e] eqn:E.
    + injection H as <- <-. cbn [root].
      destruct (at_entry_confined _ _ act Hact _ _ E) as (Hok' & Hout).
      split; [exact (Hok' Hok)|].
      intros q Hq. apply Hout. now apply apart_app.
    + injection H as <- <-. split; [exact Hok | apply untouched_outside_refl].
Qed.

Lemma remove_act_none (path : string) (wr : bool) (x r : option fs.node) :
  fs.remove_act path wr x = Ok r -> r = None.
Proof.
  unfold fs.remove_act. destruct x as [[d|wr' es]|]; try discriminate.
  destruct wr; [|discriminate]. intros H. now injection H.
Qed.

Lemma rmdir_act_none (path : string) (wr : bool) (x r : option fs.node) :
  fs.rmdir_act path wr x = Ok r -> r = None.
Proof.
  unfold fs.rmdir_act. destruct x as [[d|wr' es]|]; try discriminate.
  destruct wr; [|discriminate]. destruct es; [|discriminate].
  intros H. now injection H.
Qed.

Lemma confined_delete_file (p : list string) (file : string) :
  under p file -> confined p (delete_file file).
Proof.
  intros Hu. unfold delete_file, mbind, M_bind, os.path_isfile.
  apply confined_read. intros w _. apply confined_when.
  apply confined_bind; [apply confined_emit|]. intros _.
  apply confined_try_except; [|intros e; apply confined_emit].
  apply confined_bind; [|intros _; apply confined_emit].
  apply confined_on_entry; [apply remove_act_none | exact Hu].
Qed.

Lemma confined_delete_dir (p : list string) (dir_path : string) :
  under p dir_path -> confined p (delete_dir dir_path).
Proof.
  intros Hu. unfold delete_dir, mbind, M_bind.
  apply confined_try_except; [|intros e; apply confined_emit].
  apply confined_bind; [|intros _; apply confined_emit].
  apply confined_on_entry; [apply rmdir_act_none | exact Hu].
Qed.

(** The names that a walk reports in a directory are names of its
    entries. *)
Lemma walk_names (es : list (string * fs.node)) (n : string) :
  In n (fs.dir_names es ++ fs.file_names es) -> exists c, In (n, c) es.
Proof.
  unfold fs.dir_names, fs.file_names. rewrite in_app_iff, !in_map_iff.
  intros [([k c] & <- & H)|([k c] & <- & H)];
    apply list_elem_of_In, list_elem_of_filter in H as (_ & H);
    apply list_elem_of_In in H; now exists c.
Qed.

Lemma names_under (p : list string) (top : string) (wr : bool)
    (es : list (string * fs.node)) :
  names_ok (fs.Dir wr es) = true -> under p top ->
  Forall (fun d => under p (os_path.join top d)) (fs.dir_names es ++ fs.file_names es).
Proof.
  intros Hok Hu. apply names_ok_dir in Hok. apply List.Forall_forall. intros n Hn.
  destruct (walk_names es n Hn) as (c & Hc).
  apply (proj1 (List.Forall_forall _ _) Hok) in Hc as (Hname & _).
  apply under_join; [now apply startswith_sep_false | exact Hu].
Qed.

Lemma walk_topdown_under (p : list string) (t : fs.node) :
  forall top, names_ok t = true -> under p top ->
  triples_under p (fs.walk_topdown top t).
Proof.
  induction t as [d|wr es IH] using node_entries_ind; intros top Hok Hu.
  - constructor.
  - cbn [fs.walk_topdown]. constructor; [now apply (names_under p top wr)|].
    apply names_ok_dir in Hok. clear wr.
    induction es as [|[n c] es IHes]; [constructor|].
    inversion IH as [|? ? Hc Hes]; subst. inversion Hok as [|? ? (Hn & Hcok) Hesok]; subst.
    apply Forall_app. split.
    + apply Hc; [exact Hcok|].
      apply under_join; [now apply startswith_sep_false | exact Hu].
    + now apply IHes.
Qed.

Lemma walk_bottomup_under (p : list string) (t : fs.node) :
  forall top, names_ok t = true -> under p top ->
  triples_under p (fs.walk_bottomup top t).
Proof.
  induction t as [d|wr es IH] using node_entries_ind; intros top Hok Hu.
  - constructor.
  - cbn [fs.walk_bottomup]. apply Forall_app. split.
    + apply names_ok_dir in Hok. clear wr.
      induction es as [|[n c] es IHes]; [constructor|].
      inversion IH as [|? ? Hc Hes]; subst.
      inversion Hok as [|? ? (Hn & Hcok) Hesok]; subst.
      apply Forall_app. split.
      * apply Hc; [exact Hcok|].
      apply under_join; [now apply startswith_sep_false | exact Hu].
      * now apply IHes.
    + constructor; [now apply (names_under p top wr) | constructor].
Qed.

Lemma lookup_names_ok (q : list string) :
  forall t n, names_ok t = true -> fs.lookup t q = Some n -> names_ok n = true.
Proof.
  induction q as [|m q IH]; intros t n Hok; cbn [fs.lookup].
  - intros H. now injection H as <-.
  - destruct t as [d|wr es]; [discriminate|].
    destruct (fs.lookup_entry m es) as [c|] eqn:Ec; [|discriminate].
    apply names_ok_dir in Hok.
    destruct (proj1 (List.Forall_forall _ _) Hok _ (lookup_entry_In _ _ _ Ec))
      as (_ & Hc).
    now apply IH.
Qed.

Lemma node_at_names_ok (w : world) (path : string) (t : fs.node) :
  names_ok (root w) = true -> os.node_at w path = Some t -> names_ok t = true.
Proof.
  unfold os.node_at. destruct (fs.resolve path) as [q|]; [|discriminate].
  intros Hok. now apply lookup_names_ok.
Qed.

Lemma under_self (path : string) : under (fs.components path) path.
Proof. exists []. now rewrite app_nil_r. Qed.

Lemma confined_DeleteOriginalData_run
    (dataset_id download_dir processed_data_dir output_dir : string) :
  confined (fs.components processed_data_dir)
    (DeleteOriginalData_run dataset_id download_dir processed_data_dir output_dir).
Proof.
  set (p := fs.components processed_data_dir).
  unfold DeleteOriginalData_run, find_original_items, mbind, M_bind, mret, M_ret.
  unfold os.walk, os.walk_bottomup.
  intros w r w'. unfold bind at 1 2. unfold ret at 1. intros H Hok.
  assert (Hitems : triples_under p
            match os.node_at w processed_data_dir with
            | Some t => fs.walk_topdown processed_data_dir t
            | None => []
            end).
  { destruct (os.node_at w processed_data_dir) as [t|] eqn:Et; [|constructor].
    apply walk_topdown_under; [exact (node_at_names_ok _ _ _ Hok Et) | apply under_self]. }
  revert H Hok.
  match goal with
  | |- bind (logging.info ?m) ?k w = _ -> _ =>
      intros H Hok; refine (confined_bind p (logging.info m) k _ _ w r w' H Hok);
        [apply confined_emit|]
  end.
  intros _. clear H Hok.
  match goal with
  | |- confined p (match ?items with [] => _ | _ :: _ => _ end) =>
      assert (Hunder : Forall (under p) items);
        [|destruct items as [|it its]]
  end.
  { clear -Hitems. induction Hitems as [|[[r0 dirs] files] triples Ht _ IH];
      [constructor|].
    cbn [flat_map]. apply Forall_app. split; [|exact IH].
    rewrite <- map_app. apply List.Forall_forall. intros x Hx.
    apply in_map_iff in Hx as (d & <- & Hd).
    exact (proj1 (List.Forall_forall _ _) Ht d Hd). }
  - apply confined_emit.
  - apply confined_bind.
    { apply confined_for_each. revert Hunder. apply List.Forall_impl.
      intros f Hf. now apply confined_delete_file. }
    intros _. apply confined_read. intros w1 Hok1.
    apply confined_bind.
    { apply confined_for_each.
      assert (Hb : triples_under p
                match os.node_at w1 processed_data_dir with
                | Some t => fs.walk_bottomup processed_data_dir t
                | None => []
                end).
      { destruct (os.node_at w1 processed_data_dir) as [t|] eqn:Et; [|constructor].
        apply walk_bottomup_under;
          [exact (node_at_names_ok _ _ _ Hok1 Et) | apply under_self]. }
      revert Hb. apply List.Forall_impl. intros [[r0 dirs] files] Ht.
      apply confined_for_each. apply Forall_app in Ht as (Hd & _).
      revert Hd. apply List.Forall_impl. intros d Hd. now apply confined_delete_dir. }
    intros _. unfold os.rmdir.
    apply confined_try_except; [|intros e; apply confined_emit].
    apply confined_bind; [|intros _; apply confined_emit].
    apply confined_on_entry; [apply rmdir_act_none | apply under_self].
Qed.

(** X20: [DeleteOriginalData.run] stays inside the processed directory.
    In a tree whose entry names are proper names (none holds a [/]), and
    for a processed directory whose path does not go up ([..] is not one of
    its components), however the run ends, every path that parts ways with
    the path of the processed directory leads after the run to what it led
    to before: what the other stages wrote elsewhere, the downloaded archive
    and the trimmed tables, is as it was. *)
Theorem cleaner_stays_inside_the_processed_directory
    (dataset_id download_dir processed_data_dir output_dir : string)
    (w w' : world) (r : result unit) (q : list string) :
  names_ok (root w) = true ->
  ~ In ".." (fs.components processed_data_dir) ->
  DeleteOriginalData_run dataset_id download_dir processed_data_dir output_dir w
  = (r, w') ->
  apart (fs.components processed_data_dir) q = true ->
  fs.lookup (root w') q = fs.lookup (root w) q.
Proof.
  intros Hok _ H Hq.
  exact (proj2 (confined_DeleteOriginalData_run dataset_id download_dir
                  processed_data_dir output_dir w r w' H Hok) q Hq).
Qed.

(** The theorem on the tree that the trimming of one table leaves: the
    cleaning removes the processed directory, and the directory of the
    trimmed tables is as it was. *)
Lemma cleaner_stays_inside_the_processed_directory_witness :
  fs.lookup
    (root (snd (DeleteOriginalData_run "GSE68849" "data" "processed_data"
                  "trimmed_probes" (snd Sample.trim_one_table))))
    ["trimmed_probes"]
  = fs.lookup (root (snd Sample.trim_one_table)) ["trimmed_probes"]
  /\ fs.lookup
       (root (snd (DeleteOriginalData_run "GSE68849" "data" "processed_data"
                     "trimmed_probes" (snd Sample.trim_one_table))))
       ["processed_data"]
     = None.
Proof.
  split; [|reflexivity].
  apply (cleaner_stays_inside_the_processed_directory
           "GSE68849" "data" "processed_data" "trimmed_probes"
           (snd Sample.trim_one_table)
           (snd (DeleteOriginalData_run "GSE68849" "data" "processed_data"
                   "trimmed_probes" (snd Sample.trim_one_table)))
           (fst (DeleteOriginalData_run "GSE68849" "data" "processed_data"
                   "trimmed_probes" (snd Sample.trim_one_table)))).
  - reflexivity.
  - vm_compute. intros [H|[]]. discriminate H.
  - vm_compute. reflexivity.
  - reflexivity.
Defined.

(** * Further properties: the trimming writes in its output directory *)

(** Whatever is done to the entry at [p], nothing changes away from [p]. *)
Lemma at_entry_outside (path : string) (p : list string)
    (act : bool -> option fs.node -> result (option fs.node)) :
  forall t t', fs.at_entry path p act t = Ok t' -> untouched_outside p t t'.
Proof.
  induction p as [|n p IH]; intros t t'; simpl; [discriminate|].
  destruct t as [|wr es]; [discriminate|].
  destruct p as [|n' p'].
  - destruct (act wr (fs.lookup_entry n es)) as [r|e] eqn:E; cbn [rbind];
      [|intros H; discriminate H].
    intros H. injection H as <-.
    intros [|m q]; cbn [apart fs.lookup]; [intros H; discriminate H|].
    destruct (String.eqb_spec n m) as [->|Hne]; [intros H; discriminate H|].
    intros _. destruct r as [c|]; cbn [fs.set_entry].
    + rewrite lookup_entry_replace.
      now destruct (String.eqb_spec n m) as [->|_].
    + rewrite lookup_entry_remove.
      now destruct (String.eqb_spec n m) as [->|_].
  - destruct (fs.lookup_entry n es) as [c|] eqn:Ec; cbv beta iota;
      [|intros H; discriminate H].
    destruct (fs.at_entry path (n' :: p') act c) as [c'|e] eqn:E; cbn [rbind];
      [|intros H; discriminate H].
    intros H. injection H as <-.
    intros [|m q]; cbn [apart fs.lookup]; [intros H; discriminate H|].
    rewrite lookup_entry_replace.
    destruct (String.eqb_spec n m) as [<-|_]; [|reflexivity].
    rewrite Ec. apply (IH c c' E).
Qed.

Lemma makedirs_at_outside (path : string) (p : list string) :
  forall t t', fs.makedirs_at path p t = Ok t' -> untouched_outside p t t'.
Proof.
  induction p as [|n p IH]; intros t t'; simpl.
  - intros _ q H. discriminate H.
  - destruct t as [|wr es]; [discriminate|].
    destruct (fs.lookup_entry n es) as [c|] eqn:Ec.
    + destruct (fs.makedirs_at path p c) as [c'|e] eqn:E; cbn [rbind];
        [|intros H; discriminate H].
      intros H. injection H as <-.
      intros [|m q]; cbn [apart fs.lookup]; [intros H; discriminate H|].
      rewrite lookup_entry_replace.
      destruct (String.eqb_spec n m) as [<-|_]; [|reflexivity].
      rewrite Ec. apply (IH c c' E).
    + destruct wr; [|discriminate].
      destruct (fs.makedirs_at path p (fs.Dir true [])) as [c'|e] eqn:E; cbn [rbind];
        [|intros H; discriminate H].
      intros H. injection H as <-.
      intros [|m q]; cbn [apart fs.lookup]; [intros H; discriminate H|].
      rewrite lookup_entry_replace.
      destruct (String.eqb_spec n m) as [<-|_]; [|reflexivity].
      rewrite Ec. intros Hq. rewrite (IH _ c' E q Hq).
      destruct p as [|a p]; [discriminate Hq|].
      destruct q as [|b q]; [discriminate Hq | reflexivity].
Qed.

Lemma framed_ret {A} (p : list string) (a : A) : framed p (ret a).
Proof. intros w r w' H. injection H as <- <-. apply untouched_outside_refl. Qed.

Lemma framed_emit (p : list string) (l : level) (msg : string) : framed p (emit l msg).
Proof. intros w r w' H. injection H as <- <-. apply untouched_outside_refl. Qed.

Lemma framed_raise {A} (p : list string) (e : exn) : framed p (@raise A e).
Proof. intros w r w' H. injection H as <- <-. apply untouched_outside_refl. Qed.

Lemma framed_lift {A} (p : list string) (x : result A) : framed p (lift x).
Proof. intros w r w' H. injection H as <- <-. apply untouched_outside_refl. Qed.

Lemma framed_bind {A B} (p : list string) (m : M A) (k : A -> M B) :
  framed p m -> (forall a, framed p (k a)) -> framed p (bind m k).
Proof.
  intros Hm Hk w r w' H. unfold bind in H.
  destruct (m w) as [[a|e] w1] eqn:E.
  - exact (untouched_outside_trans _ _ _ _ (Hm _ _ _ E) (Hk a _ _ _ H)).
  - injection H as <- <-. exact (Hm _ _ _ E).
Qed.

Lemma framed_for_each {A} (p : list string) (xs : list A) (body : A -> M unit) :
  (forall x, framed p (body x)) -> framed p (for_each xs body).
Proof.
  intros Hb. induction xs as [|x xs IH]; cbn [for_each].
  - apply framed_ret.
  - apply framed_bind; [apply Hb | intros _; exact IH].
Qed.

Lemma framed_when (p : list string) (b : bool) (m : M unit) :
  framed p m -> framed p (when b m).
Proof. intros Hm. destruct b; [exact Hm | apply framed_ret]. Qed.

Lemma framed_try_except {A} (p : list string) (body : M A) (catches : exn -> bool)
    (handler : exn -> M A) :
  framed p body -> (forall e, framed p (handler e)) ->
  framed p (try_except body catches handler).
Proof.
  intros Hb Hh w r w' H. unfold try_except in H.
  destruct (body w) as [[a|e] w1] eqn:E.
  - injection H as <- <-. exact (Hb _ _ _ E).
  - destruct (catches e).
    + exact (untouched_outside_trans _ _ _ _ (Hb _ _ _ E) (Hh e _ _ _ H)).
    + injection H as <- <-. exact (Hb _ _ _ E).
Qed.

Lemma framed_read_file (p : list string) (path : string) : framed p (read_file path).
Proof.
  intros w r w' H. unfold read_file in H.
  destruct (os.node_at w path) as [[d|wr es]|]; injection H as <- <-;
    apply untouched_outside_refl.
Qed.

Lemma framed_find_probes_files (p : list string) (processed_data_dir : string) :
  framed p (find_probes_files processed_data_dir).
Proof.
  intros w r w' H. rewrite find_probes_files_eq in H. injection H as <- <-.
  apply untouched_outside_refl.
Qed.

Lemma framed_on_entry (p : list string) (path : string)
    (act : bool -> option fs.node -> result (option fs.node)) :
  under p path -> framed p (os.on_entry path act).
Proof.
  intros (rest & Hp) w r w' H. unfold os.on_entry, fs.resolve in H.
  destruct path as [|a path'].
  - injection H as <- <-. apply untouched_outside_refl.
  - rewrite Hp in H. unfold update_tree in H.
    destruct (fs.at_entry (String a path') (p ++ rest) act (root w)) as [t|e] eqn:E;
      injection H as <- <-; [|apply untouched_outside_refl].
    cbn [root]. intros q Hq.
    apply (at_entry_outside _ _ act _ _ E). now apply apart_app.
Qed.

Lemma framed_makedirs (p : list string) (path : string) :
  under p path -> framed p (os.makedirs path).
Proof.
  intros (rest & Hp) w r w' H. unfold os.makedirs, fs.resolve in H.
  destruct path as [|a path'].
  - injection H as <- <-. apply untouched_outside_refl.
  - rewrite Hp in H. unfold update_tree in H.
    destruct (fs.makedirs_at (String a path') (p ++ rest) (root w)) as [t|e] eqn:E;
      injection H as <- <-; [|apply untouched_outside_refl].
    cbn [root]. intros q Hq.
    apply (makedirs_at_outside _ _ _ _ E). now apply apart_app.
Qed.

Lemma framed_target_write (p : list string) (path data : string) :
  under p (os_path.dirname path) -> under p path -> framed p (target_write path data).
Proof.
  intros Hd Hp. unfold target_write, mbind, M_bind.
  apply framed_bind; [|intros _; now apply framed_on_entry].
  apply framed_when. apply framed_try_except; [|intros e; apply framed_ret].
  now apply framed_makedirs.
Qed.

(** Splitting at the last separator: what comes after it holds none. *)
Lemma rsplit_Some (c : ascii) (s h b : string) :
  os_path.rsplit c s = Some (h, b) -> Py.in_chars c b = false.
Proof.
  revert h. induction s as [|x s IH]; intros h; simpl; [discriminate|].
  destruct (os_path.rsplit c s) as [[h' b']|] eqn:E.
  - intros H. injection H as _ <-. exact (IH h' eq_refl).
  - destruct (Ascii.eqb x c); [|discriminate].
    intros H. injection H as _ <-.
    clear IH. induction s as [|y s IH]; [reflexivity|].
    simpl in E. destruct (os_path.rsplit c s) as [[h' b']|]; [discriminate|].
    rewrite in_chars_cons. rewrite Ascii.eqb_sym.
    destruct (Ascii.eqb y c); [discriminate|]. now apply IH.
Qed.

Lemma rsplit_None (c : ascii) (s : string) :
  os_path.rsplit c s = None -> Py.in_chars c s = false.
Proof.
  induction s as [|y s IH]; [reflexivity|].
  simpl. destruct (os_path.rsplit c s) as [[h' b']|]; [discriminate|].
  rewrite in_chars_cons, (Ascii.eqb_sym c y).
  destruct (Ascii.eqb y c); cbn [orb]; [intros H; discriminate H|].
  intros _. now apply IH.
Qed.

Lemma basename_no_sep (path : string) :
  Py.in_chars os_path.sep (os_path.basename path) = false.
Proof.
  unfold os_path.basename.
  destruct (os_path.rsplit os_path.sep path) as [[h b]|] eqn:E.
  - exact (rsplit_Some _ _ _ _ E).
  - exact (rsplit_None _ _ E).
Qed.

(** Replacing in a name that does not start with a separator, by a text
    that does not either, gives a name that does not. *)
Lemma replace_startswith (s old new : string) :
  Py.startswith s "/" = false -> Py.startswith new "/" = false -> new <> EmptyString ->
  Py.startswith (Py.replace s old new) "/" = false.
Proof.
  intros Hs Hn Hne. unfold Py.replace. destruct old as [|o old]; [exact Hs|].
  destruct s as [|c s]; [reflexivity|]. cbn [String.length Py.replace_fuel].
  destruct (String.prefix (String o old) (String c s)).
  - destruct new as [|x new]; [contradiction|].
    rewrite append_cons. unfold Py.startswith in *.
    rewrite prefix_char in *. exact Hn.
  - unfold Py.startswith in *. rewrite prefix_char in *. exact Hs.
Qed.

Lemma confined_trimmed_path
    (dataset_id download_dir processed_data_dir output_dir file : string) :
  output_dir <> EmptyString -> Py.rstrip output_dir "/" = output_dir ->
  os_path.dirname
    (output (TrimProbesTable dataset_id download_dir processed_data_dir output_dir))
  = output_dir
  /\ under (fs.components output_dir)
       (output (TrimProbesTable dataset_id download_dir processed_data_dir output_dir))
  /\ under (fs.components output_dir)
       (trimmed_path
          (TrimProbesTable dataset_id download_dir processed_data_dir output_dir) file).
Proof.
  intros Hne Hr.
  destruct (join_split output_dir "Probes_trimmed.tsv" Hne Hr eq_refl) as (_ & _ & Hd).
  cbn [output]. split; [exact Hd|]. split.
  - apply under_join; [reflexivity | apply under_self].
  - unfold trimmed_path. cbn [output]. rewrite Hd.
    apply under_join; [|apply under_self].
    apply replace_startswith; [|reflexivity|discriminate].
    apply startswith_sep_false, basename_no_sep.
Qed.

(** X21: [TrimProbesTable.run] writes in its output directory only.  For
    an output directory given by a path without a trailing slash that does
    not go up, however the run ends, every path that parts ways with the path
    of the output directory leads after the run to what it led to before:
    the trimmed tables take their directory from the output target and only
    their name from the table read, so that the processed data are as they
    were when the output directory is not among them. *)
Theorem trimming_writes_in_its_output_directory
    (ext : External) (dataset_id download_dir processed_data_dir output_dir : string)
    (w w' : world) (r : result unit) (q : list string) :
  output_dir <> EmptyString -> Py.rstrip output_dir "/" = output_dir ->
  ~ In ".." (fs.components output_dir) ->
  TrimProbesTable_run ext dataset_id download_dir processed_data_dir output_dir w
  = (r, w') ->
  apart (fs.components output_dir) q = true ->
  fs.lookup (root w') q = fs.lookup (root w) q.
Proof.
  intros Hne Hr _ H Hq. revert q Hq.
  change (untouched_outside (fs.components output_dir) (root w) (root w')).
  revert w r w' H.
  change (framed (fs.components output_dir)
            (TrimProbesTable_run ext dataset_id download_dir processed_data_dir
               output_dir)).
  unfold TrimProbesTable_run, mbind, M_bind.
  apply framed_bind; [apply framed_makedirs, under_self|]. intros _.
  apply framed_bind; [apply framed_find_probes_files|]. intros probes_files.
  apply framed_bind.
  { apply framed_when. apply framed_bind; [apply framed_emit|]. intros _.
    apply framed_raise. }
  intros _. apply framed_bind.
  - apply framed_for_each. intros file. unfold trim_probes_file, mbind, M_bind.
    apply framed_bind; [apply framed_emit|]. intros _.
    apply framed_bind; [apply framed_read_file|]. intros text.
    apply framed_bind; [apply framed_lift|]. intros df.
    apply framed_bind; [|intros _; apply framed_emit].
    apply framed_on_entry.
    exact (proj2 (proj2 (confined_trimmed_path dataset_id download_dir
                           processed_data_dir output_dir file Hne Hr))).
  - intros _.
    destruct (confined_trimmed_path dataset_id download_dir processed_data_dir
                output_dir EmptyString Hne Hr) as (Hd & Ho & _).
    apply framed_target_write; [|exact Ho].
    rewrite Hd. apply under_self.
Qed.

(** The theorem on the processed data of the sample with one table: the
    trimming leaves them as they were. *)
Lemma trimming_writes_in_its_output_directory_witness :
  fs.lookup (root (snd Sample.trim_one_table)) ["processed_data"]
  = fs.lookup (root Sample.one_table) ["processed_data"].
Proof.
  apply (trimming_writes_in_its_output_directory Sample.ext
           "GSE68849" "data" "processed_data" "trimmed_probes"
           Sample.one_table (snd Sample.trim_one_table) (fst Sample.trim_one_table)).
  - discriminate.
  - reflexivity.
  - vm_compute. intros [H|[]]. discriminate H.
  - vm_compute. reflexivity.
  - reflexivity.
Defined.

(** * Sections of the same name: what is persisted *)

(** A line that opens a section sets the key and empties the buffer. *)
Lemma scan_line_opens (ext : External) (st st' : scan) (line : string) :
  Py.startswith line "[" = true -> scan_line ext st line = Ok st' ->
  write_key st' = Some (Py.strip line ("[]" +:+ Py.nl)) /\ fio st' = EmptyString.
Proof.
  intros Hl. unfold scan_line. rewrite Hl. intros H.
  apply rbind_Ok in H as (d & _ & H). injection H as <-. now split.
Qed.

(** While no section of a name is open or opened, what the dict holds for
    the name stays. *)
Lemma scan_line_keeps_key (ext : External) (key : string) (st st' : scan)
    (line : string) :
  scan_line ext st line = Ok st' ->
  write_key st <> Some key ->
  (Py.startswith line "[" = true -> Py.strip line ("[]" +:+ Py.nl) <> key) ->
  dict_get key (dfs st') = dict_get key (dfs st) /\ write_key st' <> Some key.
Proof.
  unfold scan_line. intros H Hk Hline.
  destruct (Py.startswith line "[").
  - apply rbind_Ok in H as (d & Hd & H). injection H as <-. cbn [dfs write_key].
    split; [|intros E; injection E as E; now apply Hline].
    destruct (write_key st) as [k|]; [|now injection Hd as <-].
    destruct (Py.truthy (Some k)); [|now injection Hd as <-].
    apply rbind_Ok in Hd as (df & _ & Hd). injection Hd as <-.
    apply dict_get_set_ne. intros ->. now apply Hk.
  - destruct (Py.truthy (write_key st)); injection H as <-; now split.
Qed.

Lemma scan_lines_keeps_key (ext : External) (key : string) (lines : list string) :
  forall st st',
    scan_lines ext st lines = Ok st' ->
    write_key st <> Some key ->
    Forall (fun l => Py.startswith l "[" = true ->
                     Py.strip l ("[]" +:+ Py.nl) <> key) lines ->
    dict_get key (dfs st') = dict_get key (dfs st) /\ write_key st' <> Some key.
Proof.
  induction lines as [|l lines IH]; intros st st' H Hk Hls; cbn [scan_lines] in H.
  - injection H as <-. now split.
  - apply rbind_Ok in H as (st1 & H1 & H).
    inversion Hls as [|? ? Hl Hrest]; subst.
    destruct (scan_line_keeps_key ext key _ _ _ H1 Hk Hl) as (E1 & Hk1).
    destruct (IH _ _ H Hk1 Hrest) as (E2 & Hk2).
    split; [now rewrite E2 | exact Hk2].
Qed.

Lemma scan_end_keeps_key (ext : External) (key : string) (st : scan)
    (tables : list (string * pd.DataFrame)) :
  scan_end ext st = Ok tables -> write_key st <> Some key ->
  dict_get key tables = dict_get key (dfs st).
Proof.
  unfold scan_end. intros H Hk.
  destruct (write_key st) as [k|]; [|now injection H as <-].
  destruct (Py.truthy (Some k)); [|now injection H as <-].
  apply rbind_Ok in H as (df & _ & H). injection H as <-.
  apply dict_get_set_ne. intros ->. now apply Hk.
Qed.

(** The table that a name holds at the end is the one read from the lines
    of the last section of that name. *)
Lemma parse_lines_last (ext : External) (before body rest : list string)
    (opening : string) (tables : list (string * pd.DataFrame)) :
  parse_lines ext (before ++ opening :: body ++ rest) = Ok tables ->
  Py.startswith opening "[" = true ->
  Py.truthy (Some (Py.strip opening ("[]" +:+ Py.nl))) = true ->
  Forall (fun l => Py.startswith l "[" = false) body ->
  closes rest ->
  Forall (fun l => Py.startswith l "[" = true ->
                   Py.strip l ("[]" +:+ Py.nl) <> Py.strip opening ("[]" +:+ Py.nl))
    rest ->
  exists df,
    pd.read_csv (mangle_dupe_cols ext) (pd.concat_lines body)
      (header_at (Py.strip opening ("[]" +:+ Py.nl)) rest) = Ok df
    /\ dict_get (Py.strip opening ("[]" +:+ Py.nl)) tables = Some df.
Proof.
  set (key := Py.strip opening ("[]" +:+ Py.nl)).
  intros H Hopen Hkey Hbody Hcloses Hrest.
  unfold parse_lines in H. apply rbind_Ok in H as (st_end & Hscan & Hend).
  rewrite scan_lines_app in Hscan. apply rbind_Ok in Hscan as (st1 & _ & Hscan).
  cbn [scan_lines] in Hscan. apply rbind_Ok in Hscan as (st2 & H2 & Hscan).
  destruct (scan_line_opens ext _ _ _ Hopen H2) as (Hk2 & Hf2). fold key in Hk2.
  rewrite scan_lines_app in Hscan.
  rewrite scan_lines_body in Hscan; [| now rewrite Hk2 | exact Hbody].
  cbn [rbind] in Hscan. rewrite Hk2, Hf2 in Hscan.
  change (EmptyString +:+ pd.concat_lines body) with (pd.concat_lines body) in Hscan.
  destruct rest as [|nxt rest].
  - cbn [scan_lines] in Hscan. injection Hscan as <-.
    rewrite (scan_end_key ext {| dfs := dfs st2; write_key := Some key;
                                  fio := pd.concat_lines body |} key eq_refl Hkey) in Hend.
    cbn [fio dfs] in Hend.
    apply rbind_Ok in Hend as (df & Hdf & Hend). injection Hend as <-.
    exists df. split; [exact Hdf | apply dict_get_set_eq].
  - cbn [closes] in Hcloses. cbn [scan_lines] in Hscan.
    rewrite (scan_line_open ext {| dfs := dfs st2; write_key := Some key;
                                   fio := pd.concat_lines body |} key nxt eq_refl Hkey
               Hcloses) in Hscan.
    cbn [fio dfs] in Hscan.
    apply rbind_Ok in Hscan as (st4 & H4 & Hscan).
    apply rbind_Ok in H4 as (df & Hdf & H4). injection H4 as <-.
    inversion Hrest as [|? ? Hnxt Hrest']; subst.
    destruct (scan_lines_keeps_key ext key _ _ _ Hscan) as (E & Hk);
      [cbn [write_key]; intros E; injection E as E; now apply Hnxt | exact Hrest' |].
    exists df. split; [exact Hdf|].
    rewrite (scan_end_keeps_key ext key _ _ Hend Hk), E. cbn [dfs].
    apply dict_get_set_eq.
Qed.

(** Writing a file leaves the files at the other places as they are. *)
Lemma at_entry_write_other (path data : string) (p : list string) :
  forall t t' q d,
    fs.at_entry path p (fs.write_act path data) t = Ok t' ->
    p <> q -> fs.lookup t q = Some (fs.File d) -> fs.lookup t' q = Some (fs.File d).
Proof.
  induction p as [|n p IH]; intros t t' q d; simpl; [discriminate|].
  destruct t as [|wr es]; [discriminate|].
  destruct p as [|n' p'].
  - destruct (fs.write_act path data wr (fs.lookup_entry n es)) as [r|e] eqn:E;
      cbn [rbind]; [|intros H; discriminate H].
    intros H Hne. injection H as <-.
    rewrite (write_act_result _ _ _ _ _ E). cbn [fs.set_entry].
    destruct q as [|m q']; cbn [fs.lookup]; [intros H; discriminate H|].
    rewrite lookup_entry_replace.
    destruct (String.eqb_spec n m) as [<-|_]; [|intros H; exact H].
    destruct (fs.lookup_entry n es) as [[d0|wr0 es0]|]; [| discriminate E |].
    + destruct q' as [|a q']; [now contradiction Hne | intros H; discriminate H].
    + intros H. discriminate H.
  - destruct (fs.lookup_entry n es) as [c|] eqn:Ec; cbv beta iota;
      [|intros H; discriminate H].
    destruct (fs.at_entry path (n' :: p') (fs.write_act path data) c) as [c'|e] eqn:E;
      cbn [rbind]; [|intros H; discriminate H].
    intros H Hne. injection H as <-.
    destruct q as [|m q']; cbn [fs.lookup]; [intros H; discriminate H|].
    rewrite lookup_entry_replace.
    destruct (String.eqb_spec n m) as [<-|_]; [|intros H; exact H].
    rewrite Ec. apply (IH c c' q' d E). intros Heq. apply Hne. now rewrite Heq.
Qed.

Lemma write_file_other (path data other d : string) (w w1 : world) :
  write_file path data w = (Ok tt, w1) ->
  fs.resolve path <> fs.resolve other ->
  read_file other w = (Ok d, w) -> read_file other w1 = (Ok d, w1).
Proof.
  unfold write_file, os.on_entry, read_file, os.node_at.
  destruct (fs.resolve path) as [p|]; [|discriminate].
  unfold update_tree.
  destruct (fs.at_entry path p (fs.write_act path data) (root w)) as [t|e] eqn:E;
    [|discriminate].
  intros H Hne. injection H as <-. cbn [root].
  destruct (fs.resolve other) as [q|]; [|discriminate].
  destruct (fs.lookup (root w) q) as [[d0|wr es]|] eqn:Eq; try discriminate.
  intros H. injection H as ->.
  rewrite (at_entry_write_other path data p _ _ q d E); [reflexivity | | exact Eq].
  intros Heq. apply Hne. now rewrite Heq.
Qed.

(** The tables written after a file do not touch it when they go to other
    places. *)
Lemma tables_written_elsewhere (file_path other d : string)
    (tables : list (string * pd.DataFrame)) :
  forall w w',
    for_each tables (fun '(key, df) =>
      write_file (table_path file_path key) (pd.to_csv df);;
      logging.info ("Saved processed file: " +:+ table_path file_path key)) w
    = (Ok tt, w') ->
    (forall key, In key (map fst tables) ->
       fs.resolve (table_path file_path key) <> fs.resolve other) ->
    read_file other w = (Ok d, w) -> read_file other w' = (Ok d, w').
Proof.
  induction tables as [|[k0 df0] tables IH]; intros w w'; cbn [for_each].
  - intros H _ Hr. injection H as <-. exact Hr.
  - unfold mbind, M_bind. unfold bind at 1 2.
    destruct (write_file (table_path file_path k0) (pd.to_csv df0) w)
      as [[[]|e] w1] eqn:Hw; [|discriminate].
    unfold logging.info at 1, emit at 1. intros H Hne Hr.
    apply (IH _ _ H); [intros key Hk; apply Hne; now right|].
    apply read_file_emit.
    apply (write_file_other _ _ _ _ _ _ Hw); [apply Hne; now left | exact Hr].
Qed.

(** After the tables are written, the file of a key holds the table of the
    key, unless the table of another key went to the same place. *)
Lemma tables_written (file_path key : string) (df : pd.DataFrame)
    (tables : list (string * pd.DataFrame)) :
  forall w w',
    for_each tables (fun '(key, df) =>
      write_file (table_path file_path key) (pd.to_csv df);;
      logging.info ("Saved processed file: " +:+ table_path file_path key)) w
    = (Ok tt, w') ->
    NoDup (map fst tables) ->
    dict_get key tables = Some df ->
    (forall key', In key' (map fst tables) -> key' <> key ->
       fs.resolve (table_path file_path key') <> fs.resolve (table_path file_path key)) ->
    read_file (table_path file_path key) w' = (Ok (pd.to_csv df), w').
Proof.
  induction tables as [|[k0 df0] tables IH]; intros w w'; cbn [for_each].
  - intros _ _ H. discriminate H.
  - unfold mbind, M_bind. unfold bind at 1 2.
    destruct (write_file (table_path file_path k0) (pd.to_csv df0) w)
      as [[[]|e] w1] eqn:Hw; [|discriminate].
    unfold logging.info at 1, emit at 1. cbn [map fst dict_get].
    intros H Hnd Hget Hne. apply NoDup_cons in Hnd as (Hk0 & Hnd).
    destruct (String.eqb_spec k0 key) as [->|Hk].
    + injection Hget as ->.
      apply (tables_written_elsewhere _ _ _ _ _ _ H).
      * intros key' Hin. apply Hne; [now right|].
        intros ->. apply Hk0. now apply list_elem_of_In.
      * apply read_file_emit. exact (proj1 (write_file_read _ _ _ _ Hw)).
    + apply (IH _ _ H Hnd Hget). intros key' Hin. apply Hne. now right.
Qed.

(** C9: in a file where the name of a section is the name of an earlier
    section, the data kept for the name are those of the later one.  For
    any file, and the last of its sections with a name that an earlier
    section has (whatever sections follow it), a [process_file] that
    returns has parsed the file into tables in which the name comes once and
    holds the table read from the lines of that last section alone, the
    first being overwritten; this table is the one written for the name, and
    the file of the name holds it afterwards unless the table of another
    name went to the very same place. *)
Theorem later_section_replaces_earlier
    (ext : External) (file_path text : string)
    (before body rest : list string) (opening : string) (w w' : world) :
  let key := Py.strip opening ("[]" +:+ Py.nl) in
  read_file file_path w = (Ok text, w) ->
  Py.readlines text = before ++ opening :: body ++ rest ->
  Py.startswith opening "[" = true -> Py.truthy (Some key) = true ->
  Forall (fun l => Py.startswith l "[" = false) body -> closes rest ->
  Exists (fun l => Py.startswith l "[" = true
                   /\ Py.strip l ("[]" +:+ Py.nl) = key) before ->
  Forall (fun l => Py.startswith l "[" = true ->
                   Py.strip l ("[]" +:+ Py.nl) <> key) rest ->
  process_file ext file_path w = (Ok tt, w') ->
  exists tables df,
    parse_sections ext text = Ok tables
    /\ pd.read_csv (mangle_dupe_cols ext) (pd.concat_lines body) (header_at key rest)
       = Ok df
    /\ dict_get key tables = Some df
    /\ NoDup (map fst tables)
    /\ ((forall key', In key' (map fst tables) -> key' <> key ->
           fs.resolve (table_path file_path key')
           <> fs.resolve (table_path file_path key)) ->
        read_file (table_path file_path key) w' = (Ok (pd.to_csv df), w')).
Proof.
  intros key Hread Hlines Hopen Hkey Hbody Hcloses _ Hrest Hrun.
  unfold process_file, mbind, M_bind in Hrun. unfold bind at 1 2 in Hrun.
  rewrite Hread in Hrun. unfold lift in Hrun.
  destruct (parse_sections ext text) as [tables|e] eqn:Hparse; [|discriminate].
  assert (Hlast : parse_lines ext (before ++ opening :: body ++ rest) = Ok tables).
  { rewrite <- Hlines. exact Hparse. }
  destruct (parse_lines_last ext _ _ _ _ _ Hlast Hopen Hkey Hbody Hcloses Hrest)
    as (df & Hdf & Hget).
  assert (Hnd : NoDup (map fst tables)).
  { exact (parse_lines_NoDup ext _ _ Hparse). }
  exists tables, df. split; [reflexivity|]. split; [exact Hdf|].
  split; [exact Hget|]. split; [exact Hnd|].
  intros Hne. exact (tables_written _ _ _ _ _ _ Hrun Hnd Hget Hne).
Qed.

(** The theorem on a file with two [Probes] sections followed by another
    section: the file written for [Probes] holds the rows of the second. *)
Lemma later_section_replaces_earlier_witness :
  read_file "processed_data/G.txt/G_Probes.tsv"
    (snd (process_file Sample.ext "processed_data/G.txt/G.txt" Sample.duplicate_file))
  = (Ok (Sample.line ["ID_REF"] +:+ Sample.line ["2"]),
     snd (process_file Sample.ext "processed_data/G.txt/G.txt" Sample.duplicate_file)).
Proof.
  destruct (later_section_replaces_earlier Sample.ext
              "processed_data/G.txt/G.txt"
              (pd.concat_lines Sample.duplicate_lines)
              [Sample.line ["[Probes]"]; Sample.line ["ID_REF"]; Sample.line ["1"]]
              [Sample.line ["ID_REF"]; Sample.line ["2"]]
              [Sample.line ["[Controls]"]; Sample.line ["Name"]; Sample.line ["x"]]
              (Sample.line ["[Probes]"])
              Sample.duplicate_file
              (snd (process_file Sample.ext "processed_data/G.txt/G.txt"
                      Sample.duplicate_file)))
    as (tables & df & Hparse & Hdf & _ & _ & Hfile).
  - reflexivity.
  - vm_compute. reflexivity.
  - reflexivity.
  - reflexivity.
  - repeat constructor.
  - reflexivity.
  - constructor. split; reflexivity.
  - repeat constructor; vm_compute; intros; discriminate.
  - vm_compute. reflexivity.
  - vm_compute in Hparse. injection Hparse as <-.
    vm_compute in Hdf. injection Hdf as <-.
    apply Hfile. intros key' [<-|[<-|[]]] Hne.
    + now contradiction Hne.
    + vm_compute. intros H. discriminate H.
Defined.

(** C9 as the specification states it fails on this file: the names [p/q]
    and [p//q] are two keys and one file.  The name [p/q] comes twice and the
    table kept for it is the one of its second section, yet the file of the
    name holds in the end the table of the section [p//q], which is written
    after it. *)
Lemma colliding_names_counterexample :
  let run := process_file Sample.ext "processed_data/G.txt/G.txt" Sample.colliding_file in
  fst run = Ok tt
  /\ (exists tables,
        parse_sections Sample.ext (pd.concat_lines Sample.colliding_lines) = Ok tables
        /\ map fst tables = ["p/q"; "p//q"]
        /\ dict_get "p/q" tables
           = Some {| pd.columns := [pd.StrLabel "ID_REF"]; pd.rows := [["2"]] |})
  /\ table_path "processed_data/G.txt/G.txt" "p/q" = "processed_data/G.txt/G_p/q.tsv"
  /\ read_file "processed_data/G.txt/G_p/q.tsv" (snd run)
     = (Ok (Sample.line ["ID_REF"] +:+ Sample.line ["3"]), snd run).
Proof.
  split; [reflexivity|]. split; [eexists; repeat split; reflexivity|].
  split; reflexivity.
Qed.
